(** * Sparelens dashboard: the remote view-state controller

    A shallow embedding of the two dashboard components of the frontend
    (the manual-pagination one and the table-library one) and of the
    properties their specification states about them.

    Each React state variable is a field of a [State] record and each
    [setX(v)] call is a function [setX v : State -> State]; a handler is the
    composition of its calls in program order.  An [async] callback is cut
    at its [await]: the part that runs at once, and the two continuations
    (response received, request failed), both of which still read the
    variables the callback closed over when it was called. *)

From Stdlib Require Import ZArith QArith.QArith_base String List Bool Lia.
From Stdlib Require Floats.SpecFloat.
From stdpp Require Import base option list strings gmap.

Local Open Scope Z_scope.
Local Open Scope string_scope.

(** ** JSON values as JavaScript sees them *)

Inductive JsNumber :=
| Finite (q : Q)
| Infinity (negative : bool)
| NaN.

Inductive JsValue :=
| JUndefined
| JNull
| JBool (b : bool)
| JNumber (n : JsNumber)
| JString (s : string)
| JObject.

(** [isNaN(n)] on a number. *)
Definition isNaN (n : JsNumber) : bool :=
  match n with NaN => true | _ => false end.

(** [typeof v === "number" && !isNaN(v as number)] *)
Definition isNumeric (v : JsValue) : bool :=
  match v with JNumber n => negb (isNaN n) | _ => false end.

(** A row is a [Record<string, unknown>]; [row[col]] of a missing key is
    [undefined]. *)
Definition rowGet (row : gmap string JsValue) (col : string) : JsValue :=
  default JUndefined (row !! col).

(** Truthiness of a [string | null | undefined]: [null], [undefined] and the
    empty string are falsy. *)
Definition truthy (v : option string) : bool :=
  match v with
  | None => false
  | Some s => negb (String.eqb s EmptyString)
  end.

(** [a || b] on such values. *)
Definition jsOr (a b : option string) : option string :=
  if truthy a then a else b.

(** [columns.includes(sel)]; a [null] is no element of a [string[]]. *)
Definition includes (columns : list string) (sel : option string) : bool :=
  match sel with
  | None => false
  | Some c => bool_decide (c ∈ columns)
  end.

(** ** The payloads of the three endpoints *)

Module UploadedFile.
Record t := mk {
  id : string;
  original_filename : string;
  upload_date : string }.
End UploadedFile.

Module TableData.
Record t := mk {
  data : list (gmap string JsValue);
  total_count : Z;
  page : Z;
  page_size : Z;
  columns : list string }.
End TableData.

Module ChartApiResponse.
Record t := mk {
  chart_type : string;
  data : list (gmap string JsValue);
  x_column : string;
  y_column : string }.
End ChartApiResponse.

(** ** Column inference

    Both components carry the same text; it reads a selection [selX], [selY]
    and calls [setSelectedXColumn] and [setSelectedYColumn] or not.  A call
    is recorded as [Some v] (with [v] the argument), no call as [None]. *)

(** [columns.find(col => data.slice(0, 5).some(row => typeof row[col] ===
    "number" && !isNaN(row[col])))] *)
Definition numericColumn (td : TableData.t) : option string :=
  find (fun col =>
          existsb (fun row => isNumeric (rowGet row col))
                  (take 5 (TableData.data td)))
       (TableData.columns td).

Definition inferX (td : TableData.t) (selX : option string)
  : option (option string) :=
  let columns := TableData.columns td in
  if (0 <? length columns)%nat then
    if negb (truthy selX) || negb (includes columns selX)
    then Some (columns !! 0%nat)
    else None
  else Some None.

Definition inferY (td : TableData.t) (selY : option string)
  : option (option string) :=
  let columns := TableData.columns td in
  if (0 <? length columns)%nat then
    if negb (truthy selY) || negb (includes columns selY)
    then Some (jsOr (jsOr (numericColumn td) (columns !! 1%nat))
                    (columns !! 0%nat))
    else None
  else Some None.

(** ** Selection after a dataset-list response

    The three-way conditional of [fetchFiles], which reads the selection
    [sel] the callback closed over. *)
Definition pickSelection (sel : option string) (data : list UploadedFile.t)
  : option (option string) :=
  if (0 <? length data)%nat && negb (truthy sel) then
    Some (UploadedFile.id <$> data !! 0%nat)
  else if (length data =? 0)%nat && truthy sel then
    Some None
  else if truthy sel
          && negb (existsb (fun f => bool_decide (Some (UploadedFile.id f) = sel)) data)
  then
    Some (if (0 <? length data)%nat
          then UploadedFile.id <$> data !! 0%nat else None)
  else None.

(** ** The manual-pagination dashboard *)

Module Manual.

Inductive SortOrder := asc | desc.

(** The [useState] variables of [DashboardPage].  The three that belong to
    the upload dialog ([isUploading], [fileUploadError],
    [isUploadDialogOpen]) are written by [handleFileUpload] only and are
    left out, as are the two pager buttons. *)
Record State := mkState {
  files : list UploadedFile.t;
  selectedFileId : option string;
  tableData : option TableData.t;
  chartData : option ChartApiResponse.t;
  currentPage : Z;
  pageSize : Z;
  sortColumn : option string;
  sortOrder : SortOrder;
  searchQuery : string;
  selectedXColumn : option string;
  selectedYColumn : option string;
  selectedChartType : string;
  isLoadingTable : bool;
  isLoadingChart : bool;
  dataFetchError : option string;
  chartFetchError : option string }.

Definition initial : State :=
  mkState [] None None None 1 10 None asc EmptyString None None "bar"
          false false None None.

Definition setFiles v s :=
  mkState v (selectedFileId s) (tableData s) (chartData s) (currentPage s)
    (pageSize s) (sortColumn s) (sortOrder s) (searchQuery s)
    (selectedXColumn s) (selectedYColumn s) (selectedChartType s)
    (isLoadingTable s) (isLoadingChart s) (dataFetchError s)
    (chartFetchError s).
Definition setSelectedFileId v s :=
  mkState (files s) v (tableData s) (chartData s) (currentPage s)
    (pageSize s) (sortColumn s) (sortOrder s) (searchQuery s)
    (selectedXColumn s) (selectedYColumn s) (selectedChartType s)
    (isLoadingTable s) (isLoadingChart s) (dataFetchError s)
    (chartFetchError s).
Definition setTableData v s :=
  mkState (files s) (selectedFileId s) v (chartData s) (currentPage s)
    (pageSize s) (sortColumn s) (sortOrder s) (searchQuery s)
    (selectedXColumn s) (selectedYColumn s) (selectedChartType s)
    (isLoadingTable s) (isLoadingChart s) (dataFetchError s)
    (chartFetchError s).
Definition setChartData v s :=
  mkState (files s) (selectedFileId s) (tableData s) v (currentPage s)
    (pageSize s) (sortColumn s) (sortOrder s) (searchQuery s)
    (selectedXColumn s) (selectedYColumn s) (selectedChartType s)
    (isLoadingTable s) (isLoadingChart s) (dataFetchError s)
    (chartFetchError s).
Definition setCurrentPage v s :=
  mkState (files s) (selectedFileId s) (tableData s) (chartData s) v
    (pageSize s) (sortColumn s) (sortOrder s) (searchQuery s)
    (selectedXColumn s) (selectedYColumn s) (selectedChartType s)
    (isLoadingTable s) (isLoadingChart s) (dataFetchError s)
    (chartFetchError s).
Definition setPageSize v s :=
  mkState (files s) (selectedFileId s) (tableData s) (chartData s)
    (currentPage s) v (sortColumn s) (sortOrder s) (searchQuery s)
    (selectedXColumn s) (selectedYColumn s) (selectedChartType s)
    (isLoadingTable s) (isLoadingChart s) (dataFetchError s)
    (chartFetchError s).
Definition setSortColumn v s :=
  mkState (files s) (selectedFileId s) (tableData s) (chartData s)
    (currentPage s) (pageSize s) v (sortOrder s) (searchQuery s)
    (selectedXColumn s) (selectedYColumn s) (selectedChartType s)
    (isLoadingTable s) (isLoadingChart s) (dataFetchError s)
    (chartFetchError s).
Definition setSortOrder v s :=
  mkState (files s) (selectedFileId s) (tableData s) (chartData s)
    (currentPage s) (pageSize s) (sortColumn s) v (searchQuery s)
    (selectedXColumn s) (selectedYColumn s) (selectedChartType s)
    (isLoadingTable s) (isLoadingChart s) (dataFetchError s)
    (chartFetchError s).
Definition setSearchQuery v s :=
  mkState (files s) (selectedFileId s) (tableData s) (chartData s)
    (currentPage s) (pageSize s) (sortColumn s) (sortOrder s) v
    (selectedXColumn s) (selectedYColumn s) (selectedChartType s)
    (isLoadingTable s) (isLoadingChart s) (dataFetchError s)
    (chartFetchError s).
Definition setSelectedXColumn v s :=
  mkState (files s) (selectedFileId s) (tableData s) (chartData s)
    (currentPage s) (pageSize s) (sortColumn s) (sortOrder s)
    (searchQuery s) v (selectedYColumn s) (selectedChartType s)
    (isLoadingTable s) (isLoadingChart s) (dataFetchError s)
    (chartFetchError s).
Definition setSelectedYColumn v s :=
  mkState (files s) (selectedFileId s) (tableData s) (chartData s)
    (currentPage s) (pageSize s) (sortColumn s) (sortOrder s)
    (searchQuery s) (selectedXColumn s) v (selectedChartType s)
    (isLoadingTable s) (isLoadingChart s) (dataFetchError s)
    (chartFetchError s).
Definition setSelectedChartType v s :=
  mkState (files s) (selectedFileId s) (tableData s) (chartData s)
    (currentPage s) (pageSize s) (sortColumn s) (sortOrder s)
    (searchQuery s) (selectedXColumn s) (selectedYColumn s) v
    (isLoadingTable s) (isLoadingChart s) (dataFetchError s)
    (chartFetchError s).
Definition setIsLoadingTable v s :=
  mkState (files s) (selectedFileId s) (tableData s) (chartData s)
    (currentPage s) (pageSize s) (sortColumn s) (sortOrder s)
    (searchQuery s) (selectedXColumn s) (selectedYColumn s)
    (selectedChartType s) v (isLoadingChart s) (dataFetchError s)
    (chartFetchError s).
Definition setIsLoadingChart v s :=
  mkState (files s) (selectedFileId s) (tableData s) (chartData s)
    (currentPage s) (pageSize s) (sortColumn s) (sortOrder s)
    (searchQuery s) (selectedXColumn s) (selectedYColumn s)
    (selectedChartType s) (isLoadingTable s) v (dataFetchError s)
    (chartFetchError s).
Definition setDataFetchError v s :=
  mkState (files s) (selectedFileId s) (tableData s) (chartData s)
    (currentPage s) (pageSize s) (sortColumn s) (sortOrder s)
    (searchQuery s) (selectedXColumn s) (selectedYColumn s)
    (selectedChartType s) (isLoadingTable s) (isLoadingChart s) v
    (chartFetchError s).
Definition setChartFetchError v s :=
  mkState (files s) (selectedFileId s) (tableData s) (chartData s)
    (currentPage s) (pageSize s) (sortColumn s) (sortOrder s)
    (searchQuery s) (selectedXColumn s) (selectedYColumn s)
    (selectedChartType s) (isLoadingTable s) (isLoadingChart s)
    (dataFetchError s) v.

(** A call that may or may not happen in a branch. *)
Definition whenCalled {A} (set : A -> State -> State) (call : option A)
  : State -> State :=
  match call with Some v => set v | None => fun s => s end.

(** *** Handlers *)

Definition handleFileSelect (fileId : string) (s : State) : State :=
  setSearchQuery EmptyString
    (setSortColumn None
       (setCurrentPage 1
          (setSelectedFileId (Some fileId) s))).

Definition handleSort (column : string) (s : State) : State :=
  if bool_decide (sortColumn s = Some column) then
    setSortOrder (match sortOrder s with asc => desc | desc => asc end) s
  else
    setSortOrder asc (setSortColumn (Some column) s).

(** *** fetchFiles *)

(** What the callback closed over. *)
Record FilesCall := mkFilesCall {
  files_selectedFileId : option string }.

Definition fetchFiles (s : State) : State * option FilesCall :=
  (s, Some (mkFilesCall (selectedFileId s))).

Definition fetchFiles_fulfilled (c : FilesCall)
           (response : list UploadedFile.t) (s : State) : State :=
  whenCalled setSelectedFileId
             (pickSelection (files_selectedFileId c) response)
             (setFiles response s).

Definition fetchFiles_rejected (c : FilesCall) (s : State) : State :=
  setDataFetchError (Some "Failed to fetch files.") s.

(** *** fetchData *)

Record DataCall := mkDataCall {
  data_file : string;
  data_page : Z;
  data_page_size : Z;
  data_sort_by : option string;
  data_sort_order : SortOrder;
  data_search_query : string;
  data_selectedXColumn : option string;
  data_selectedYColumn : option string }.

Definition fetchData (s : State) : State * option DataCall :=
  match selectedFileId s with
  | Some fileId =>
      if truthy (Some fileId) then
        (setDataFetchError None (setIsLoadingTable true s),
         Some (mkDataCall fileId (currentPage s) (pageSize s)
                          (sortColumn s) (sortOrder s) (searchQuery s)
                          (selectedXColumn s) (selectedYColumn s)))
      else (setTableData None s, None)
  | None => (setTableData None s, None)
  end.

Definition fetchData_fulfilled (c : DataCall) (response : TableData.t)
           (s : State) : State :=
  setIsLoadingTable false
    (whenCalled setSelectedYColumn
                (inferY response (data_selectedYColumn c))
       (whenCalled setSelectedXColumn
                   (inferX response (data_selectedXColumn c))
          (setTableData (Some response) s))).

Definition fetchData_rejected (c : DataCall) (s : State) : State :=
  setIsLoadingTable false
    (setDataFetchError (Some "Failed to fetch data.")
       (setTableData None s)).

(** *** fetchChartData *)

Record ChartCall := mkChartCall {
  chart_file : string;
  chart_chart_type : string;
  chart_x_column : string;
  chart_y_column : string }.

Definition fetchChartData (s : State) : State * option ChartCall :=
  match selectedFileId s, selectedXColumn s, selectedYColumn s with
  | Some fileId, Some x, Some y =>
      if truthy (Some fileId) && truthy (Some x) && truthy (Some y) then
        (setChartFetchError None (setIsLoadingChart true s),
         Some (mkChartCall fileId (selectedChartType s) x y))
      else (setChartData None s, None)
  | _, _, _ => (setChartData None s, None)
  end.

Definition fetchChartData_fulfilled (c : ChartCall)
           (response : ChartApiResponse.t) (s : State) : State :=
  setIsLoadingChart false (setChartData (Some response) s).

Definition fetchChartData_rejected (c : ChartCall) (s : State) : State :=
  setIsLoadingChart false
    (setChartFetchError
       (Some "Failed to fetch chart data. Check column types or backend logs.")
       (setChartData None s)).

(** *** What the table card shows

    The conditional of the card: the invitation to pick a file, the error
    text, the spinner, or the table with its pager. *)
Inductive TableCard := SelectAFile | ErrorText | Spinner | Ready.

Definition tableCard (s : State) : TableCard :=
  if negb (truthy (selectedFileId s)) then SelectAFile
  else if truthy (dataFetchError s) then ErrorText
  else if isLoadingTable s && negb (bool_decide (is_Some (tableData s)))
  then Spinner
  else Ready.

(** *** Views

    The sort the requests carry: none while [sortColumn] is [null]. *)
Definition sortSpec (s : State) : option (string * SortOrder) :=
  c ← sortColumn s; Some (c, sortOrder s).

(** The variables each stream reads and writes. *)
Definition tableStream (s : State) :=
  (tableData s, isLoadingTable s, dataFetchError s).

Definition chartStream (s : State) :=
  (chartData s, isLoadingChart s, chartFetchError s).

(** *** The component and its requests in flight

    The browser runs one thing at a time: a user action, an effect, or the
    continuation of a request, picked by its place [i] among those in
    flight, in any order.  React runs the three effects after the first
    render and again after every render in which a dependency of the
    callback changed: the selected file for [fetchFiles]; the file, the
    page, the page size, the sort column and order, the search text and the
    two chart columns for [fetchData]; the file, the chart type and the two
    chart columns for [fetchChartData].  The events [RunFetchFiles],
    [RunFetchData] and [RunFetchChartData] are these runs. *)
Record World := mkWorld {
  ui : State;
  filesInFlight : list FilesCall;
  dataInFlight : list DataCall;
  chartInFlight : list ChartCall }.

Definition mounted (s : State) : World := mkWorld s [] [] [].

Inductive Event :=
| FileClicked (fileId : string)
| HeaderClicked (column : string)
| SearchTyped (text : string)
| PageSizeChosen (n : Z)
| XColumnChosen (c : string)
| YColumnChosen (c : string)
| ChartTypeChosen (t : string)
| RunFetchFiles
| RunFetchData
| RunFetchChartData
| FilesFulfilled (i : nat) (response : list UploadedFile.t)
| FilesRejected (i : nat)
| DataFulfilled (i : nat) (response : TableData.t)
| DataRejected (i : nat)
| ChartFulfilled (i : nat) (response : ChartApiResponse.t)
| ChartRejected (i : nat).

Definition onUi (f : State -> State) (w : World) : World :=
  mkWorld (f (ui w)) (filesInFlight w) (dataInFlight w) (chartInFlight w).

Definition exec (e : Event) (w : World) : option World :=
  match e with
  | FileClicked fileId => Some (onUi (handleFileSelect fileId) w)
  | HeaderClicked column => Some (onUi (handleSort column) w)
  | SearchTyped text => Some (onUi (setSearchQuery text) w)
  | PageSizeChosen n => Some (onUi (setPageSize n) w)
  | XColumnChosen c => Some (onUi (setSelectedXColumn (Some c)) w)
  | YColumnChosen c => Some (onUi (setSelectedYColumn (Some c)) w)
  | ChartTypeChosen t => Some (onUi (setSelectedChartType t) w)
  | RunFetchFiles =>
      let '(s, c) := fetchFiles (ui w) in
      Some (mkWorld s (filesInFlight w ++ option_list c)
                    (dataInFlight w) (chartInFlight w))
  | RunFetchData =>
      let '(s, c) := fetchData (ui w) in
      Some (mkWorld s (filesInFlight w)
                    (dataInFlight w ++ option_list c) (chartInFlight w))
  | RunFetchChartData =>
      let '(s, c) := fetchChartData (ui w) in
      Some (mkWorld s (filesInFlight w) (dataInFlight w)
                    (chartInFlight w ++ option_list c))
  | FilesFulfilled i response =>
      c ← filesInFlight w !! i;
      Some (mkWorld (fetchFiles_fulfilled c response (ui w))
                    (delete i (filesInFlight w))
                    (dataInFlight w) (chartInFlight w))
  | FilesRejected i =>
      c ← filesInFlight w !! i;
      Some (mkWorld (fetchFiles_rejected c (ui w))
                    (delete i (filesInFlight w))
                    (dataInFlight w) (chartInFlight w))
  | DataFulfilled i response =>
      c ← dataInFlight w !! i;
      Some (mkWorld (fetchData_fulfilled c response (ui w))
                    (filesInFlight w) (delete i (dataInFlight w))
                    (chartInFlight w))
  | DataRejected i =>
      c ← dataInFlight w !! i;
      Some (mkWorld (fetchData_rejected c (ui w))
                    (filesInFlight w) (delete i (dataInFlight w))
                    (chartInFlight w))
  | ChartFulfilled i response =>
      c ← chartInFlight w !! i;
      Some (mkWorld (fetchChartData_fulfilled c response (ui w))
                    (filesInFlight w) (dataInFlight w)
                    (delete i (chartInFlight w)))
  | ChartRejected i =>
      c ← chartInFlight w !! i;
      Some (mkWorld (fetchChartData_rejected c (ui w))
                    (filesInFlight w) (dataInFlight w)
                    (delete i (chartInFlight w)))
  end.

Fixpoint run (es : list Event) (w : World) : option World :=
  match es with
  | [] => Some w
  | e :: es => w' ← exec e w; run es w'
  end.

End Manual.

(** ** The table-library dashboard *)

(** The table library's types that the component's own code handles. *)
Module ColumnSort.
Record t := mk { id : string; desc : bool }.
End ColumnSort.

Module PaginationState.
Record t := mk { pageIndex : Z; pageSize : Z }.
End PaginationState.

Module TableLib.

(** [Updater<T> | T]: the library hands a handler either the new value or
    a function from the old one. *)
Inductive Updater (T : Type) :=
| Fn (f : T -> T)
| Value (v : T).
Arguments Fn {T} f.
Arguments Value {T} v.

(** [typeof u === "function" ? u(old) : u] *)
Definition resolveUpdater {T} (u : Updater T) (old : T) : T :=
  match u with Fn f => f old | Value v => v end.

Record State := mkState {
  files : list UploadedFile.t;
  selectedFileId : option string;
  tableData : option TableData.t;
  chartData : option ChartApiResponse.t;
  currentPage : Z;
  pageSize : Z;
  sorting : list ColumnSort.t;
  globalFilter : string;
  selectedXColumn : option string;
  selectedYColumn : option string;
  selectedChartType : string;
  isLoadingTable : bool;
  isLoadingChart : bool;
  dataFetchError : option string;
  chartFetchError : option string }.

Definition initial : State :=
  mkState [] None None None 1 10 [] EmptyString None None "bar"
          false false None None.

Definition setFiles v s :=
  mkState v (selectedFileId s) (tableData s) (chartData s) (currentPage s)
    (pageSize s) (sorting s) (globalFilter s) (selectedXColumn s)
    (selectedYColumn s) (selectedChartType s) (isLoadingTable s)
    (isLoadingChart s) (dataFetchError s) (chartFetchError s).
Definition setSelectedFileId v s :=
  mkState (files s) v (tableData s) (chartData s) (currentPage s)
    (pageSize s) (sorting s) (globalFilter s) (selectedXColumn s)
    (selectedYColumn s) (selectedChartType s) (isLoadingTable s)
    (isLoadingChart s) (dataFetchError s) (chartFetchError s).
Definition setTableData v s :=
  mkState (files s) (selectedFileId s) v (chartData s) (currentPage s)
    (pageSize s) (sorting s) (globalFilter s) (selectedXColumn s)
    (selectedYColumn s) (selectedChartType s) (isLoadingTable s)
    (isLoadingChart s) (dataFetchError s) (chartFetchError s).
Definition setChartData v s :=
  mkState (files s) (selectedFileId s) (tableData s) v (currentPage s)
    (pageSize s) (sorting s) (globalFilter s) (selectedXColumn s)
    (selectedYColumn s) (selectedChartType s) (isLoadingTable s)
    (isLoadingChart s) (dataFetchError s) (chartFetchError s).
Definition setCurrentPage v s :=
  mkState (files s) (selectedFileId s) (tableData s) (chartData s) v
    (pageSize s) (sorting s) (globalFilter s) (selectedXColumn s)
    (selectedYColumn s) (selectedChartType s) (isLoadingTable s)
    (isLoadingChart s) (dataFetchError s) (chartFetchError s).
Definition setPageSize v s :=
  mkState (files s) (selectedFileId s) (tableData s) (chartData s)
    (currentPage s) v (sorting s) (globalFilter s) (selectedXColumn s)
    (selectedYColumn s) (selectedChartType s) (isLoadingTable s)
    (isLoadingChart s) (dataFetchError s) (chartFetchError s).
Definition setSorting v s :=
  mkState (files s) (selectedFileId s) (tableData s) (chartData s)
    (currentPage s) (pageSize s) v (globalFilter s) (selectedXColumn s)
    (selectedYColumn s) (selectedChartType s) (isLoadingTable s)
    (isLoadingChart s) (dataFetchError s) (chartFetchError s).
Definition setGlobalFilter v s :=
  mkState (files s) (selectedFileId s) (tableData s) (chartData s)
    (currentPage s) (pageSize s) (sorting s) v (selectedXColumn s)
    (selectedYColumn s) (selectedChartType s) (isLoadingTable s)
    (isLoadingChart s) (dataFetchError s) (chartFetchError s).
Definition setSelectedXColumn v s :=
  mkState (files s) (selectedFileId s) (tableData s) (chartData s)
    (currentPage s) (pageSize s) (sorting s) (globalFilter s) v
    (selectedYColumn s) (selectedChartType s) (isLoadingTable s)
    (isLoadingChart s) (dataFetchError s) (chartFetchError s).
Definition setSelectedYColumn v s :=
  mkState (files s) (selectedFileId s) (tableData s) (chartData s)
    (currentPage s) (pageSize s) (sorting s) (globalFilter s)
    (selectedXColumn s) v (selectedChartType s) (isLoadingTable s)
    (isLoadingChart s) (dataFetchError s) (chartFetchError s).
Definition setSelectedChartType v s :=
  mkState (files s) (selectedFileId s) (tableData s) (chartData s)
    (currentPage s) (pageSize s) (sorting s) (globalFilter s)
    (selectedXColumn s) (selectedYColumn s) v (isLoadingTable s)
    (isLoadingChart s) (dataFetchError s) (chartFetchError s).
Definition setIsLoadingTable v s :=
  mkState (files s) (selectedFileId s) (tableData s) (chartData s)
    (currentPage s) (pageSize s) (sorting s) (globalFilter s)
    (selectedXColumn s) (selectedYColumn s) (selectedChartType s) v
    (isLoadingChart s) (dataFetchError s) (chartFetchError s).
Definition setIsLoadingChart v s :=
  mkState (files s) (selectedFileId s) (tableData s) (chartData s)
    (currentPage s) (pageSize s) (sorting s) (globalFilter s)
    (selectedXColumn s) (selectedYColumn s) (selectedChartType s)
    (isLoadingTable s) v (dataFetchError s) (chartFetchError s).
Definition setDataFetchError v s :=
  mkState (files s) (selectedFileId s) (tableData s) (chartData s)
    (currentPage s) (pageSize s) (sorting s) (globalFilter s)
    (selectedXColumn s) (selectedYColumn s) (selectedChartType s)
    (isLoadingTable s) (isLoadingChart s) v (chartFetchError s).
Definition setChartFetchError v s :=
  mkState (files s) (selectedFileId s) (tableData s) (chartData s)
    (currentPage s) (pageSize s) (sorting s) (globalFilter s)
    (selectedXColumn s) (selectedYColumn s) (selectedChartType s)
    (isLoadingTable s) (isLoadingChart s) (dataFetchError s) v.

Definition whenCalled {A} (set : A -> State -> State) (call : option A)
  : State -> State :=
  match call with Some v => set v | None => fun s => s end.

(** *** Handlers *)

Definition handleFileSelect (fileId : string) (s : State) : State :=
  setGlobalFilter EmptyString
    (setSorting []
       (setCurrentPage 1
          (setSelectedFileId (Some fileId) s))).

Definition onSortingChange (updaterOrValue : Updater (list ColumnSort.t))
           (s : State) : State :=
  let newSorting := resolveUpdater updaterOrValue (sorting s) in
  setCurrentPage 1 (setSorting newSorting s).

Definition onPaginationChange
           (updaterOrValue : Updater PaginationState.t)
           (s : State) : State :=
  let newPagination :=
    resolveUpdater updaterOrValue
                   (PaginationState.mk (currentPage s - 1) (pageSize s)) in
  let s1 := setCurrentPage (PaginationState.pageIndex newPagination + 1)
              (setPageSize (PaginationState.pageSize newPagination) s) in
  if negb (Z.eqb (PaginationState.pageSize newPagination) (pageSize s))
  then setCurrentPage 1 s1
  else s1.

(** The [onChange] of the search box. *)
Definition searchBox_onChange (value : string) (s : State) : State :=
  setCurrentPage 1 (setGlobalFilter value s).

(** The effect that infers the chart columns; it reads the selection of
    the render it runs after. *)
Definition inferColumns (s : State) : State :=
  match tableData s with
  | Some td =>
      whenCalled setSelectedYColumn (inferY td (selectedYColumn s))
        (whenCalled setSelectedXColumn (inferX td (selectedXColumn s)) s)
  | None => s
  end.

(** *** fetchFiles *)

Record FilesCall := mkFilesCall {
  files_selectedFileId : option string }.

Definition fetchFiles (s : State) : State * option FilesCall :=
  (s, Some (mkFilesCall (selectedFileId s))).

Definition fetchFiles_fulfilled (c : FilesCall)
           (response : list UploadedFile.t) (s : State) : State :=
  whenCalled setSelectedFileId
             (pickSelection (files_selectedFileId c) response)
             (setFiles response s).

Definition fetchFiles_rejected (c : FilesCall) (s : State) : State :=
  setDataFetchError (Some "Failed to fetch files.") s.

(** *** fetchData *)

Record DataCall := mkDataCall {
  data_file : string;
  data_page : Z;
  data_page_size : Z;
  data_search_query : string;
  data_sort_by : option string;
  data_sort_order : option string }.

Definition fetchData (s : State) : State * option DataCall :=
  match selectedFileId s with
  | Some fileId =>
      if truthy (Some fileId) then
        (setDataFetchError None (setIsLoadingTable true s),
         Some (mkDataCall fileId (currentPage s) (pageSize s)
                 (globalFilter s)
                 (ColumnSort.id <$> sorting s !! 0%nat)
                 ((fun c => if ColumnSort.desc c then "desc" else "asc")
                    <$> sorting s !! 0%nat)))
      else (setTableData None s, None)
  | None => (setTableData None s, None)
  end.

Definition fetchData_fulfilled (c : DataCall) (response : TableData.t)
           (s : State) : State :=
  setIsLoadingTable false (setTableData (Some response) s).

Definition fetchData_rejected (c : DataCall) (s : State) : State :=
  setIsLoadingTable false
    (setDataFetchError (Some "Failed to fetch data.")
       (setTableData None s)).

(** *** fetchChartData *)

Record ChartCall := mkChartCall {
  chart_file : string;
  chart_chart_type : string;
  chart_x_column : string;
  chart_y_column : string }.

Definition fetchChartData (s : State) : State * option ChartCall :=
  match selectedFileId s, selectedXColumn s, selectedYColumn s with
  | Some fileId, Some x, Some y =>
      if truthy (Some fileId) && truthy (Some x) && truthy (Some y) then
        (setChartFetchError None (setIsLoadingChart true s),
         Some (mkChartCall fileId (selectedChartType s) x y))
      else (setChartData None s, None)
  | _, _, _ => (setChartData None s, None)
  end.

Definition fetchChartData_fulfilled (c : ChartCall)
           (response : ChartApiResponse.t) (s : State) : State :=
  setIsLoadingChart false (setChartData (Some response) s).

Definition fetchChartData_rejected (c : ChartCall) (s : State) : State :=
  setIsLoadingChart false
    (setChartFetchError
       (Some "Failed to fetch chart data. Check column types or backend logs.")
       (setChartData None s)).

(** *** What the table card shows *)
Inductive TableCard := SelectAFile | ErrorText | Spinner | Ready | Blank.

Definition tableCard (s : State) : TableCard :=
  if negb (truthy (selectedFileId s)) then SelectAFile
  else if truthy (dataFetchError s) then ErrorText
  else if isLoadingTable s && negb (bool_decide (is_Some (tableData s)))
  then Spinner
  else if bool_decide (is_Some (tableData s)) then Ready
  else Blank.

(** *** Views

    The variables each stream reads and writes. *)
Definition tableStream (s : State) :=
  (tableData s, isLoadingTable s, dataFetchError s).

Definition chartStream (s : State) :=
  (chartData s, isLoadingChart s, chartFetchError s).

(** *** The component and its requests in flight

    As for the manual dashboard.  The dependencies are the selected file
    for [fetchFiles]; the file, the page, the page size, the sorting and
    the filter text for [fetchData]; the table and the two chart columns
    for the inference effect; the file, the chart type and the two chart
    columns for [fetchChartData]. *)
Record World := mkWorld {
  ui : State;
  filesInFlight : list FilesCall;
  dataInFlight : list DataCall;
  chartInFlight : list ChartCall }.

Definition mounted (s : State) : World := mkWorld s [] [] [].

Inductive Event :=
| FileClicked (fileId : string)
| SortingChanged (updaterOrValue : Updater (list ColumnSort.t))
| PaginationChanged (updaterOrValue : Updater PaginationState.t)
| SearchTyped (text : string)
| XColumnChosen (c : string)
| YColumnChosen (c : string)
| ChartTypeChosen (t : string)
| RunFetchFiles
| RunFetchData
| RunInferColumns
| RunFetchChartData
| FilesFulfilled (i : nat) (response : list UploadedFile.t)
| FilesRejected (i : nat)
| DataFulfilled (i : nat) (response : TableData.t)
| DataRejected (i : nat)
| ChartFulfilled (i : nat) (response : ChartApiResponse.t)
| ChartRejected (i : nat).

Definition onUi (f : State -> State) (w : World) : World :=
  mkWorld (f (ui w)) (filesInFlight w) (dataInFlight w) (chartInFlight w).

Definition exec (e : Event) (w : World) : option World :=
  match e with
  | FileClicked fileId => Some (onUi (handleFileSelect fileId) w)
  | SortingChanged u => Some (onUi (onSortingChange u) w)
  | PaginationChanged u => Some (onUi (onPaginationChange u) w)
  | SearchTyped text => Some (onUi (searchBox_onChange text) w)
  | XColumnChosen c => Some (onUi (setSelectedXColumn (Some c)) w)
  | YColumnChosen c => Some (onUi (setSelectedYColumn (Some c)) w)
  | ChartTypeChosen t => Some (onUi (setSelectedChartType t) w)
  | RunFetchFiles =>
      let '(s, c) := fetchFiles (ui w) in
      Some (mkWorld s (filesInFlight w ++ option_list c)
                    (dataInFlight w) (chartInFlight w))
  | RunFetchData =>
      let '(s, c) := fetchData (ui w) in
      Some (mkWorld s (filesInFlight w)
                    (dataInFlight w ++ option_list c) (chartInFlight w))
  | RunInferColumns => Some (onUi inferColumns w)
  | RunFetchChartData =>
      let '(s, c) := fetchChartData (ui w) in
      Some (mkWorld s (filesInFlight w) (dataInFlight w)
                    (chartInFlight w ++ option_list c))
  | FilesFulfilled i response =>
      c ← filesInFlight w !! i;
      Some (mkWorld (fetchFiles_fulfilled c response (ui w))
                    (delete i (filesInFlight w))
                    (dataInFlight w) (chartInFlight w))
  | FilesRejected i =>
      c ← filesInFlight w !! i;
      Some (mkWorld (fetchFiles_rejected c (ui w))
                    (delete i (filesInFlight w))
                    (dataInFlight w) (chartInFlight w))
  | DataFulfilled i response =>
      c ← dataInFlight w !! i;
      Some (mkWorld (fetchData_fulfilled c response (ui w))
                    (filesInFlight w) (delete i (dataInFlight w))
                    (chartInFlight w))
  | DataRejected i =>
      c ← dataInFlight w !! i;
      Some (mkWorld (fetchData_rejected c (ui w))
                    (filesInFlight w) (delete i (dataInFlight w))
                    (chartInFlight w))
  | ChartFulfilled i response =>
      c ← chartInFlight w !! i;
      Some (mkWorld (fetchChartData_fulfilled c response (ui w))
                    (filesInFlight w) (dataInFlight w)
                    (delete i (chartInFlight w)))
  | ChartRejected i =>
      c ← chartInFlight w !! i;
      Some (mkWorld (fetchChartData_rejected c (ui w))
                    (filesInFlight w) (dataInFlight w)
                    (delete i (chartInFlight w)))
  end.

Fixpoint run (es : list Event) (w : World) : option World :=
  match es with
  | [] => Some w
  | e :: es => w' ← exec e w; run es w'
  end.

End TableLib.

(** ** Notions of the specification *)

(** Column [col] has a numeric value in one of the first five rows. *)
Definition NumericSample (td : TableData.t) (col : string) : Prop :=
  ∃ (k : nat) (row : gmap string JsValue) (n : JsNumber),
    (k < 5)%nat ∧ TableData.data td !! k = Some row
    ∧ row !! col = Some (JNumber n) ∧ n ≠ NaN.

(** [col] is the first column, in the order of the column list, that has
    one. *)
Definition FirstNumeric (td : TableData.t) (col : string) : Prop :=
  ∃ i : nat,
    TableData.columns td !! i = Some col ∧ NumericSample td col
    ∧ ∀ (j : nat) (c : string),
        (j < i)%nat → TableData.columns td !! j = Some c →
        ¬ NumericSample td c.

(** A selection that is absent, or names no column of the list. *)
Definition Invalid (columns : list string) (sel : option string) : Prop :=
  sel = None ∨ ∃ c, sel = Some c ∧ c ∉ columns.

(** ** Concrete states and payloads *)

Module Examples.

Definition file (fileId : string) : UploadedFile.t :=
  UploadedFile.mk fileId (fileId ++ ".csv") "2025-01-01T00:00:00".

(** The page of the specification's inference example. *)
Definition people : TableData.t :=
  TableData.mk
    [ <["name" := JString "a"]>
        (<["age" := JNumber (Finite (30 # 1))]>
           (<["city" := JString "x"]> ∅)) ]
    1 1 10 ["name"; "age"; "city"].

(** A page whose second column has the empty name and no numbers. *)
Definition unnamed : TableData.t :=
  TableData.mk
    [ <["a" := JString "u"]> (<[EmptyString := JString "v"]> ∅) ]
    1 1 10 ["a"; EmptyString].

(** A page of another file with the columns of [people]. *)
Definition peopleOfG : TableData.t :=
  TableData.mk
    [ <["name" := JString "b"]>
        (<["age" := JNumber (Finite (41 # 1))]>
           (<["city" := JString "y"]> ∅)) ]
    1 1 10 ["name"; "age"; "city"].

(** Pages of two different files. *)
Definition pageOfF : TableData.t :=
  TableData.mk [ <["f_col" := JString "f1"]> ∅ ] 1 1 10 ["f_col"].

Definition pageOfG : TableData.t :=
  TableData.mk [ <["g_col" := JString "g1"]> ∅ ] 1 1 10 ["g_col"].

Definition chartOfX : ChartApiResponse.t :=
  ChartApiResponse.mk "bar" [] "name" "age".

Definition chartOfY : ChartApiResponse.t :=
  ChartApiResponse.mk "bar" [] "city" "age".

(** The manual dashboard showing page 3 of file ["f"]. *)
Definition manualOnPage3 : Manual.State :=
  Manual.mkState [file "f"] (Some "f")
    (Some (TableData.mk [] 100 3 10 ["name"; "age"; "city"])) None
    3 10 None Manual.asc EmptyString (Some "name") (Some "age") "bar"
    false false None None.

(** The manual dashboard with file ["f"] selected and nothing loaded. *)
Definition manualWithF : Manual.State :=
  Manual.setSelectedFileId (Some "f") Manual.initial.

Definition tableLibWithF : TableLib.State :=
  TableLib.setSelectedFileId (Some "f") TableLib.initial.

(** Either dashboard with the people page loaded and charted. *)
Definition manualLoaded : Manual.State :=
  Manual.mkState [file "f"] (Some "f") (Some people) (Some chartOfX)
    1 10 None Manual.asc EmptyString (Some "name") (Some "age") "bar"
    false false None None.

Definition tableLibLoaded : TableLib.State :=
  TableLib.mkState [file "f"] (Some "f") (Some people) (Some chartOfX)
    1 10 [] EmptyString (Some "name") (Some "age") "bar"
    false false None None.

(** Worlds with one request of each stream in flight. *)
Definition manualFetching : Manual.World :=
  let '(s1, dc) := Manual.fetchData manualLoaded in
  let '(s2, cc) := Manual.fetchChartData s1 in
  Manual.mkWorld s2 [] (option_list dc) (option_list cc).

Definition tableLibFetching : TableLib.World :=
  let '(s1, dc) := TableLib.fetchData tableLibLoaded in
  let '(s2, cc) := TableLib.fetchChartData s1 in
  TableLib.mkWorld s2 [] (option_list dc) (option_list cc).

(** A run of the manual dashboard from its first render.  The list of the
    files f and g arrives and f is selected; the page of f is requested; the
    user clicks g and the page of g is requested; the page of g arrives;
    last, the page of f arrives.  After each change the effects whose
    dependencies changed are run, in the order of the component. *)
Definition overtakenPage : list Manual.Event :=
  [ Manual.RunFetchFiles; Manual.RunFetchData; Manual.RunFetchChartData;
    Manual.FilesFulfilled 0 [file "f"; file "g"];
    Manual.RunFetchFiles; Manual.RunFetchData; Manual.RunFetchChartData;
    Manual.FileClicked "g";
    Manual.RunFetchFiles; Manual.RunFetchData; Manual.RunFetchChartData;
    Manual.DataFulfilled 1 pageOfG;
    Manual.RunFetchData; Manual.RunFetchChartData;
    Manual.DataFulfilled 0 pageOfF ].

(** A run of the table-library dashboard from its first render.  The file
    f is selected and its page arrives; the columns are inferred and the
    chart by name requested; the user chooses city for the X axis and the
    chart by city is requested; the chart by city arrives; last, the chart
    by name arrives. *)
Definition overtakenChart : list TableLib.Event :=
  [ TableLib.RunFetchFiles; TableLib.RunFetchData; TableLib.RunInferColumns;
    TableLib.RunFetchChartData;
    TableLib.FilesFulfilled 0 [file "f"];
    TableLib.RunFetchFiles; TableLib.RunFetchData; TableLib.RunFetchChartData;
    TableLib.DataFulfilled 0 people;
    TableLib.RunInferColumns;
    TableLib.RunInferColumns; TableLib.RunFetchChartData;
    TableLib.XColumnChosen "city";
    TableLib.RunInferColumns; TableLib.RunFetchChartData;
    TableLib.ChartFulfilled 1 chartOfY;
    TableLib.ChartFulfilled 0 chartOfX ].

(** A run of the manual dashboard from its first render.  The list of the
    files f and g arrives and f is selected; the page of f is requested; the
    user clicks g and the page of g is requested; the page of f arrives and
    name and age are inferred; the user chooses city for the X axis; last,
    the page of g arrives, which has the same columns. *)
Definition overwrittenChoice : list Manual.Event :=
  [ Manual.RunFetchFiles; Manual.RunFetchData; Manual.RunFetchChartData;
    Manual.FilesFulfilled 0 [file "f"; file "g"];
    Manual.RunFetchFiles; Manual.RunFetchData; Manual.RunFetchChartData;
    Manual.FileClicked "g";
    Manual.RunFetchFiles; Manual.RunFetchData; Manual.RunFetchChartData;
    Manual.DataFulfilled 0 people;
    Manual.RunFetchData; Manual.RunFetchChartData;
    Manual.XColumnChosen "city";
    Manual.RunFetchData; Manual.RunFetchChartData;
    Manual.DataFulfilled 0 peopleOfG ].

(** The same user actions and responses in the table-library dashboard. *)
Definition keptChoice : list TableLib.Event :=
  [ TableLib.RunFetchFiles; TableLib.RunFetchData; TableLib.RunInferColumns;
    TableLib.RunFetchChartData;
    TableLib.FilesFulfilled 0 [file "f"; file "g"];
    TableLib.RunFetchFiles; TableLib.RunFetchData; TableLib.RunFetchChartData;
    TableLib.FileClicked "g";
    TableLib.RunFetchFiles; TableLib.RunFetchData; TableLib.RunFetchChartData;
    TableLib.DataFulfilled 0 people;
    TableLib.RunInferColumns;
    TableLib.RunInferColumns; TableLib.RunFetchChartData;
    TableLib.XColumnChosen "city";
    TableLib.RunInferColumns; TableLib.RunFetchChartData;
    TableLib.DataFulfilled 0 peopleOfG;
    TableLib.RunInferColumns ].

(** A run of the manual dashboard in which the only file has the empty
    string for id, and is gone from the next list. *)
Definition emptyIdRun : list Manual.Event :=
  [ Manual.RunFetchFiles; Manual.RunFetchData; Manual.RunFetchChartData;
    Manual.FilesFulfilled 0 [file EmptyString];
    Manual.RunFetchFiles; Manual.RunFetchData; Manual.RunFetchChartData;
    Manual.FilesFulfilled 0 [] ].

(** The worlds before the last event of the two. *)
Definition manualOvertaken : Manual.World :=
  default (Manual.mounted Manual.initial)
          (Manual.run (take 14 overtakenPage)
                      (Manual.mounted Manual.initial)).

Definition tableLibOvertaken : TableLib.World :=
  default (TableLib.mounted TableLib.initial)
          (TableLib.run (take 16 overtakenChart)
                        (TableLib.mounted TableLib.initial)).

(** The worlds of the two dashboards after the user has chosen city, while
    the page of g is still on its way. *)
Definition manualChosen : Manual.World :=
  default (Manual.mounted Manual.initial)
          (Manual.run (take 17 overwrittenChoice)
                      (Manual.mounted Manual.initial)).

Definition tableLibChosen : TableLib.World :=
  default (TableLib.mounted TableLib.initial)
          (TableLib.run (take 19 keptChoice)
                        (TableLib.mounted TableLib.initial)).

End Examples.

(** ** Further parts of the components *)

(** *** Chart colours ([generateColors] of the utilities) *)

Module Colors.

Definition baseColors : list string :=
  [ "hsl(var(--chart-1))"; "hsl(var(--chart-2))"; "hsl(var(--chart-3))";
    "hsl(var(--chart-4))"; "hsl(var(--chart-5))"; "hsl(var(--chart-6))" ].

(** The [for] loop: [fuel] bounds the number of turns, [i] is the counter
    and [colors] the array built so far.  An entry is the value of
    [baseColors[i % baseColors.length]], [None] when that is [undefined]. *)
Fixpoint generateColors_loop (fuel : nat) (count : Z) (i : nat)
         (colors : list (option string)) : list (option string) :=
  match fuel with
  | O => colors
  | S fuel =>
      if (Z.of_nat i <? count)%Z then
        generateColors_loop fuel count (S i)
          (colors ++ [baseColors !! (i mod length baseColors)%nat])
      else colors
  end.

Definition generateColors (count : Z) : list (option string) :=
  generateColors_loop (Z.to_nat count) count 0 [].

(** [chartData?.data ? generateColors(chartData.data.length) : []], the same
    in both dashboards. *)
Definition chartColors (chartData : option ChartApiResponse.t)
  : list (option string) :=
  match chartData with
  | Some c => generateColors (Z.of_nat (length (ChartApiResponse.data c)))
  | None => []
  end.

(** The [fill] of the pie cell at [index]:
    [chartColors[index % chartColors.length]]. *)
Definition cellFill (chartData : option ChartApiResponse.t) (index : nat)
  : option string :=
  mjoin (chartColors chartData
           !! (index mod length (chartColors chartData))%nat).

(** The fills of the cells of the pie, one per row of the chart. *)
Definition pieFills (c : ChartApiResponse.t) : list (option string) :=
  imap (fun index _ => cellFill (Some c) index) (ChartApiResponse.data c).

End Colors.

(** *** What the chart card shows

    The conditional of the card, the same in both dashboards up to the last
    branch: the manual dashboard draws a chart for each of the three types
    and nothing for another one, the table-library dashboard draws a pie
    for every type that is neither bar nor line. *)

Module ChartCard.

Inductive Drawing := BarChart | LineChart | PieChart | NoDrawing.

Inductive t :=
| SelectAFile
| Spinner
| ErrorText
| NoChartData
| Chart (d : Drawing).

Definition manualDrawing (selectedChartType : string) : Drawing :=
  if String.eqb selectedChartType "bar" then BarChart
  else if String.eqb selectedChartType "line" then LineChart
  else if String.eqb selectedChartType "pie" then PieChart
  else NoDrawing.

Definition tableLibDrawing (selectedChartType : string) : Drawing :=
  if String.eqb selectedChartType "bar" then BarChart
  else if String.eqb selectedChartType "line" then LineChart
  else PieChart.

Definition card (selectedFileId : option string) (isLoadingChart : bool)
           (chartData : option ChartApiResponse.t)
           (chartFetchError : option string) (drawing : Drawing) : t :=
  if negb (truthy selectedFileId) then SelectAFile
  else if isLoadingChart && negb (bool_decide (is_Some chartData))
  then Spinner
  else if truthy chartFetchError then ErrorText
  else match chartData with
       | None => NoChartData
       | Some c =>
           if (length (ChartApiResponse.data c) =? 0)%nat then NoChartData
           else Chart drawing
       end.

Definition manual (s : Manual.State) : t :=
  card (Manual.selectedFileId s) (Manual.isLoadingChart s)
       (Manual.chartData s) (Manual.chartFetchError s)
       (manualDrawing (Manual.selectedChartType s)).

Definition tableLib (s : TableLib.State) : t :=
  card (TableLib.selectedFileId s) (TableLib.isLoadingChart s)
       (TableLib.chartData s) (TableLib.chartFetchError s)
       (tableLibDrawing (TableLib.selectedChartType s)).

End ChartCard.

(** *** The pager of the manual dashboard *)

Module ManualPager.

(** The number that holds the integer [z]: the double nearest to it, ties to
    the even one (every integer below 2^53 in size is held as it is). *)
Definition toDouble (z : Z) : SpecFloat.spec_float :=
  SpecFloat.binary_normalize 53 1024 z 0 false.

(** [Math.ceil(x)] of a double that is neither infinite nor [NaN]: the
    least integer that is not below [(-1)^s * m * 2^e]. *)
Definition Math_ceil (x : SpecFloat.spec_float) : option Z :=
  match x with
  | SpecFloat.S754_zero _ => Some 0%Z
  | SpecFloat.S754_finite s m e =>
      let v := if s then Zneg m else Zpos m in
      Some (match e with
            | Zneg p => (- ((- v) / 2 ^ Zpos p))%Z
            | _ => (v * 2 ^ e)%Z
            end)
  | _ => None
  end.

(** [Math.ceil(a / b)] for integers [a] and [b]: the two become doubles, the
    quotient is the double nearest to the exact one, and its ceiling is
    taken.  [b] is not zero and [a] is within the doubles (the component
    sets the page size to 5, 10, 25 or 50 only); 0 stands for the ceiling of
    a quotient that is infinite or [NaN]. *)
Definition ceilDiv (a b : Z) : Z :=
  default 0%Z
    (Math_ceil (SpecFloat.SFdiv 53 1024 (toDouble a) (toDouble b))).

(** [tableData ? Math.ceil(tableData.total_count / pageSize) : 0] *)
Definition totalPages (s : Manual.State) : Z :=
  match Manual.tableData s with
  | Some td => ceilDiv (TableData.total_count td) (Manual.pageSize s)
  | None => 0
  end.

(** [setCurrentPage((prev) => Math.max(1, prev - 1))] *)
Definition previous_onClick (s : Manual.State) : Manual.State :=
  Manual.setCurrentPage (Z.max 1 (Manual.currentPage s - 1)) s.

(** [setCurrentPage((prev) => Math.min(totalPages, prev + 1))] *)
Definition next_onClick (s : Manual.State) : Manual.State :=
  Manual.setCurrentPage (Z.min (totalPages s) (Manual.currentPage s + 1)) s.

Inductive Button := Previous | Next.

Definition click (b : Button) (s : Manual.State) : Manual.State :=
  match b with Previous => previous_onClick s | Next => next_onClick s end.

(** A sequence of clicks, the first of the list first. *)
Definition clicks (bs : list Button) (s : Manual.State) : Manual.State :=
  foldl (fun s b => click b s) s bs.

End ManualPager.

(** *** The upload dialog ([handleFileUpload], the same in both
    dashboards) *)

Module Upload.

(** Truthiness of any value. *)
Definition jsTruthy (v : JsValue) : bool :=
  match v with
  | JUndefined | JNull => false
  | JBool b => b
  | JNumber (Finite q) => negb (Z.eqb (Qnum q) 0)
  | JNumber (Infinity _) => true
  | JNumber NaN => false
  | JString s => negb (String.eqb s EmptyString)
  | JObject => true
  end.

(** The three variables of the dialog.  The error is declared as a string
    or [null]; the server's [detail], of any type, is stored in it as it
    comes. *)
Record State := mkState {
  isUploading : bool;
  fileUploadError : JsValue;
  isUploadDialogOpen : bool }.

Definition setIsUploading v s :=
  mkState v (fileUploadError s) (isUploadDialogOpen s).
Definition setFileUploadError v s :=
  mkState (isUploading s) v (isUploadDialogOpen s).
Definition setIsUploadDialogOpen v s :=
  mkState (isUploading s) (fileUploadError s) v.

(** What the handler does besides setting variables. *)
Inductive Effect :=
| Post (fileName : string)
| Alert (message : string)
| CallFetchFiles
| ClearInput.

(** The failures the [catch] tells apart: an error of the HTTP client that
    carries a response, with the [detail] of its body ([undefined] when
    the body has none), and every other error.  A response whose body is
    [null] is left out: reading its [detail] throws. *)
Inductive Failure :=
| WithResponse (detail : JsValue)
| WithoutResponse.

Definition quote : string := String (Ascii.ascii_of_nat 34) EmptyString.

(** The part before the [await]; [file] is [event.target.files?.[0]], by
    its name. *)
Definition handleFileUpload (file : option string) (s : State)
  : State * list Effect :=
  match file with
  | None => (setFileUploadError (JString "No file selected.") s, [])
  | Some name =>
      (setFileUploadError JNull (setIsUploading true s), [Post name])
  end.

Definition handleFileUpload_fulfilled (name : string) (s : State)
  : State * list Effect :=
  (setIsUploading false (setIsUploadDialogOpen false s),
   [ Alert ("File " ++ quote ++ name ++ quote ++ " uploaded successfully!");
     CallFetchFiles; ClearInput ]).

Definition handleFileUpload_rejected (error : Failure) (s : State)
  : State * list Effect :=
  (setIsUploading false
     (setFileUploadError
        (match error with
         | WithResponse detail =>
             if jsTruthy detail then detail
             else JString "Error uploading file."
         | WithoutResponse =>
             JString "An unknown error occurred during file upload."
         end) s),
   [ClearInput]).

End Upload.

(** *** Kinds of events *)

(** The events that are the arrival or the failure of a response. *)
Definition manualIsResponse (e : Manual.Event) : bool :=
  match e with
  | Manual.FilesFulfilled _ _ | Manual.FilesRejected _
  | Manual.DataFulfilled _ _ | Manual.DataRejected _
  | Manual.ChartFulfilled _ _ | Manual.ChartRejected _ => true
  | _ => false
  end.

Definition tableLibIsResponse (e : TableLib.Event) : bool :=
  match e with
  | TableLib.FilesFulfilled _ _ | TableLib.FilesRejected _
  | TableLib.DataFulfilled _ _ | TableLib.DataRejected _
  | TableLib.ChartFulfilled _ _ | TableLib.ChartRejected _ => true
  | _ => false
  end.

(** The events that are actions of the user. *)
Definition manualIsUserAction (e : Manual.Event) : bool :=
  match e with
  | Manual.FileClicked _ | Manual.HeaderClicked _ | Manual.SearchTyped _
  | Manual.PageSizeChosen _ | Manual.XColumnChosen _
  | Manual.YColumnChosen _ | Manual.ChartTypeChosen _ => true
  | _ => false
  end.

Definition tableLibIsUserAction (e : TableLib.Event) : bool :=
  match e with
  | TableLib.FileClicked _ | TableLib.SortingChanged _
  | TableLib.PaginationChanged _ | TableLib.SearchTyped _
  | TableLib.XColumnChosen _ | TableLib.YColumnChosen _
  | TableLib.ChartTypeChosen _ => true
  | _ => false
  end.

Definition manualIsFileClick (e : Manual.Event) : bool :=
  match e with Manual.FileClicked _ => true | _ => false end.

(** * Properties *)

(** ** Transitions of the view state *)

Lemma manual_handleSort_page column s :
  Manual.currentPage (Manual.handleSort column s) = Manual.currentPage s.
Proof. unfold Manual.handleSort. by case_bool_decide. Qed.

Lemma manual_setSearchQuery_page text s :
  Manual.currentPage (Manual.setSearchQuery text s) = Manual.currentPage s.
Proof. reflexivity. Qed.

Lemma manual_setPageSize_page n s :
  Manual.currentPage (Manual.setPageSize n s) = Manual.currentPage s.
Proof. reflexivity. Qed.

Lemma tableLib_onSortingChange_page u s :
  TableLib.currentPage (TableLib.onSortingChange u s) = 1.
Proof. reflexivity. Qed.

Lemma tableLib_searchBox_page text s :
  TableLib.currentPage (TableLib.searchBox_onChange text s) = 1.
Proof. reflexivity. Qed.

Lemma tableLib_onPaginationChange_page u s :
  let new := TableLib.resolveUpdater u
               (PaginationState.mk (TableLib.currentPage s - 1)
                                   (TableLib.pageSize s)) in
  TableLib.currentPage (TableLib.onPaginationChange u s)
  = if Z.eqb (PaginationState.pageSize new) (TableLib.pageSize s)
    then PaginationState.pageIndex new + 1 else 1.
Proof.
  intros new. unfold TableLib.onPaginationChange. fold new.
  by destruct (Z.eqb _ _).
Qed.

Lemma tableLib_pageSize_changed_page u s :
  PaginationState.pageSize
    (TableLib.resolveUpdater u
       (PaginationState.mk (TableLib.currentPage s - 1) (TableLib.pageSize s)))
  ≠ TableLib.pageSize s →
  TableLib.currentPage (TableLib.onPaginationChange u s) = 1.
Proof.
  intros Hne. rewrite tableLib_onPaginationChange_page.
  by apply Z.eqb_neq in Hne as ->.
Qed.

(** C2 (the page is 1 after every setSort, setFilterText, setPageSize and
    selectDataset).  The manual dashboard does not do so: on page 3, a click
    on a column header, a keystroke in the search box and the choice of
    another page size each leave the page at 3; only the choice of a file
    sets it to 1. *)
Theorem C2_manual_page_not_reset :
  Manual.currentPage (Manual.handleSort "age" Examples.manualOnPage3) = 3
  ∧ Manual.currentPage (Manual.setSearchQuery "a" Examples.manualOnPage3) = 3
  ∧ Manual.currentPage (Manual.setPageSize 50 Examples.manualOnPage3) = 3
  ∧ Manual.currentPage (Manual.handleFileSelect "g" Examples.manualOnPage3) = 1.
Proof. repeat split. Qed.

(** C7: choosing a dataset sets the selected id to it, the page to 1, the
    sort to none and the filter text to the empty string, in both
    dashboards. *)
Theorem C7_selectDataset_resets (fileId : string) :
  (∀ s : Manual.State,
      let s' := Manual.handleFileSelect fileId s in
      Manual.selectedFileId s' = Some fileId
      ∧ Manual.currentPage s' = 1
      ∧ Manual.sortColumn s' = None ∧ Manual.sortSpec s' = None
      ∧ Manual.searchQuery s' = EmptyString)
  ∧ (∀ s : TableLib.State,
        let s' := TableLib.handleFileSelect fileId s in
        TableLib.selectedFileId s' = Some fileId
        ∧ TableLib.currentPage s' = 1
        ∧ TableLib.sorting s' = []
        ∧ TableLib.globalFilter s' = EmptyString).
Proof. split; intros s; repeat split. Qed.

(** ** The sort toggle of the manual dashboard *)







(** ** Responses and failures of the three streams *)

Lemma pageOfF_not_pageOfG : Examples.pageOfF ≠ Examples.pageOfG.
Proof. intros H. apply (f_equal TableData.columns) in H. discriminate. Qed.

Lemma chartOfX_not_chartOfY : Examples.chartOfX ≠ Examples.chartOfY.
Proof.
  intros H. apply (f_equal ChartApiResponse.x_column) in H. discriminate.
Qed.

(** C1, negated as stated.  In the run [overtakenPage] the page of file f
    is requested, the user switches to file g, the page of g arrives and is
    shown; the request for f is still in flight.  When its response arrives
    it replaces the page of g, while g is the selected file.  Likewise, in
    [overtakenChart], a chart by name that arrives after the chart by city
    replaces it while city is the chosen X column. *)
Lemma C1_late_response_overwrites :
  Manual.run (take 14 Examples.overtakenPage)
             (Manual.mounted Manual.initial)
  = Some Examples.manualOvertaken
  ∧ Manual.selectedFileId (Manual.ui Examples.manualOvertaken) = Some "g"
  ∧ Manual.tableData (Manual.ui Examples.manualOvertaken)
    = Some Examples.pageOfG
  ∧ Manual.data_file <$> Manual.dataInFlight Examples.manualOvertaken !! 0%nat
    = Some "f"
  ∧ ((fun s => (Manual.selectedFileId s, Manual.tableData s))
       <$> (Manual.ui
              <$> Manual.exec (Manual.DataFulfilled 0 Examples.pageOfF)
                              Examples.manualOvertaken))
    = Some (Some "g", Some Examples.pageOfF)
  ∧ Examples.pageOfF ≠ Examples.pageOfG
  ∧ TableLib.run (take 16 Examples.overtakenChart)
                 (TableLib.mounted TableLib.initial)
    = Some Examples.tableLibOvertaken
  ∧ TableLib.selectedXColumn (TableLib.ui Examples.tableLibOvertaken)
    = Some "city"
  ∧ TableLib.chartData (TableLib.ui Examples.tableLibOvertaken)
    = Some Examples.chartOfY
  ∧ TableLib.chart_x_column
      <$> TableLib.chartInFlight Examples.tableLibOvertaken !! 0%nat
    = Some "name"
  ∧ ((fun s => (TableLib.selectedXColumn s, TableLib.chartData s))
       <$> (TableLib.ui
              <$> TableLib.exec (TableLib.ChartFulfilled 0 Examples.chartOfX)
                                Examples.tableLibOvertaken))
    = Some (Some "city", Some Examples.chartOfX)
  ∧ Examples.chartOfX ≠ Examples.chartOfY.
Proof.
  repeat (split; [vm_compute; reflexivity |]).
  split; [apply pageOfF_not_pageOfG |].
  repeat (split; [vm_compute; reflexivity |]).
  apply chartOfX_not_chartOfY.
Qed.

(** C1, as the code has it: the response of any request in flight is
    committed when it arrives, and the loading flag cleared, whatever the
    view state has become since the request was sent.  The result held is
    that of the request that was answered last. *)
Theorem C1_last_response_wins :
  (∀ (w : Manual.World) (i : nat) (c : Manual.DataCall) response,
      Manual.dataInFlight w !! i = Some c →
      ∃ w', Manual.exec (Manual.DataFulfilled i response) w = Some w'
            ∧ Manual.tableData (Manual.ui w') = Some response
            ∧ Manual.isLoadingTable (Manual.ui w') = false)
  ∧ (∀ (w : Manual.World) (i : nat) (c : Manual.ChartCall) response,
        Manual.chartInFlight w !! i = Some c →
        ∃ w', Manual.exec (Manual.ChartFulfilled i response) w = Some w'
              ∧ Manual.chartData (Manual.ui w') = Some response
              ∧ Manual.isLoadingChart (Manual.ui w') = false)
  ∧ (∀ (w : TableLib.World) (i : nat) (c : TableLib.DataCall) response,
        TableLib.dataInFlight w !! i = Some c →
        ∃ w', TableLib.exec (TableLib.DataFulfilled i response) w = Some w'
              ∧ TableLib.tableData (TableLib.ui w') = Some response
              ∧ TableLib.isLoadingTable (TableLib.ui w') = false)
  ∧ (∀ (w : TableLib.World) (i : nat) (c : TableLib.ChartCall) response,
        TableLib.chartInFlight w !! i = Some c →
        ∃ w', TableLib.exec (TableLib.ChartFulfilled i response) w = Some w'
              ∧ TableLib.chartData (TableLib.ui w') = Some response
              ∧ TableLib.isLoadingChart (TableLib.ui w') = false).
Proof.
  repeat split; intros w i c response Hc; eexists; simpl; rewrite Hc; simpl.
  - split; [reflexivity |]. split; [| reflexivity].
    unfold Manual.fetchData_fulfilled.
    destruct (inferY _ _), (inferX _ _); reflexivity.
  - repeat split.
  - repeat split.
  - repeat split.
Qed.

(** The theorem at the overtaken request for file f. *)
Lemma C1_last_response_wins_witness :
  Manual.selectedFileId (Manual.ui Examples.manualOvertaken) = Some "g"
  ∧ Manual.tableData (Manual.ui Examples.manualOvertaken)
    = Some Examples.pageOfG
  ∧ Manual.data_file <$> Manual.dataInFlight Examples.manualOvertaken !! 0%nat
    = Some "f"
  ∧ ∃ w', Manual.exec (Manual.DataFulfilled 0 Examples.pageOfF)
                      Examples.manualOvertaken = Some w'
          ∧ Manual.tableData (Manual.ui w') = Some Examples.pageOfF
          ∧ Manual.isLoadingTable (Manual.ui w') = false.
Proof.
  split; [reflexivity |]. split; [reflexivity |]. split; [reflexivity |].
  apply (proj1 C1_last_response_wins Examples.manualOvertaken 0%nat
               (Manual.mkDataCall "f" 1 10 None Manual.asc EmptyString None None)).
  reflexivity.
Defined.

(** C10: when a page request fails, the table is set to absent and the
    error text recorded, in both dashboards. *)
Theorem C10_failed_page_clears_table :
  (∀ (w : Manual.World) (i : nat) (c : Manual.DataCall),
      Manual.dataInFlight w !! i = Some c →
      ∃ w', Manual.exec (Manual.DataRejected i) w = Some w'
            ∧ Manual.tableData (Manual.ui w') = None
            ∧ Manual.dataFetchError (Manual.ui w')
              = Some "Failed to fetch data.")
  ∧ (∀ (w : TableLib.World) (i : nat) (c : TableLib.DataCall),
        TableLib.dataInFlight w !! i = Some c →
        ∃ w', TableLib.exec (TableLib.DataRejected i) w = Some w'
              ∧ TableLib.tableData (TableLib.ui w') = None
              ∧ TableLib.dataFetchError (TableLib.ui w')
                = Some "Failed to fetch data.").
Proof.
  split; intros w i c Hc; eexists; simpl; rewrite Hc; simpl; repeat split.
Qed.

(** The theorem at a loaded dashboard whose next page request fails. *)
Lemma C10_failed_page_clears_table_witness :
  Manual.tableData (Manual.ui Examples.manualFetching) = Some Examples.people
  ∧ (∃ w', Manual.exec (Manual.DataRejected 0) Examples.manualFetching
           = Some w'
           ∧ Manual.tableData (Manual.ui w') = None
           ∧ Manual.dataFetchError (Manual.ui w')
             = Some "Failed to fetch data.")
  ∧ (∃ w', TableLib.exec (TableLib.DataRejected 0) Examples.tableLibFetching
           = Some w'
           ∧ TableLib.tableData (TableLib.ui w') = None
           ∧ TableLib.dataFetchError (TableLib.ui w')
             = Some "Failed to fetch data.").
Proof.
  split; [reflexivity |]. split.
  - apply (proj1 C10_failed_page_clears_table Examples.manualFetching 0%nat
                 (Manual.mkDataCall "f" 1 10 None Manual.asc EmptyString
                                    (Some "name") (Some "age"))).
    reflexivity.
  - apply (proj2 C10_failed_page_clears_table Examples.tableLibFetching 0%nat
                 (TableLib.mkDataCall "f" 1 10 EmptyString None None)).
    reflexivity.
Defined.

(** C9: while the file, the X column or the Y column is absent, the chart
    callback sends no request and sets the chart to absent; the chart's
    loading flag and error are as they were.  In both dashboards. *)
Theorem C9_chart_guard :
  (∀ s : Manual.State,
      Manual.selectedFileId s = None ∨ Manual.selectedXColumn s = None
      ∨ Manual.selectedYColumn s = None →
      (Manual.fetchChartData s).2 = None
      ∧ Manual.chartData (Manual.fetchChartData s).1 = None
      ∧ Manual.isLoadingChart (Manual.fetchChartData s).1
        = Manual.isLoadingChart s
      ∧ Manual.chartFetchError (Manual.fetchChartData s).1
        = Manual.chartFetchError s)
  ∧ (∀ s : TableLib.State,
        TableLib.selectedFileId s = None ∨ TableLib.selectedXColumn s = None
        ∨ TableLib.selectedYColumn s = None →
        (TableLib.fetchChartData s).2 = None
        ∧ TableLib.chartData (TableLib.fetchChartData s).1 = None
        ∧ TableLib.isLoadingChart (TableLib.fetchChartData s).1
          = TableLib.isLoadingChart s
        ∧ TableLib.chartFetchError (TableLib.fetchChartData s).1
          = TableLib.chartFetchError s).
Proof.
  split; intros s H.
  - unfold Manual.fetchChartData.
    destruct (Manual.selectedFileId s), (Manual.selectedXColumn s),
      (Manual.selectedYColumn s); try (repeat split; fail);
      destruct H as [H | [H | H]]; discriminate.
  - unfold TableLib.fetchChartData.
    destruct (TableLib.selectedFileId s), (TableLib.selectedXColumn s),
      (TableLib.selectedYColumn s); try (repeat split; fail);
      destruct H as [H | [H | H]]; discriminate.
Qed.

(** The theorem at a dashboard with a file and no columns, and at the
    initial one. *)
Lemma C9_chart_guard_witness :
  ((Manual.fetchChartData Examples.manualWithF).2 = None
   ∧ Manual.chartData (Manual.fetchChartData Examples.manualWithF).1 = None
   ∧ Manual.isLoadingChart (Manual.fetchChartData Examples.manualWithF).1
     = Manual.isLoadingChart Examples.manualWithF
   ∧ Manual.chartFetchError (Manual.fetchChartData Examples.manualWithF).1
     = Manual.chartFetchError Examples.manualWithF)
  ∧ ((TableLib.fetchChartData TableLib.initial).2 = None
     ∧ TableLib.chartData (TableLib.fetchChartData TableLib.initial).1 = None
     ∧ TableLib.isLoadingChart (TableLib.fetchChartData TableLib.initial).1
       = TableLib.isLoadingChart TableLib.initial
     ∧ TableLib.chartFetchError (TableLib.fetchChartData TableLib.initial).1
       = TableLib.chartFetchError TableLib.initial).
Proof.
  split.
  - apply (proj1 C9_chart_guard Examples.manualWithF).
    right. left. reflexivity.
  - apply (proj2 C9_chart_guard TableLib.initial).
    left. reflexivity.
Defined.

(** C4, negated as stated.  The dataset list has no error variable of its
    own: when its request fails it writes the text into [dataFetchError],
    the variable of the page stream, and the card of a loaded table then
    shows that text instead of the table. *)
Lemma C4_list_failure_shows_in_table_card :
  let manualCall := Manual.mkFilesCall (Some "f") in
  let tableLibCall := TableLib.mkFilesCall (Some "f") in
  Manual.tableCard Examples.manualLoaded = Manual.Ready
  ∧ Manual.tableStream
      (Manual.fetchFiles_rejected manualCall Examples.manualLoaded)
    ≠ Manual.tableStream Examples.manualLoaded
  ∧ Manual.tableCard
      (Manual.fetchFiles_rejected manualCall Examples.manualLoaded)
    = Manual.ErrorText
  ∧ TableLib.tableCard Examples.tableLibLoaded = TableLib.Ready
  ∧ TableLib.tableStream
      (TableLib.fetchFiles_rejected tableLibCall Examples.tableLibLoaded)
    ≠ TableLib.tableStream Examples.tableLibLoaded
  ∧ TableLib.tableCard
      (TableLib.fetchFiles_rejected tableLibCall Examples.tableLibLoaded)
    = TableLib.ErrorText.
Proof.
  intros manualCall tableLibCall.
  split; [reflexivity |]. split; [discriminate |]. split; [reflexivity |].
  split; [reflexivity |]. split; [discriminate | reflexivity].
Qed.

(** C4, as the code has it.  The chart has its own loading flag and error;
    the dataset list and the page share [dataFetchError].  A failed chart
    request leaves the page, its flag, its error, the card, the files and
    the selection as they were; a failed page request leaves the chart, its
    flag, its error and the chosen columns as they were; a failed list
    request leaves the page, its flag and the chart stream as they were and
    writes its text into [dataFetchError]. *)
Theorem C4_failures_by_stream :
  (∀ (s : Manual.State) (cc : Manual.ChartCall) (dc : Manual.DataCall)
     (fc : Manual.FilesCall),
      Manual.tableStream (Manual.fetchChartData_rejected cc s)
      = Manual.tableStream s
      ∧ Manual.tableCard (Manual.fetchChartData_rejected cc s)
        = Manual.tableCard s
      ∧ Manual.files (Manual.fetchChartData_rejected cc s) = Manual.files s
      ∧ Manual.selectedFileId (Manual.fetchChartData_rejected cc s)
        = Manual.selectedFileId s
      ∧ Manual.chartStream (Manual.fetchData_rejected dc s)
        = Manual.chartStream s
      ∧ Manual.selectedXColumn (Manual.fetchData_rejected dc s)
        = Manual.selectedXColumn s
      ∧ Manual.selectedYColumn (Manual.fetchData_rejected dc s)
        = Manual.selectedYColumn s
      ∧ Manual.chartStream (Manual.fetchFiles_rejected fc s)
        = Manual.chartStream s
      ∧ Manual.tableData (Manual.fetchFiles_rejected fc s)
        = Manual.tableData s
      ∧ Manual.isLoadingTable (Manual.fetchFiles_rejected fc s)
        = Manual.isLoadingTable s
      ∧ Manual.dataFetchError (Manual.fetchFiles_rejected fc s)
        = Some "Failed to fetch files."
      ∧ Manual.dataFetchError (Manual.fetchData_rejected dc s)
        = Some "Failed to fetch data.")
  ∧ (∀ (s : TableLib.State) (cc : TableLib.ChartCall)
       (dc : TableLib.DataCall) (fc : TableLib.FilesCall),
        TableLib.tableStream (TableLib.fetchChartData_rejected cc s)
        = TableLib.tableStream s
        ∧ TableLib.tableCard (TableLib.fetchChartData_rejected cc s)
          = TableLib.tableCard s
        ∧ TableLib.files (TableLib.fetchChartData_rejected cc s)
          = TableLib.files s
        ∧ TableLib.selectedFileId (TableLib.fetchChartData_rejected cc s)
          = TableLib.selectedFileId s
        ∧ TableLib.chartStream (TableLib.fetchData_rejected dc s)
          = TableLib.chartStream s
        ∧ TableLib.selectedXColumn (TableLib.fetchData_rejected dc s)
          = TableLib.selectedXColumn s
        ∧ TableLib.selectedYColumn (TableLib.fetchData_rejected dc s)
          = TableLib.selectedYColumn s
        ∧ TableLib.chartStream (TableLib.fetchFiles_rejected fc s)
          = TableLib.chartStream s
        ∧ TableLib.tableData (TableLib.fetchFiles_rejected fc s)
          = TableLib.tableData s
        ∧ TableLib.isLoadingTable (TableLib.fetchFiles_rejected fc s)
          = TableLib.isLoadingTable s
        ∧ TableLib.dataFetchError (TableLib.fetchFiles_rejected fc s)
          = Some "Failed to fetch files."
        ∧ TableLib.dataFetchError (TableLib.fetchData_rejected dc s)
          = Some "Failed to fetch data.").
Proof. split; intros s cc dc fc; repeat split. Qed.

(** ** Column inference *)

Lemma truthy_Some c : truthy (Some c) = true ↔ c ≠ EmptyString.
Proof. simpl. rewrite negb_true_iff. apply String.eqb_neq. Qed.

Lemma truthy_member (columns : list string) c :
  EmptyString ∉ columns → c ∈ columns → truthy (Some c) = true.
Proof. intros Hno Hin. apply truthy_Some. by intros ->. Qed.

Lemma jsOr_truthy a b : truthy a = true → jsOr a b = a.
Proof. unfold jsOr. by intros ->. Qed.

Lemma jsOr_None b : jsOr None b = b.
Proof. reflexivity. Qed.

Lemma isNumeric_rowGet row col :
  isNumeric (rowGet row col) = true
  ↔ ∃ n, row !! col = Some (JNumber n) ∧ n ≠ NaN.
Proof.
  unfold rowGet. split.
  - destruct (row !! col) as [[| | | n | |]|]; simpl; try discriminate.
    intros Hn. exists n. split; [done |]. by intros ->.
  - intros (n & -> & Hn). simpl. by destruct n.
Qed.

Lemma sample_NumericSample td col :
  existsb (fun row => isNumeric (rowGet row col)) (take 5 (TableData.data td))
  = true
  ↔ NumericSample td col.
Proof.
  rewrite existsb_exists. unfold NumericSample. split.
  - intros (row & Hin & Hnum).
    apply list_elem_of_In, list_elem_of_lookup in Hin as [k Hk].
    apply lookup_take_Some in Hk as [Hk Hlt].
    apply isNumeric_rowGet in Hnum as (n & Hget & Hn).
    by exists k, row, n.
  - intros (k & row & n & Hlt & Hk & Hget & Hn).
    exists row. split.
    + apply list_elem_of_In, list_elem_of_lookup. exists k.
      by apply lookup_take_Some.
    + apply isNumeric_rowGet. by exists n.
Qed.

Section Find.
Context {A : Type} (P : A → bool).

Lemma find_first (l : list A) (i : nat) (x : A) :
  l !! i = Some x → P x = true →
  (∀ (j : nat) (y : A), (j < i)%nat → l !! j = Some y → P y = false) →
  find P l = Some x.
Proof.
  revert i. induction l as [| a l IH]; intros i Hi Hx Hbefore.
  - done.
  - destruct i as [| i]; simpl in *.
    + injection Hi as ->. by rewrite Hx.
    + rewrite (Hbefore 0%nat a) by (done || lia).
      apply (IH i); [done | done |].
      intros j y Hj Hy. apply (Hbefore (S j) y); [lia | done].
Qed.

Lemma find_absent (l : list A) :
  (∀ x, x ∈ l → P x = false) → find P l = None.
Proof.
  induction l as [| a l IH]; intros Hall; [done |]. simpl.
  rewrite (Hall a) by apply list_elem_of_here.
  apply IH. intros x Hx. apply Hall. by apply list_elem_of_further.
Qed.
End Find.

Lemma numericColumn_first td col :
  FirstNumeric td col → numericColumn td = Some col.
Proof.
  intros (i & Hi & Hnum & Hbefore). unfold numericColumn.
  apply (find_first _ _ i); [done | by apply sample_NumericSample |].
  intros j c Hj Hc. apply not_true_is_false.
  rewrite sample_NumericSample. by apply (Hbefore j).
Qed.

Lemma numericColumn_none td :
  (∀ col, col ∈ TableData.columns td → ¬ NumericSample td col) →
  numericColumn td = None.
Proof.
  intros Hnone. apply find_absent. intros c Hc. apply not_true_is_false.
  rewrite sample_NumericSample. by apply Hnone.
Qed.

Lemma invalid_test (columns : list string) sel :
  Invalid columns sel →
  negb (truthy sel) || negb (includes columns sel) = true.
Proof.
  intros [-> | (c & -> & Hc)]; [done |].
  apply orb_true_iff. right. simpl. by rewrite bool_decide_eq_false_2.
Qed.

Lemma valid_test (columns : list string) c :
  c ≠ EmptyString → c ∈ columns →
  negb (truthy (Some c)) || negb (includes columns (Some c)) = false.
Proof.
  intros Hc Hin. apply truthy_Some in Hc. rewrite Hc. simpl.
  by rewrite bool_decide_eq_true_2.
Qed.

Lemma nonempty_length {A} (l : list A) : l ≠ [] → (0 <? length l)%nat = true.
Proof. destruct l; [done |]. intros _. reflexivity. Qed.

(** What the two dashboards hold after inference. *)
Lemma manual_fulfilled_columns c td s :
  Manual.selectedXColumn (Manual.fetchData_fulfilled c td s)
  = default (Manual.selectedXColumn s)
            (inferX td (Manual.data_selectedXColumn c))
  ∧ Manual.selectedYColumn (Manual.fetchData_fulfilled c td s)
    = default (Manual.selectedYColumn s)
              (inferY td (Manual.data_selectedYColumn c)).
Proof.
  unfold Manual.fetchData_fulfilled.
  destruct (inferX _ _), (inferY _ _); split; reflexivity.
Qed.

Lemma tableLib_inferColumns_columns td s :
  TableLib.tableData s = Some td →
  TableLib.selectedXColumn (TableLib.inferColumns s)
  = default (TableLib.selectedXColumn s)
            (inferX td (TableLib.selectedXColumn s))
  ∧ TableLib.selectedYColumn (TableLib.inferColumns s)
    = default (TableLib.selectedYColumn s)
              (inferY td (TableLib.selectedYColumn s)).
Proof.
  intros Htd. unfold TableLib.inferColumns. rewrite Htd.
  destruct (inferX _ _), (inferY _ _); split; reflexivity.
Qed.

(** C5, negated as stated.  On a page whose columns are "a" and the empty
    name, with no number in any row and no Y column chosen, the Y column
    becomes "a", not [columns[1]]: the empty name is falsy, so the chain of
    [||] passes over it. *)
Lemma C5_empty_name_passed_over :
  TableData.columns Examples.unnamed !! 1%nat = Some EmptyString
  ∧ numericColumn Examples.unnamed = None
  ∧ inferY Examples.unnamed None = Some (Some "a")
  ∧ inferY Examples.unnamed None
    ≠ Some (TableData.columns Examples.unnamed !! 1%nat).
Proof. repeat split. discriminate. Qed.

(** C5, as the code has it: the claim for column lists without the empty
    name.  With an empty list both columns are set to absent.  Otherwise an
    absent or unlisted X column becomes [columns[0]], and an absent or
    unlisted Y column becomes the first column with a numeric value in one
    of the first five rows, or else [columns[1]], or else [columns[0]] when
    there is one column only. *)
Theorem C5_default_columns (td : TableData.t) (selX selY : option string) :
  EmptyString ∉ TableData.columns td →
  let columns := TableData.columns td in
  (columns = [] → inferX td selX = Some None ∧ inferY td selY = Some None)
  ∧ (columns ≠ [] → Invalid columns selX →
     inferX td selX = Some (columns !! 0%nat))
  ∧ (columns ≠ [] → Invalid columns selY →
     (∀ col, FirstNumeric td col → inferY td selY = Some (Some col))
     ∧ ((∀ col, col ∈ columns → ¬ NumericSample td col) →
        (∀ c1, columns !! 1%nat = Some c1 →
               inferY td selY = Some (Some c1))
        ∧ (columns !! 1%nat = None →
           inferY td selY = Some (columns !! 0%nat)))).
Proof.
  intros Hnames columns. unfold inferX, inferY. fold columns.
  split; [| split].
  - by intros ->.
  - intros Hne Hinv. by rewrite (nonempty_length _ Hne), invalid_test.
  - intros Hne Hinv. rewrite (nonempty_length _ Hne), invalid_test by done.
    split.
    + intros col Hfirst. rewrite (numericColumn_first _ _ Hfirst).
      destruct Hfirst as (i & Hi & _).
      assert (truthy (Some col) = true) as Hcol.
      { apply (truthy_member columns); [done |].
        by apply list_elem_of_lookup_2 with i. }
      by rewrite !(jsOr_truthy (Some col)).
    + intros Hnone. rewrite (numericColumn_none _ Hnone), jsOr_None. split.
      * intros c1 Hc1. rewrite Hc1. rewrite jsOr_truthy; [done |].
        apply (truthy_member columns); [done |].
        by apply list_elem_of_lookup_2 with 1%nat.
      * by intros ->.
Qed.

Lemma FirstNumeric_people_age : FirstNumeric Examples.people "age".
Proof.
  exists 1%nat. split; [reflexivity |]. split.
  - eexists 0%nat, _, (Finite (30 # 1)).
    split; [lia |]. split; [reflexivity |]. split; [reflexivity | discriminate].
  - intros j c Hj Hc. destruct j as [| j]; [| lia].
    injection Hc as <-. intros (k & row & n & _ & Hrow & Hget & _).
    destruct k as [| k]; [| discriminate].
    injection Hrow as <-. vm_compute in Hget. discriminate.
Defined.

(** The theorem at the example of the specification: X is "name" and Y is
    "age". *)
Lemma C5_default_columns_witness :
  inferX Examples.people None = Some (Some "name")
  ∧ inferY Examples.people None = Some (Some "age").
Proof.
  assert (EmptyString ∉ TableData.columns Examples.people) as Hnames.
  { intros H. repeat (apply elem_of_cons in H as [H | H]; [discriminate |]).
    by apply elem_of_nil in H. }
  destruct (C5_default_columns Examples.people None None Hnames)
    as (_ & HX & HY).
  split.
  - apply HX; [discriminate | by left].
  - assert (TableData.columns Examples.people ≠ []) as Hne by discriminate.
    destruct (HY Hne (or_introl eq_refl)) as [Hfirst _].
    apply Hfirst, FirstNumeric_people_age.
Defined.

(** The same example in the two dashboards: the page arrives while no
    column is chosen. *)
Example people_defaults_in_dashboards :
  ((fun s => (Manual.selectedXColumn s, Manual.selectedYColumn s))
     <$> (Manual.ui
            <$> Manual.run [Manual.RunFetchData;
                            Manual.DataFulfilled 0 Examples.people]
                           (Manual.mounted Examples.manualWithF)))
  = Some (Some "name", Some "age")
  ∧ ((fun s => (TableLib.selectedXColumn s, TableLib.selectedYColumn s))
       <$> (TableLib.ui
              <$> TableLib.run [TableLib.RunFetchData;
                                TableLib.DataFulfilled 0 Examples.people;
                                TableLib.RunInferColumns]
                               (TableLib.mounted Examples.tableLibWithF)))
    = Some (Some "name", Some "age").
Proof. split; vm_compute; reflexivity. Qed.

(** Inference calls neither setter when the X and the Y column it reads are
    non-empty names of the column list; the table-library dashboard, whose
    effect reads the current selection, is then left as it is. *)
Lemma listed_columns_uncalled (td : TableData.t) (x y : string) :
  x ≠ EmptyString → y ≠ EmptyString →
  x ∈ TableData.columns td → y ∈ TableData.columns td →
  inferX td (Some x) = None
  ∧ inferY td (Some y) = None
  ∧ (∀ s : TableLib.State,
        TableLib.tableData s = Some td →
        TableLib.selectedXColumn s = Some x →
        TableLib.selectedYColumn s = Some y →
        TableLib.inferColumns s = s).
Proof.
  intros Hx Hy Hinx Hiny.
  assert (TableData.columns td ≠ []) as Hne.
  { intros Hnil. rewrite Hnil in Hinx. by apply elem_of_nil in Hinx. }
  assert (inferX td (Some x) = None) as HX.
  { unfold inferX. by rewrite (nonempty_length _ Hne), valid_test. }
  assert (inferY td (Some y) = None) as HY.
  { unfold inferY. by rewrite (nonempty_length _ Hne), valid_test. }
  split; [done |]. split; [done |].
  intros s Htd Hsx Hsy. unfold TableLib.inferColumns.
  by rewrite Htd, Hsx, Hsy, HX, HY.
Qed.

(** C6, which the manual dashboard breaks.  In the run [overwrittenChoice]
    the pages of f and of g are requested before any column is chosen; the
    page of f arrives and name and age are inferred; the user chooses city
    for the X axis, a column of the page shown and of the page on its way.
    The page of g then arrives: its request closed over the absent
    selection, so the X column is set back to name, although city is in the
    column list of that page.  Through the same actions and responses the
    table-library dashboard, whose effect reads the current selection,
    keeps city. *)
Theorem C6_late_response_replaces_choice :
  let w := Examples.manualChosen in
  let w' := Examples.tableLibChosen in
  Manual.run (take 17 Examples.overwrittenChoice)
             (Manual.mounted Manual.initial) = Some w
  ∧ Manual.tableData (Manual.ui w) = Some Examples.people
  ∧ Manual.selectedXColumn (Manual.ui w) = Some "city"
  ∧ Manual.selectedYColumn (Manual.ui w) = Some "age"
  ∧ "city" ∈ TableData.columns Examples.people
  ∧ "city" ∈ TableData.columns Examples.peopleOfG
  ∧ "age" ∈ TableData.columns Examples.peopleOfG
  ∧ Manual.selectedFileId (Manual.ui w) = Some "g"
  ∧ Manual.data_file <$> Manual.dataInFlight w !! 0%nat = Some "g"
  ∧ Manual.data_selectedXColumn <$> Manual.dataInFlight w !! 0%nat
    = Some None
  ∧ (Manual.selectedXColumn ∘ Manual.ui)
      <$> Manual.exec (Manual.DataFulfilled 0 Examples.peopleOfG) w
    = Some (Some "name")
  ∧ (Manual.selectedXColumn ∘ Manual.ui)
      <$> Manual.run Examples.overwrittenChoice
                     (Manual.mounted Manual.initial)
    = Some (Some "name")
  ∧ TableLib.run (take 19 Examples.keptChoice)
                 (TableLib.mounted TableLib.initial) = Some w'
  ∧ TableLib.selectedXColumn (TableLib.ui w') = Some "city"
  ∧ (TableLib.selectedXColumn ∘ TableLib.ui)
      <$> TableLib.run Examples.keptChoice
                       (TableLib.mounted TableLib.initial)
    = Some (Some "city").
Proof.
  intros w w'.
  repeat (split; [vm_compute; reflexivity |]).
  split; [apply list_elem_of_further, list_elem_of_further,
            list_elem_of_here |].
  split; [apply list_elem_of_further, list_elem_of_further,
            list_elem_of_here |].
  split; [apply list_elem_of_further, list_elem_of_here |].
  repeat (split; [vm_compute; reflexivity |]).
  vm_compute; reflexivity.
Qed.

(** ** Selection after a dataset-list response *)

Lemma listed_test sel (data : list UploadedFile.t) :
  existsb (fun f => bool_decide (Some (UploadedFile.id f) = sel)) data = true
  ↔ ∃ f, f ∈ data ∧ Some (UploadedFile.id f) = sel.
Proof.
  rewrite existsb_exists. split.
  - intros (f & Hin & Heq). exists f. split; [by apply list_elem_of_In |].
    by apply bool_decide_eq_true in Heq.
  - intros (f & Hin & Heq). exists f. split; [by apply list_elem_of_In |].
    by apply bool_decide_eq_true.
Qed.

Lemma unlisted_test fileId (data : list UploadedFile.t) :
  fileId ∉ (UploadedFile.id <$> data) →
  existsb (fun f => bool_decide (Some (UploadedFile.id f) = Some fileId)) data
  = false.
Proof.
  intros Hout. apply not_true_is_false. rewrite listed_test.
  intros (f & Hin & [= Heq]). apply Hout. rewrite <- Heq.
  by apply list_elem_of_fmap_2.
Qed.

(** C8, negated as stated.  In the run [emptyIdRun] the selected id is the
    empty string when the empty list arrives: the id is not in the list,
    yet it stays selected. *)
Lemma C8_empty_id_stays :
  Manual.selectedFileId
    <$> (Manual.ui
           <$> Manual.run (take 7 Examples.emptyIdRun)
                          (Manual.mounted Manual.initial))
  = Some (Some EmptyString)
  ∧ (EmptyString ∉ UploadedFile.id <$> @nil UploadedFile.t)
  ∧ Manual.selectedFileId
      <$> (Manual.ui
             <$> Manual.run Examples.emptyIdRun
                            (Manual.mounted Manual.initial))
    = Some (Some EmptyString)
  ∧ pickSelection (Some EmptyString) [] = None.
Proof.
  split; [vm_compute; reflexivity |].
  split; [apply not_elem_of_nil |].
  split; vm_compute; reflexivity.
Qed.

(** C8, as the code has it: the claim for ids that are not the empty
    string.  The response is stored as the file list.  When the id the
    callback closed over is non-empty and not in the list, the selection
    becomes the id of the first file, or absent when the list is empty;
    when the callback closed over no selection and the list is not empty,
    the selection becomes the id of the first file. *)
Theorem C8_selection_after_list (data : list UploadedFile.t) :
  let first := UploadedFile.id <$> data !! 0%nat in
  (∀ fileId : string,
      fileId ≠ EmptyString → fileId ∉ (UploadedFile.id <$> data) →
      pickSelection (Some fileId) data = Some first
      ∧ (∀ s, Manual.selectedFileId
                (Manual.fetchFiles_fulfilled
                   (Manual.mkFilesCall (Some fileId)) data s) = first)
      ∧ (∀ s, TableLib.selectedFileId
                (TableLib.fetchFiles_fulfilled
                   (TableLib.mkFilesCall (Some fileId)) data s) = first))
  ∧ (data ≠ [] →
     pickSelection None data = Some first
     ∧ (∀ s, Manual.selectedFileId
               (Manual.fetchFiles_fulfilled (Manual.mkFilesCall None) data s)
             = first)
     ∧ (∀ s, TableLib.selectedFileId
               (TableLib.fetchFiles_fulfilled
                  (TableLib.mkFilesCall None) data s) = first))
  ∧ (∀ c s, Manual.files (Manual.fetchFiles_fulfilled c data s) = data)
  ∧ (∀ c s, TableLib.files (TableLib.fetchFiles_fulfilled c data s) = data).
Proof.
  intros first. split; [| split; [| split]].
  - intros fileId Hid Hout.
    assert (pickSelection (Some fileId) data = Some first) as Hpick.
    { unfold pickSelection. apply truthy_Some in Hid. rewrite Hid.
      rewrite andb_false_r, andb_true_r, (unlisted_test _ _ Hout).
      destruct data; reflexivity. }
    split; [done |].
    split; intros s.
    + unfold Manual.fetchFiles_fulfilled. simpl. by rewrite Hpick.
    + unfold TableLib.fetchFiles_fulfilled. simpl. by rewrite Hpick.
  - intros Hne.
    assert (pickSelection None data = Some first) as Hpick.
    { unfold pickSelection. by rewrite (nonempty_length _ Hne). }
    split; [done |].
    split; intros s.
    + unfold Manual.fetchFiles_fulfilled. simpl. by rewrite Hpick.
    + unfold TableLib.fetchFiles_fulfilled. simpl. by rewrite Hpick.
  - intros c s. unfold Manual.fetchFiles_fulfilled.
    by destruct (pickSelection _ _).
  - intros c s. unfold TableLib.fetchFiles_fulfilled.
    by destruct (pickSelection _ _).
Qed.

(** The theorem at a list without the selected file f, at the empty list,
    and at no selection. *)
Lemma C8_selection_after_list_witness :
  pickSelection (Some "f") [Examples.file "g"; Examples.file "h"]
  = Some (Some "g")
  ∧ pickSelection (Some "f") [] = Some None
  ∧ pickSelection None [Examples.file "g"; Examples.file "h"]
    = Some (Some "g").
Proof.
  split; [| split].
  - apply (proj1 (C8_selection_after_list
                    [Examples.file "g"; Examples.file "h"]) "f").
    + discriminate.
    + intros H. repeat (apply elem_of_cons in H as [H | H]; [discriminate |]).
      by apply elem_of_nil in H.
  - apply (proj1 (C8_selection_after_list []) "f").
    + discriminate.
    + apply not_elem_of_nil.
  - apply (proj1 (proj2 (C8_selection_after_list
                           [Examples.file "g"; Examples.file "h"]))).
    discriminate.
Defined.

(** * Further properties *)

(** ** Chart colours *)

Lemma baseColors_mod (i : nat) :
  is_Some (Colors.baseColors !! (i mod length Colors.baseColors)%nat).
Proof.
  apply lookup_lt_is_Some. apply Nat.mod_upper_bound. discriminate.
Qed.

Lemma generateColors_loop_spec (fuel : nat) (count : Z) (i : nat) colors :
  Colors.generateColors_loop fuel count i colors
  = (colors
       ++ ((fun k => Colors.baseColors !! (k mod length Colors.baseColors)%nat)
             <$> seq i (fuel `min` (Z.to_nat count - i))))%list.
Proof.
  revert i colors. induction fuel as [| fuel IH]; intros i colors; simpl.
  - by rewrite app_nil_r.
  - destruct (Z.ltb_spec (Z.of_nat i) count) as [Hlt | Hge].
    + rewrite IH. rewrite <- app_assoc. f_equal.
      replace (Z.to_nat count - i)%nat with (S (Z.to_nat count - S i)) by lia.
      reflexivity.
    + replace (Z.to_nat count - i)%nat with 0%nat by lia.
      by rewrite app_nil_r.
Qed.

Lemma generateColors_seq (count : Z) :
  Colors.generateColors count
  = (fun k => Colors.baseColors !! (k mod length Colors.baseColors)%nat)
      <$> seq 0 (Z.to_nat count).
Proof.
  unfold Colors.generateColors. rewrite generateColors_loop_spec. simpl.
  by replace (Z.to_nat count `min` (Z.to_nat count - 0))%nat
    with (Z.to_nat count) by lia.
Qed.

(** X1: [generateColors(count)] returns [count] colours, none for a count
    of zero or less; the loop has finished after that many turns; entry
    [i] is the base colour number [i mod 6], never [undefined]. *)
Theorem generateColors_cycles (count : Z) :
  length (Colors.generateColors count) = Z.to_nat count
  ∧ (∀ fuel, (Z.to_nat count ≤ fuel)%nat →
             Colors.generateColors_loop fuel count 0 []
             = Colors.generateColors count)
  ∧ ∀ i : nat,
      (i < Z.to_nat count)%nat →
      ∃ c, Colors.baseColors !! (i mod 6)%nat = Some c
           ∧ Colors.generateColors count !! i = Some (Some c).
Proof.
  split; [| split].
  - by rewrite generateColors_seq, length_fmap, length_seq.
  - intros fuel Hfuel.
    rewrite generateColors_seq, generateColors_loop_spec. simpl.
    by replace (fuel `min` (Z.to_nat count - 0))%nat
      with (Z.to_nat count) by lia.
  - intros i Hi. destruct (baseColors_mod i) as [c Hc].
    exists c. split; [done |].
    rewrite generateColors_seq, list_lookup_fmap, lookup_seq_lt by done.
    simpl. f_equal. exact Hc.
Qed.

(** The theorem at eight colours: the last one is the second base colour. *)
Lemma generateColors_cycles_witness :
  length (Colors.generateColors 8) = 8%nat
  ∧ ∃ c, Colors.baseColors !! 1%nat = Some c
         ∧ Colors.generateColors 8 !! 7%nat = Some (Some c).
Proof.
  destruct (generateColors_cycles 8) as (Hlen & _ & Hentry).
  split; [exact Hlen |]. apply (Hentry 7%nat). vm_compute. lia.
Defined.

Lemma generateColors_nonpositive (count : Z) :
  (count ≤ 0)%Z → Colors.generateColors count = [].
Proof.
  intros Hle. rewrite generateColors_seq.
  by replace (Z.to_nat count) with 0%nat by lia.
Qed.

Lemma baseColors_NoDup : NoDup Colors.baseColors.
Proof. apply (bool_decide_unpack _). by vm_compute. Qed.

Lemma cellFill_base (c : ChartApiResponse.t) (index : nat) :
  (index < length (ChartApiResponse.data c))%nat →
  Colors.cellFill (Some c) index = Colors.baseColors !! (index mod 6)%nat.
Proof.
  intros Hi. unfold Colors.cellFill, Colors.chartColors.
  set (n := length (ChartApiResponse.data c)) in *.
  assert (length (Colors.generateColors (Z.of_nat n)) = n) as Hlen.
  { rewrite generateColors_seq, length_fmap, length_seq. lia. }
  rewrite Hlen, Nat.mod_small by done.
  rewrite generateColors_seq, list_lookup_fmap, lookup_seq_lt by lia.
  reflexivity.
Qed.

(** X2: in the pie of a chart with rows, every cell has a fill, the base
    colour number [index mod 6]; two cells that follow each other in the
    list have different fills, and two cells six apart have the same.  The
    last cell, which lies next to the first in the pie, has the fill of the
    first exactly when the number of rows leaves 1 in the division by 6: a
    pie of 7, 13, 19, ... rows has two neighbouring cells of one colour. *)
Theorem pie_cells_coloured (c : ChartApiResponse.t) (index : nat) :
  (index < length (ChartApiResponse.data c))%nat →
  length (Colors.pieFills c) = length (ChartApiResponse.data c)
  ∧ Colors.pieFills c !! index = Some (Colors.cellFill (Some c) index)
  ∧ Colors.cellFill (Some c) index = Colors.baseColors !! (index mod 6)%nat
  ∧ is_Some (Colors.cellFill (Some c) index)
  ∧ ((S index < length (ChartApiResponse.data c))%nat →
     Colors.cellFill (Some c) index ≠ Colors.cellFill (Some c) (S index))
  ∧ ((index + 6 < length (ChartApiResponse.data c))%nat →
     Colors.cellFill (Some c) (index + 6) = Colors.cellFill (Some c) index)
  ∧ ((1 < length (ChartApiResponse.data c))%nat →
     Colors.cellFill (Some c) (length (ChartApiResponse.data c) - 1)
     = Colors.cellFill (Some c) 0
     ↔ (length (ChartApiResponse.data c) mod 6 = 1)%nat).
Proof.
  intros Hi. split; [| split; [| split; [| split; [| split; [| split]]]]].
  - unfold Colors.pieFills. by rewrite length_imap.
  - unfold Colors.pieFills. rewrite list_lookup_imap.
    destruct (lookup_lt_is_Some_2 (ChartApiResponse.data c) index Hi)
      as [row ->]. reflexivity.
  - by apply cellFill_base.
  - rewrite cellFill_base by done. apply (baseColors_mod index).
  - intros HS. rewrite !cellFill_base by done.
    destruct (baseColors_mod index) as [x Hx].
    change (length Colors.baseColors) with 6%nat in Hx. rewrite Hx.
    intros Heq. symmetry in Heq.
    pose proof (NoDup_lookup _ _ _ _ baseColors_NoDup Hx Heq) as Hmod.
    pose proof (Nat.div_mod_eq index 6). pose proof (Nat.div_mod_eq (S index) 6).
    pose proof (Nat.mod_upper_bound index 6). lia.
  - intros H6. rewrite !cellFill_base by lia. f_equal.
    replace (index + 6)%nat with (index + 1 * 6)%nat by lia.
    by rewrite Nat.Div0.mod_add.
  - intros Hn. set (n := length (ChartApiResponse.data c)) in *.
    rewrite !cellFill_base by (fold n; lia).
    change (0 mod 6)%nat with 0%nat.
    pose proof (Nat.div_mod_eq n 6) as Hdn.
    pose proof (Nat.div_mod_eq (n - 1) 6) as Hdl.
    pose proof (Nat.mod_upper_bound n 6 ltac:(lia)) as Hbn.
    pose proof (Nat.mod_upper_bound (n - 1) 6 ltac:(lia)) as Hbl.
    split.
    + intros Heq. destruct (baseColors_mod (n - 1)) as [x Hx].
      change (length Colors.baseColors) with 6%nat in Hx.
      rewrite Hx in Heq. symmetry in Heq.
      pose proof (NoDup_lookup _ _ _ _ baseColors_NoDup Hx Heq) as Hmod.
      lia.
    + intros Hmod. f_equal. lia.
Qed.

(** The theorem at the second cell of a pie of seven rows: the last cell
    has the fill of the first. *)
Lemma pie_cells_coloured_witness :
  let c := ChartApiResponse.mk "pie" (replicate 7 ∅) "name" "age" in
  Colors.cellFill (Some c) 1 = Some "hsl(var(--chart-2))"
  ∧ Colors.cellFill (Some c) 1 ≠ Colors.cellFill (Some c) 2
  ∧ Colors.cellFill (Some c) 6 = Colors.cellFill (Some c) 0.
Proof.
  intros c.
  assert (1 < length (ChartApiResponse.data c))%nat as H1
      by (vm_compute; lia).
  destruct (pie_cells_coloured c 1 H1)
    as (_ & _ & Hfill & _ & Hnext & _ & Hround).
  split; [exact Hfill |]. split.
  - apply Hnext. vm_compute. lia.
  - apply (proj2 (Hround H1)). reflexivity.
Defined.

(** ** The pager of the manual dashboard *)

Local Open Scope Z_scope.

(** *** The number of pages, computed in doubles *)

(** A positive number of [d] binary digits lies between [2^(d-1)] and
    [2^d]. *)
Lemma digits2_pos_bounds (p : positive) :
  2 ^ (Zpos (SpecFloat.digits2_pos p) - 1) ≤ Zpos p
  ∧ Zpos p < 2 ^ Zpos (SpecFloat.digits2_pos p).
Proof.
  induction p as [p [IH1 IH2] | p [IH1 IH2] |]; simpl SpecFloat.digits2_pos.
  - rewrite Pos2Z.inj_succ.
    replace (Z.succ (Zpos (SpecFloat.digits2_pos p)) - 1)
      with (Z.succ (Zpos (SpecFloat.digits2_pos p) - 1)) by lia.
    rewrite !Z.pow_succ_r by lia.
    replace (2 ^ Zpos (SpecFloat.digits2_pos p))
      with (2 * 2 ^ (Zpos (SpecFloat.digits2_pos p) - 1)) in *
      by (rewrite <- Z.pow_succ_r by lia; f_equal; lia).
    lia.
  - rewrite Pos2Z.inj_succ.
    replace (Z.succ (Zpos (SpecFloat.digits2_pos p)) - 1)
      with (Z.succ (Zpos (SpecFloat.digits2_pos p) - 1)) by lia.
    rewrite !Z.pow_succ_r by lia.
    replace (2 ^ Zpos (SpecFloat.digits2_pos p))
      with (2 * 2 ^ (Zpos (SpecFloat.digits2_pos p) - 1)) in *
      by (rewrite <- Z.pow_succ_r by lia; f_equal; lia).
    lia.
  - simpl. lia.
Qed.

Lemma digits2_pos_unique (p : positive) (n : Z) :
  2 ^ (n - 1) ≤ Zpos p < 2 ^ n → 0 < n →
  Zpos (SpecFloat.digits2_pos p) = n.
Proof.
  intros [Hlo Hhi] Hn. destruct (digits2_pos_bounds p) as [Dlo Dhi].
  set (d := Zpos (SpecFloat.digits2_pos p)) in *.
  assert (0 < d) as Hd by (subst d; lia).
  destruct (Z.lt_trichotomy d n) as [Hlt | [Heq | Hgt]]; [| done |].
  - pose proof (Z.pow_le_mono_r 2 d (n - 1) ltac:(lia) ltac:(lia)). lia.
  - pose proof (Z.pow_le_mono_r 2 n (d - 1) ltac:(lia) ltac:(lia)). lia.
Qed.

(** Appending [n] zero bits multiplies by [2^n]. *)
Lemma iter_xO (p n : positive) :
  Zpos (Pos.iter xO p n) = Zpos p * 2 ^ Zpos n.
Proof.
  induction n as [| n IH] using Pos.peano_ind.
  - simpl. lia.
  - rewrite Pos.iter_succ, Pos2Z.inj_xO, IH, Pos2Z.inj_succ, Z.pow_succ_r by lia.
    lia.
Qed.

(** The exponent of a normal double. *)
Lemma fexp_normal (x : Z) : -1021 ≤ x → SpecFloat.fexp 53 1024 x = x - 53.
Proof. intros Hx. unfold SpecFloat.fexp, SpecFloat.emin. lia. Qed.

(** The end of [binary_round_aux] on a rounded mantissa. *)
Lemma round_finish (M : Z) (e : Z) :
  2 ^ 52 ≤ M ≤ 2 ^ 53 → -1000 ≤ e ≤ 950 →
  ∃ m E,
    (let '(mrs, e') := SpecFloat.shr_fexp 53 1024 M e SpecFloat.loc_Exact in
     match SpecFloat.shr_m mrs with
     | Z0 => SpecFloat.S754_zero false
     | Zpos m =>
         if e' <=? 1024 - 53 then SpecFloat.S754_finite false m e'
         else SpecFloat.S754_infinity false
     | Zneg _ => SpecFloat.S754_nan
     end) = SpecFloat.S754_finite false m E
    ∧ ((Zpos m = M ∧ E = e) ∨ (M = 2 ^ 53 ∧ Zpos m = 2 ^ 52 ∧ E = e + 1)).
Proof.
  intros HM He. destruct M as [| M | M]; [lia | | lia].
  unfold SpecFloat.shr_fexp, SpecFloat.Zdigits2.
  destruct (Z.eq_dec (Zpos M) (2 ^ 53)) as [Heq | Hne].
  - rewrite (digits2_pos_unique M 54) by lia.
    rewrite fexp_normal by lia.
    replace (54 + e - 53 - e) with 1 by lia.
    change (2 ^ 53) with 9007199254740992 in Heq. injection Heq as ->.
    simpl. exists 4503599627370496%positive, (e + 1).
    destruct (Z.leb_spec (e + 1) (1024 - 53)) as [_ | Hgt]; [| lia].
    split; [reflexivity |]. right. split; [reflexivity |]. split; reflexivity.
  - rewrite (digits2_pos_unique M 53) by lia.
    rewrite fexp_normal by lia.
    replace (53 + e - 53 - e) with 0 by lia.
    simpl. exists M, e.
    destruct (Z.leb_spec e (1024 - 53)) as [_ | Hgt]; [| lia].
    split; [reflexivity |]. by left.
Qed.

Lemma loc_of_shr_record_of_loc (m : Z) (l : SpecFloat.location) :
  SpecFloat.loc_of_shr_record (SpecFloat.shr_record_of_loc m l) = l
  ∧ SpecFloat.shr_m (SpecFloat.shr_record_of_loc m l) = m.
Proof. by destruct l as [| []]. Qed.

(** Rounding a quotient of 53 binary digits. *)
Lemma round53 (q : positive) (e : Z) (l : SpecFloat.location) :
  2 ^ 52 ≤ Zpos q < 2 ^ 53 → -1000 ≤ e ≤ 900 →
  ∃ m E M,
    SpecFloat.binary_round_aux 53 1024 false (Zpos q) e l
    = SpecFloat.S754_finite false m E
    ∧ ((Zpos m = M ∧ E = e) ∨ (M = 2 ^ 53 ∧ Zpos m = 2 ^ 52 ∧ E = e + 1))
    ∧ (M = Zpos q ∨ M = Zpos q + 1)
    ∧ (M = Zpos q + 1 → l ≠ SpecFloat.loc_Exact)
    ∧ (l = SpecFloat.loc_Inexact Gt → M = Zpos q + 1).
Proof.
  intros Hq He. unfold SpecFloat.binary_round_aux.
  assert (SpecFloat.shr_fexp 53 1024 (Zpos q) e l
          = (SpecFloat.shr_record_of_loc (Zpos q) l, e)) as ->.
  { unfold SpecFloat.shr_fexp, SpecFloat.Zdigits2.
    rewrite (digits2_pos_unique q 53) by lia.
    rewrite fexp_normal by lia.
    by replace (53 + e - 53 - e) with 0 by lia. }
  destruct (loc_of_shr_record_of_loc (Zpos q) l) as [-> ->].
  set (M := SpecFloat.round_nearest_even (Zpos q) l).
  assert ((M = Zpos q ∨ M = Zpos q + 1)
          ∧ (M = Zpos q + 1 → l ≠ SpecFloat.loc_Exact)
          ∧ (l = SpecFloat.loc_Inexact Gt → M = Zpos q + 1)) as HM.
  { subst M. destruct l as [| []]; unfold SpecFloat.round_nearest_even.
    - split; [by left |]. split; [lia | discriminate].
    - destruct (Z.even (Zpos q)).
      + split; [by left |]. split; [lia | discriminate].
      + split; [by right |]. split; [discriminate | done].
    - split; [by left |]. split; [lia | discriminate].
    - split; [by right |]. split; [discriminate | done]. }
  destruct (round_finish M e) as (m & E & Hres & Hcases); [lia | lia |].
  exists m, E, M. split; [exact Hres |]. split; [exact Hcases | exact HM].
Qed.

(** Rounding a quotient of 54 binary digits. *)
Lemma round54 (q : positive) (e : Z) (l : SpecFloat.location) :
  2 ^ 53 ≤ Zpos q < 2 ^ 54 → -1000 ≤ e ≤ 900 →
  ∃ m E M,
    SpecFloat.binary_round_aux 53 1024 false (Zpos q) e l
    = SpecFloat.S754_finite false m E
    ∧ ((Zpos m = M ∧ E = e + 1)
       ∨ (M = 2 ^ 53 ∧ Zpos m = 2 ^ 52 ∧ E = e + 2))
    ∧ (M = Zpos q / 2 ∨ M = Zpos q / 2 + 1)
    ∧ (M = Zpos q / 2 + 1 → Zpos q mod 2 = 1)
    ∧ (Zpos q mod 2 = 1 → l ≠ SpecFloat.loc_Exact → M = Zpos q / 2 + 1).
Proof.
  intros Hq He. unfold SpecFloat.binary_round_aux.
  assert (SpecFloat.shr_fexp 53 1024 (Zpos q) e l
          = (SpecFloat.shr_1 (SpecFloat.shr_record_of_loc (Zpos q) l), e + 1))
    as ->.
  { unfold SpecFloat.shr_fexp, SpecFloat.Zdigits2.
    rewrite (digits2_pos_unique q 54) by lia.
    rewrite fexp_normal by lia.
    by replace (54 + e - 53 - e) with 1 by lia. }
  set (mrs := SpecFloat.shr_1 (SpecFloat.shr_record_of_loc (Zpos q) l)).
  set (M := SpecFloat.round_nearest_even (SpecFloat.shr_m mrs)
              (SpecFloat.loc_of_shr_record mrs)).
  assert ((M = Zpos q / 2 ∨ M = Zpos q / 2 + 1)
          ∧ (M = Zpos q / 2 + 1 → Zpos q mod 2 = 1)
          ∧ (Zpos q mod 2 = 1 → l ≠ SpecFloat.loc_Exact →
             M = Zpos q / 2 + 1)) as HM.
  { subst M mrs. destruct q as [p | p |]; [| | lia].
    - assert (Zpos p~1 / 2 = Zpos p) as ->
        by (symmetry; apply (Z.div_unique _ _ _ 1); lia).
      assert (Zpos p~1 mod 2 = 1) as ->
        by (symmetry; apply (Z.mod_unique _ _ (Zpos p)); lia).
      destruct l as [| []]; simpl SpecFloat.round_nearest_even;
        [destruct p | ..];
        (split; [first [by left | by right] |];
         split; [intros; lia | intros; first [lia | congruence]]).
    - assert (Zpos p~0 / 2 = Zpos p) as ->
        by (symmetry; apply (Z.div_unique _ _ _ 0); lia).
      assert (Zpos p~0 mod 2 = 0) as ->
        by (symmetry; apply (Z.mod_unique _ _ (Zpos p)); lia).
      destruct l as [| []]; simpl SpecFloat.round_nearest_even;
        (split; [by left |]; split; [lia | discriminate]). }
  assert (2 ^ 52 ≤ Zpos q / 2 < 2 ^ 53) as Hhalf.
  { split.
    - apply Z.div_le_lower_bound; lia.
    - apply Z.div_lt_upper_bound; lia. }
  assert (2 ^ 52 ≤ M ≤ 2 ^ 53) as Hrange.
  { clearbody M. set (h := Zpos q / 2) in *. clearbody h. lia. }
  destruct (round_finish M (e + 1) Hrange) as (m & E & Hres & Hcases);
    [lia |].
  exists m, E, M. split; [exact Hres |]. split; [| exact HM].
  destruct Hcases as [[H1 H2] | (H1 & H2 & H3)]; [left | right].
  - split; [exact H1 | lia].
  - split; [exact H1 |]. split; [exact H2 | lia].
Qed.
(** The remainder of the division of the mantissas is the remainder of the
    division of the integers, scaled. *)
Lemma scaled_remainder (a b q r N Pa Pb T : Z) :
  0 < Pb → a * Pa * T = b * Pb * q + r → N * Pb = T * Pa →
  r = Pb * (a * N - b * q).
Proof.
  intros HPb Hdiv HN.
  assert (a * Pa * T = a * (N * Pb)) as Heq by (rewrite HN; ring).
  rewrite Heq in Hdiv. 
  replace (Pb * (a * N - b * q)) with (a * (N * Pb) - b * Pb * q) by ring.
  lia.
Qed.

(** The quotient [q] of 53 digits, rounded to [M]: in units of [1/N], [M]
    has the ceiling [k] of [a / b]. *)
Lemma nearest_keeps_ceiling (a b k q r N Pa Pb T M : Z) :
  0 < b → 0 < Pb → 0 < Pa → 0 < N →
  a * Pa * T = b * Pb * q + r → 0 ≤ r < b * Pb →
  N * Pb = T * Pa → b * Pb < T →
  (k - 1) * b < a ≤ k * b →
  (M = q ∨ M = q + 1) → (M = q + 1 → 0 < r) → (b * Pb < 2 * r → M = q + 1) →
  (k - 1) * N < M ≤ k * N.
Proof.
  intros Hb HPb HPa HN Hdiv Hr HNP HB Hk HM Hup Hgt.
  pose proof (scaled_remainder a b q r N Pa Pb T HPb Hdiv HNP) as Hr'.
  set (r' := a * N - b * q) in *.
  assert (0 ≤ r' < b) as Hr'b by nia.
  assert (b < N) as HbN by nia.
  assert (a * N ≤ b * (k * N)) as Hle by nia.
  assert (b * (k * N) - b * N + N ≤ a * N) as Hge by nia.
  set (c := k * N) in *.
  replace ((k - 1) * N) with (c - N) by (subst c; ring).
  assert (b * q + r' = a * N) as Hq by (subst r'; ring).
  split.
  - assert (c - N ≤ q) by nia.
    destruct (Z.eq_dec q (c - N)) as [Heq | Hne].
    + assert (N ≤ r') by nia.
      assert (b * Pb < 2 * r) by nia.
      specialize (Hgt ltac:(done)). lia.
    + destruct HM; lia.
  - destruct HM as [-> | ->].
    + nia.
    + specialize (Hup eq_refl). assert (0 < r') by nia. nia.
Qed.

(** The same for a quotient of 54 digits, which is halved first. *)
Lemma nearest_of_half_keeps_ceiling (a b k q r N Pa Pb T M : Z) :
  0 < b → 0 < Pb → 0 < Pa → 0 < N →
  a * Pa * (2 * T) = b * Pb * q + r → 0 ≤ r < b * Pb →
  N * Pb = T * Pa → b * Pb < 2 * T →
  (k - 1) * b < a ≤ k * b →
  (M = q / 2 ∨ M = q / 2 + 1) → (M = q / 2 + 1 → q mod 2 = 1) →
  (q mod 2 = 1 → 0 < r → M = q / 2 + 1) →
  (k - 1) * N < M ≤ k * N.
Proof.
  intros Hb HPb HPa HN Hdiv Hr HNP HB Hk HM Hup Hgt.
  assert ((2 * N) * Pb = (2 * T) * Pa) as HNP2 by lia.
  pose proof (scaled_remainder a b q r (2 * N) Pa Pb (2 * T) HPb Hdiv HNP2)
    as Hr'.
  set (r' := a * (2 * N) - b * q) in *.
  assert (0 ≤ r' < b) as Hr'b by nia.
  assert (b < 2 * N) as HbN by nia.
  assert (a * N ≤ b * (k * N)) as Hle by nia.
  assert (b * (k * N) - b * N + N ≤ a * N) as Hge by nia.
  set (c := k * N) in *.
  replace ((k - 1) * N) with (c - N) by (subst c; ring).
  assert (b * q + r' = 2 * (a * N)) as Hq by (subst r'; ring).
  pose proof (Z.div_mod q 2 ltac:(lia)) as Hq2.
  pose proof (Z.mod_pos_bound q 2 ltac:(lia)) as Hbit.
  set (h := q / 2) in *. set (bit := q mod 2) in *.
  clearbody h bit.
  split.
  - assert (2 * (c - N) ≤ q) by nia.
    assert (q ≠ 2 * (c - N)) by nia.
    destruct (Z.eq_dec q (2 * (c - N) + 1)) as [Heq | Hne].
    + assert (bit = 1) as Hb1 by lia.
      assert (b * q = 2 * (b * c) - 2 * (b * N) + b) as Hbq
          by (rewrite Heq; ring).
      assert (0 < r') by lia.
      assert (0 < r) by (rewrite Hr'; apply Z.mul_pos_pos; lia).
      specialize (Hgt Hb1 ltac:(done)). lia.
    + destruct HM; lia.
  - assert (q ≤ 2 * c) by nia.
    destruct HM as [-> | ->].
    + lia.
    + specialize (Hup eq_refl). lia.
Qed.

(** A positive integer below [2^53] is held exactly, with a mantissa of 53
    digits. *)
Lemma toDouble_pos (a : Z) :
  0 < a < 2 ^ 53 →
  ∃ A e,
    ManualPager.toDouble a = SpecFloat.S754_finite false A e
    ∧ -52 ≤ e ≤ 0 ∧ Zpos A = a * 2 ^ (- e) ∧ 2 ^ 52 ≤ Zpos A < 2 ^ 53.
Proof.
  intros Ha. destruct a as [| pa |]; [lia | | lia].
  unfold ManualPager.toDouble, SpecFloat.binary_normalize, SpecFloat.binary_round.
  destruct (digits2_pos_bounds pa) as [Dlo Dhi].
  set (d := Zpos (SpecFloat.digits2_pos pa)) in *.
  assert (1 ≤ d ≤ 53) as Hd.
  { split; [subst d; lia |]. destruct (Z.le_gt_cases d 53) as [| Hgt]; [done |].
    pose proof (Z.pow_le_mono_r 2 53 (d - 1) ltac:(lia) ltac:(lia)). lia. }
  rewrite fexp_normal by lia.
  unfold SpecFloat.shl_align.
  destruct (d + 0 - 53 - 0) as [| s | s] eqn:Hs; [| lia |].
  - assert (d = 53) as Hd53 by lia. rewrite Hd53 in *.
    destruct (round53 pa 0 SpecFloat.loc_Exact)
      as (m & E & M & Hres & Hc & HM1 & HM2 & _); [lia | lia |].
    assert (M = Zpos pa) as HM.
    { destruct HM1 as [| HM1]; [done |]. by destruct (HM2 HM1). }
    rewrite Hres. exists m, E.
    destruct Hc as [[Hm HE] | (Hm & _)]; [| lia].
    split; [done |]. split; [lia |]. rewrite HE. simpl. lia.
  - assert (Zpos s = 53 - d) as Hsd by lia.
    pose proof (iter_xO pa s) as Hiter. rewrite Hsd in Hiter.
    assert (2 ^ (d - 1) * 2 ^ (53 - d) = 2 ^ 52) as Hlow
        by (rewrite <- Z.pow_add_r by lia; f_equal; lia).
    assert (2 ^ d * 2 ^ (53 - d) = 2 ^ 53) as Hhigh
        by (rewrite <- Z.pow_add_r by lia; f_equal; lia).
    assert (0 < 2 ^ (53 - d)) as Hpos by (apply Z.pow_pos_nonneg; lia).
    assert (2 ^ 52 ≤ Zpos (Pos.iter xO pa s) < 2 ^ 53) as Hrange.
    { rewrite Hiter, <- Hlow, <- Hhigh. split.
      - apply Z.mul_le_mono_nonneg_r; lia.
      - apply Z.mul_lt_mono_pos_r; lia. }
    destruct (round53 (Pos.iter xO pa s) (d + 0 - 53) SpecFloat.loc_Exact)
      as (m & E & M & Hres & Hc & HM1 & HM2 & _); [done | lia |].
    assert (M = Zpos (Pos.iter xO pa s)) as HM.
    { destruct HM1 as [| HM1]; [done |]. by destruct (HM2 HM1). }
    rewrite Hres. exists m, E.
    destruct Hc as [[Hm HE] | (Hm & _)]; [| lia].
    split; [done |]. split; [lia |].
    replace (- E) with (53 - d) by lia. split; [lia | lia].
Qed.

(** Where the exact quotient lies between [q] and [q + 1]. *)
Lemma new_location_facts (B r : Z) :
  0 < B → 0 ≤ r < B →
  (SpecFloat.new_location B r ≠ SpecFloat.loc_Exact → 0 < r)
  ∧ (0 < r → SpecFloat.new_location B r ≠ SpecFloat.loc_Exact)
  ∧ (B < 2 * r → SpecFloat.new_location B r = SpecFloat.loc_Inexact Gt).
Proof.
  intros HB Hr.
  unfold SpecFloat.new_location, SpecFloat.new_location_even,
    SpecFloat.new_location_odd.
  destruct (Z.even B); destruct (Z.eqb_spec r 0) as [-> | Hne].
  - split; [done |]. split; intros; lia.
  - split; [lia |]. split; [discriminate |].
    intros Hgt. f_equal. apply Z.compare_gt_iff. lia.
  - split; [done |]. split; intros; lia.
  - split; [lia |]. split.
    + by destruct (2 * r + 1 ?= B).
    + intros Hgt. assert ((2 * r + 1 ?= B) = Gt) as ->; [| done].
      apply Z.compare_gt_iff. lia.
Qed.

(** The division of two normal doubles: the mantissas are divided with 53
    more digits and the quotient is rounded. *)
Lemma SFdiv_finite (A B : positive) (e1 e2 : Z) :
  2 ^ 52 ≤ Zpos A < 2 ^ 53 → 2 ^ 52 ≤ Zpos B < 2 ^ 53 →
  -52 ≤ e1 ≤ 0 → -52 ≤ e2 ≤ 0 →
  SpecFloat.SFdiv 53 1024 (SpecFloat.S754_finite false A e1)
                          (SpecFloat.S754_finite false B e2)
  = SpecFloat.binary_round_aux 53 1024 false
      (Zpos A * 2 ^ 53 / Zpos B) (e1 - e2 - 53)
      (SpecFloat.new_location (Zpos B) ((Zpos A * 2 ^ 53) mod Zpos B)).
Proof.
  intros HA HB He1 He2.
  unfold SpecFloat.SFdiv, SpecFloat.SFdiv_core_binary, SpecFloat.Zdigits2.
  rewrite !(digits2_pos_unique _ 53) by lia.
  rewrite fexp_normal by lia.
  replace (Z.min (53 + e1 - (53 + e2) - 53) (e1 - e2)) with (e1 - e2 - 53)
    by lia.
  replace (e1 - e2 - (e1 - e2 - 53)) with 53 by lia.
  cbv iota. rewrite Z.shiftl_mul_pow2 by lia.
  unfold Z.div, Z.modulo.
  by destruct (Z.div_eucl (Zpos A * 2 ^ 53) (Zpos B)) as [q r].
Qed.

(** The ceiling of a positive double with an exponent that is not
    positive. *)
Lemma Math_ceil_finite (m : positive) (E k : Z) :
  E ≤ 0 → (k - 1) * 2 ^ (- E) < Zpos m ≤ k * 2 ^ (- E) →
  ManualPager.Math_ceil (SpecFloat.S754_finite false m E) = Some k.
Proof.
  intros HE Hk. unfold ManualPager.Math_ceil. f_equal.
  destruct E as [| p | p]; [| lia |].
  - change (2 ^ (- 0)) with 1 in Hk. rewrite Z.pow_0_r. lia.
  - change (- Zneg p) with (Zpos p) in Hk.
    assert (0 < 2 ^ Zpos p) as HP by (apply Z.pow_pos_nonneg; lia).
    set (P := 2 ^ Zpos p) in *. clearbody P.
    assert (- Zpos m / P = - k) as ->; [| lia].
    symmetry. apply (Z.div_unique _ _ _ (k * P - Zpos m)); lia.
Qed.

(** The quotient of two mantissas of 53 digits, the first shifted by 53,
    has 53 or 54 digits. *)
Lemma quotient_digits (A B q r : Z) :
  2 ^ 52 ≤ A < 2 ^ 53 → 2 ^ 52 ≤ B < 2 ^ 53 →
  A * 2 ^ 53 = B * q + r → 0 ≤ r < B →
  2 ^ 52 ≤ q < 2 ^ 54.
Proof.
  intros HA HB Hdiv Hr. split.
  - destruct (Z.le_gt_cases (2 ^ 52) q) as [| Hlt]; [done |].
    assert (B * q ≤ B * (2 ^ 52 - 1)) by (apply Z.mul_le_mono_nonneg_l; lia).
    assert (2 ^ 52 * 2 ^ 53 ≤ A * 2 ^ 53)
      by (apply Z.mul_le_mono_nonneg_r; lia).
    assert (B * 2 ^ 52 < 2 ^ 53 * 2 ^ 52) by (apply Z.mul_lt_mono_pos_r; lia).
    lia.
  - destruct (Z.lt_ge_cases q (2 ^ 54)) as [| Hge]; [done |].
    assert (B * 2 ^ 54 ≤ B * q) by (apply Z.mul_le_mono_nonneg_l; lia).
    assert (2 ^ 52 * 2 ^ 54 ≤ B * 2 ^ 54)
      by (apply Z.mul_le_mono_nonneg_r; lia).
    assert (A * 2 ^ 53 < 2 ^ 53 * 2 ^ 53) by (apply Z.mul_lt_mono_pos_r; lia).
    lia.
Qed.

(** Below [2^53] the ceiling computed in doubles is the ceiling of the
    exact quotient. *)
Lemma ceilDiv_exact (a b k : Z) :
  0 < a < 2 ^ 53 → 0 < b < 2 ^ 53 →
  (k - 1) * b < a ≤ k * b →
  ManualPager.ceilDiv a b = k.
Proof.
  intros Ha Hb Hk.
  destruct (toDouble_pos a Ha) as (A & e1 & HA & He1 & HAv & HAr).
  destruct (toDouble_pos b Hb) as (B & e2 & HB & He2 & HBv & HBr).
  unfold ManualPager.ceilDiv. rewrite HA, HB, SFdiv_finite by done.
  pose proof (Z.div_mod (Zpos A * 2 ^ 53) (Zpos B) ltac:(lia)) as Hdiv.
  pose proof (Z.mod_pos_bound (Zpos A * 2 ^ 53) (Zpos B) ltac:(lia)) as Hr.
  set (q := Zpos A * 2 ^ 53 / Zpos B) in *.
  set (r := (Zpos A * 2 ^ 53) mod Zpos B) in *.
  pose proof (quotient_digits _ _ q r HAr HBr Hdiv Hr) as Hq.
  destruct (new_location_facts (Zpos B) r ltac:(lia) Hr)
    as (Hrest & Hinexact & Habove).
  set (l := SpecFloat.new_location (Zpos B) r) in *.
  assert (0 < 2 ^ (- e1)) as HPa by (apply Z.pow_pos_nonneg; lia).
  assert (0 < 2 ^ (- e2)) as HPb by (apply Z.pow_pos_nonneg; lia).
  set (Pa := 2 ^ (- e1)) in *. set (Pb := 2 ^ (- e2)) in *.
  clearbody q r l.
  rewrite HAv, HBv in *. clear HA HB HAv HBv A B.
  destruct q as [| q | q]; [lia | | lia].
  destruct (Z.lt_ge_cases (Zpos q) (2 ^ 53)) as [Hlt | Hge].
  - destruct (round53 q (e1 - e2 - 53) l)
      as (m & E & M & -> & Hc & HM1 & HM2 & HM3); [lia | lia |].
    set (N := 2 ^ (53 - e1 + e2)).
    assert (0 < N) as HN by (apply Z.pow_pos_nonneg; lia).
    assert (N * Pb = 2 ^ 53 * Pa) as HNP.
    { subst N Pa Pb. rewrite <- !Z.pow_add_r by lia. f_equal. lia. }
    assert ((k - 1) * N < M ≤ k * N) as HMk.
    { apply (nearest_keeps_ceiling a b k (Zpos q) r N Pa Pb (2 ^ 53) M); try lia.
      - intros HMq. apply Hrest, HM2, HMq.
      - intros Hgt. apply HM3, Habove. lia. }
    assert (ManualPager.Math_ceil (SpecFloat.S754_finite false m E) = Some k) as ->;
      [| reflexivity].
    destruct Hc as [[Hm HE] | (HM & Hm & HE)].
    + apply Math_ceil_finite; [lia |].
      replace (- E) with (53 - e1 + e2) by lia. fold N. lia.
    + apply Math_ceil_finite; [lia |].
      replace (- E) with (52 - e1 + e2) by lia.
      assert (N = 2 * 2 ^ (52 - e1 + e2)) as HN2.
      { subst N. rewrite <- Z.pow_succ_r by lia. f_equal. lia. }
      set (N' := 2 ^ (52 - e1 + e2)) in *. clearbody N N'. lia.
  - destruct (round54 q (e1 - e2 - 53) l)
      as (m & E & M & -> & Hc & HM1 & HM2 & HM3); [lia | lia |].
    set (N := 2 ^ (52 - e1 + e2)).
    assert (0 < N) as HN by (apply Z.pow_pos_nonneg; lia).
    assert (N * Pb = 2 ^ 52 * Pa) as HNP.
    { subst N Pa Pb. rewrite <- !Z.pow_add_r by lia. f_equal. lia. }
    assert ((k - 1) * N < M ≤ k * N) as HMk.
    { apply (nearest_of_half_keeps_ceiling a b k (Zpos q) r N Pa Pb (2 ^ 52) M); try lia.
      intros Hodd Hpos. apply HM3; [done |]. by apply Hinexact. }
    assert (ManualPager.Math_ceil (SpecFloat.S754_finite false m E) = Some k) as ->;
      [| reflexivity].
    destruct Hc as [[Hm HE] | (HM & Hm & HE)].
    + apply Math_ceil_finite; [lia |].
      replace (- E) with (52 - e1 + e2) by lia. fold N. lia.
    + destruct (Z.le_gt_cases E 0) as [HE0 | HE1].
      * apply Math_ceil_finite; [lia |].
        replace (- E) with (51 - e1 + e2) by lia.
        assert (N = 2 * 2 ^ (51 - e1 + e2)) as HN2.
        { subst N. rewrite <- Z.pow_succ_r by lia. f_equal. lia. }
        set (N' := 2 ^ (51 - e1 + e2)) in *. clearbody N N'. lia.
      * assert (E = 1) as -> by lia.
        assert (N = 1) as HN1.
        { subst N. replace (52 - e1 + e2) with 0 by lia. reflexivity. }
        unfold ManualPager.Math_ceil. rewrite Hm. f_equal. lia.
Qed.

Lemma ceilDiv_zero (b : Z) : ManualPager.ceilDiv 0 b = 0.
Proof.
  unfold ManualPager.ceilDiv.
  change (ManualPager.toDouble 0) with (SpecFloat.S754_zero false).
  by destruct (ManualPager.toDouble b).
Qed.

(** *** The buttons *)

Lemma click_only_page (b : ManualPager.Button) (s : Manual.State) :
  ManualPager.click b s
  = Manual.setCurrentPage (Manual.currentPage (ManualPager.click b s)) s.
Proof. by destruct b. Qed.

Lemma click_totalPages (b : ManualPager.Button) (s : Manual.State) :
  ManualPager.totalPages (ManualPager.click b s) = ManualPager.totalPages s.
Proof. by destruct b. Qed.

Lemma click_in_range (b : ManualPager.Button) (s : Manual.State) :
  1 ≤ Manual.currentPage s ≤ ManualPager.totalPages s →
  1 ≤ Manual.currentPage (ManualPager.click b s) ≤ ManualPager.totalPages s.
Proof. intros Hs. destruct b; simpl; lia. Qed.

(** X3: while the page is between 1 and the number of pages, every
    sequence of clicks on Previous and Next keeps it there, and changes
    nothing but the page. *)
Theorem pager_stays_in_range (bs : list ManualPager.Button)
        (s : Manual.State) :
  1 ≤ Manual.currentPage s ≤ ManualPager.totalPages s →
  1 ≤ Manual.currentPage (ManualPager.clicks bs s) ≤ ManualPager.totalPages s
  ∧ ManualPager.totalPages (ManualPager.clicks bs s)
    = ManualPager.totalPages s
  ∧ ManualPager.clicks bs s
    = Manual.setCurrentPage
        (Manual.currentPage (ManualPager.clicks bs s)) s.
Proof.
  unfold ManualPager.clicks. revert s.
  induction bs as [| b bs IH]; intros s Hs; simpl.
  - split; [done |]. split; [done |]. by destruct s.
  - pose proof (click_in_range b s Hs) as Hb.
    rewrite <- (click_totalPages b s) in Hb.
    destruct (IH _ Hb) as (Hrange & Htotal & Honly).
    rewrite (click_totalPages b s) in Hrange, Htotal.
    split; [done |]. split; [done |].
    rewrite Honly at 1. by rewrite (click_only_page b s).
Qed.

(** The theorem on page 3 of 10: Next, Next, Previous lead to page 4. *)
Lemma pager_stays_in_range_witness :
  let bs := [ManualPager.Next; ManualPager.Next; ManualPager.Previous] in
  ManualPager.totalPages Examples.manualOnPage3 = 10
  ∧ Manual.currentPage (ManualPager.clicks bs Examples.manualOnPage3) = 4
  ∧ 1 ≤ Manual.currentPage (ManualPager.clicks bs Examples.manualOnPage3)
    ≤ ManualPager.totalPages Examples.manualOnPage3.
Proof.
  intros bs. split; [vm_compute; reflexivity |].
  split; [vm_compute; reflexivity |].
  apply (pager_stays_in_range bs Examples.manualOnPage3).
  vm_compute. split; discriminate.
Defined.

(** X4: for a page size and a number of rows that are positive and below
    2^53, where every integer is a double, the number of pages computed in
    doubles is the ceiling of the exact quotient: it is at least 1, the
    pages hold all the rows, and the last page is not empty. *)
Theorem totalPages_covers_rows (s : Manual.State) (td : TableData.t) :
  Manual.tableData s = Some td →
  0 < Manual.pageSize s < 2 ^ 53 →
  0 < TableData.total_count td < 2 ^ 53 →
  ManualPager.totalPages s
  = - ((- TableData.total_count td) / Manual.pageSize s)
  ∧ 1 ≤ ManualPager.totalPages s
  ∧ TableData.total_count td ≤ ManualPager.totalPages s * Manual.pageSize s
  ∧ (ManualPager.totalPages s - 1) * Manual.pageSize s
    < TableData.total_count td.
Proof.
  intros Htd Hps Hcount. unfold ManualPager.totalPages. rewrite Htd.
  set (a := TableData.total_count td) in *. set (b := Manual.pageSize s) in *.
  pose proof (Z.div_mod (- a) b ltac:(lia)) as Hdm.
  pose proof (Z.mod_pos_bound (- a) b ltac:(lia)) as Hr.
  set (q := (- a) / b) in *. set (r := (- a) mod b) in *.
  assert (a = b * (- q) - r) as Ha by lia.
  assert ((- q - 1) * b < a ≤ - q * b) as Hk by nia.
  rewrite (ceilDiv_exact a b (- q) Hcount Hps Hk).
  split; [reflexivity |]. split; [| split]; nia.
Qed.

(** The theorem at 100 rows in pages of 10. *)
Lemma totalPages_covers_rows_witness :
  ManualPager.totalPages Examples.manualOnPage3 = 10
  ∧ 100 ≤ ManualPager.totalPages Examples.manualOnPage3 * 10
  ∧ (ManualPager.totalPages Examples.manualOnPage3 - 1) * 10 < 100.
Proof.
  destruct (totalPages_covers_rows Examples.manualOnPage3
              (TableData.mk [] 100 3 10 ["name"; "age"; "city"]))
    as (Hexact & _ & Hall & Hlast).
  - reflexivity.
  - vm_compute. split; reflexivity.
  - vm_compute. split; reflexivity.
  - split; [exact Hexact |]. split; [exact Hall | exact Hlast].
Defined.

(** Above 2^53 the quotient is rounded before its ceiling is taken: for
    22517998136852492 rows in pages of 5 the number of pages is one less
    than the ceiling of the exact quotient, and the pages do not hold all
    the rows. *)
Example totalPages_beyond_doubles :
  let td := TableData.mk [] 22517998136852492 1 5 ["name"] in
  let s := Manual.setPageSize 5 (Manual.setTableData (Some td)
                                   Examples.manualLoaded) in
  ManualPager.totalPages s = 4503599627370498
  ∧ - ((- TableData.total_count td) / Manual.pageSize s) = 4503599627370499
  ∧ ManualPager.totalPages s * Manual.pageSize s < TableData.total_count td.
Proof. vm_compute. split; [reflexivity |]. split; reflexivity. Qed.

(** X5: while no table is loaded, or the table has no rows, the number of
    pages is 0 and a click on Next sets the page to 0; the page request that
    follows asks for page 0.  A click on Previous then leads to page 1. *)
Theorem next_without_rows (s : Manual.State) :
  (Manual.tableData s = None
   ∨ ∃ td, Manual.tableData s = Some td ∧ TableData.total_count td = 0
           ∧ Manual.pageSize s ≠ 0) →
  0 ≤ Manual.currentPage s →
  ManualPager.totalPages s = 0
  ∧ Manual.currentPage (ManualPager.next_onClick s) = 0
  ∧ (truthy (Manual.selectedFileId s) = true →
     ∃ c, (Manual.fetchData (ManualPager.next_onClick s)).2 = Some c
          ∧ Manual.data_page c = 0)
  ∧ Manual.currentPage
      (ManualPager.previous_onClick (ManualPager.next_onClick s)) = 1.
Proof.
  intros Hrows Hpage.
  assert (ManualPager.totalPages s = 0) as Htotal.
  { unfold ManualPager.totalPages.
    destruct Hrows as [-> | (td & -> & -> & _)];
      [reflexivity | apply ceilDiv_zero]. }
  assert (Manual.currentPage (ManualPager.next_onClick s) = 0) as Hnext.
  { unfold ManualPager.next_onClick. simpl. lia. }
  split; [done |]. split; [done |]. split.
  - intros Hfile. unfold Manual.fetchData.
    change (Manual.selectedFileId (ManualPager.next_onClick s))
      with (Manual.selectedFileId s).
    destruct (Manual.selectedFileId s) as [fileId |]; [| discriminate].
    rewrite Hfile. eexists. split; [reflexivity |]. exact Hnext.
  - unfold ManualPager.previous_onClick. simpl. lia.
Qed.

(** The theorem at a file whose table has no rows. *)
Lemma next_without_rows_witness :
  let s := Manual.setTableData
             (Some (TableData.mk [] 0 1 10 ["name"; "age"; "city"]))
             Examples.manualLoaded in
  ManualPager.totalPages s = 0
  ∧ Manual.currentPage (ManualPager.next_onClick s) = 0
  ∧ Manual.currentPage
      (ManualPager.previous_onClick (ManualPager.next_onClick s)) = 1.
Proof.
  intros s.
  destruct (next_without_rows s) as (Htotal & Hnext & _ & Hprev).
  - right. eexists. split; [reflexivity |]. split; [reflexivity | discriminate].
  - discriminate.
  - by split.
Defined.

(** ** The table card through a failure, a retry and a reload *)

Lemma manual_fetchData_sent (s : Manual.State) :
  truthy (Manual.selectedFileId s) = true →
  ∃ fileId,
    Manual.selectedFileId s = Some fileId
    ∧ Manual.fetchData s
      = (Manual.setDataFetchError None (Manual.setIsLoadingTable true s),
         Some (Manual.mkDataCall fileId (Manual.currentPage s)
                 (Manual.pageSize s) (Manual.sortColumn s)
                 (Manual.sortOrder s) (Manual.searchQuery s)
                 (Manual.selectedXColumn s) (Manual.selectedYColumn s))).
Proof.
  intros Hfile. unfold Manual.fetchData.
  destruct (Manual.selectedFileId s) as [fileId |]; [| discriminate].
  exists fileId. by rewrite Hfile.
Qed.

Lemma tableLib_fetchData_sent (s : TableLib.State) :
  truthy (TableLib.selectedFileId s) = true →
  ∃ c, TableLib.fetchData s
       = (TableLib.setDataFetchError None (TableLib.setIsLoadingTable true s),
          Some c).
Proof.
  intros Hfile. unfold TableLib.fetchData.
  destruct (TableLib.selectedFileId s) as [fileId |]; [| discriminate].
  rewrite Hfile. by eexists.
Qed.

(** X6: with a file selected, a failed page request puts the error text in
    the table card; the next run of [fetchData] sends a request and puts
    the spinner there; the response to it puts the table there. *)
Theorem table_card_retry :
  (∀ (s : Manual.State) (c : Manual.DataCall) (response : TableData.t),
      truthy (Manual.selectedFileId s) = true →
      let failed := Manual.fetchData_rejected c s in
      Manual.tableCard failed = Manual.ErrorText
      ∧ ∃ c', (Manual.fetchData failed).2 = Some c'
              ∧ Manual.tableCard (Manual.fetchData failed).1 = Manual.Spinner
              ∧ Manual.tableCard
                  (Manual.fetchData_fulfilled c' response
                     (Manual.fetchData failed).1)
                = Manual.Ready)
  ∧ (∀ (s : TableLib.State) (c : TableLib.DataCall) (response : TableData.t),
        truthy (TableLib.selectedFileId s) = true →
        let failed := TableLib.fetchData_rejected c s in
        TableLib.tableCard failed = TableLib.ErrorText
        ∧ ∃ c', (TableLib.fetchData failed).2 = Some c'
                ∧ TableLib.tableCard (TableLib.fetchData failed).1
                  = TableLib.Spinner
                ∧ TableLib.tableCard
                    (TableLib.fetchData_fulfilled c' response
                       (TableLib.fetchData failed).1)
                  = TableLib.Ready).
Proof.
  split; intros s c response Hfile failed.
  - split; [unfold Manual.tableCard; simpl; by rewrite Hfile |].
    destruct (manual_fetchData_sent failed Hfile) as (fileId & _ & ->).
    eexists. split; [reflexivity |]. simpl.
    split; [unfold Manual.tableCard; simpl; by rewrite Hfile |].
    unfold Manual.fetchData_fulfilled, Manual.tableCard.
    destruct (inferY _ _), (inferX _ _); simpl; by rewrite Hfile.
  - split; [unfold TableLib.tableCard; simpl; by rewrite Hfile |].
    destruct (tableLib_fetchData_sent failed Hfile) as (c' & ->).
    exists c'. split; [reflexivity |]. simpl.
    split; unfold TableLib.tableCard; simpl; by rewrite Hfile.
Qed.

(** The theorem at the loaded dashboards. *)
Lemma table_card_retry_witness :
  Manual.tableCard
    (Manual.fetchData_rejected
       (Manual.mkDataCall "f" 1 10 None Manual.asc EmptyString None None)
       Examples.manualLoaded)
  = Manual.ErrorText
  ∧ TableLib.tableCard
      (TableLib.fetchData_rejected
         (TableLib.mkDataCall "f" 1 10 EmptyString None None)
         Examples.tableLibLoaded)
    = TableLib.ErrorText.
Proof.
  split.
  - apply (proj1 table_card_retry Examples.manualLoaded _ Examples.people).
    reflexivity.
  - apply (proj2 table_card_retry Examples.tableLibLoaded _ Examples.people).
    reflexivity.
Defined.

(** X7: with a file selected and a table loaded, a run of [fetchData] leaves
    the table on the card while the request is in flight, whatever error
    text was there before; the text of a failed list request is removed by
    it too. *)
Theorem table_card_reload :
  (∀ (s : Manual.State) (td : TableData.t) (fc : Manual.FilesCall),
      truthy (Manual.selectedFileId s) = true →
      Manual.tableData s = Some td →
      Manual.tableCard (Manual.fetchData s).1 = Manual.Ready
      ∧ Manual.tableData (Manual.fetchData s).1 = Some td
      ∧ Manual.tableCard (Manual.fetchFiles_rejected fc s) = Manual.ErrorText
      ∧ Manual.tableCard
          (Manual.fetchData (Manual.fetchFiles_rejected fc s)).1
        = Manual.Ready)
  ∧ (∀ (s : TableLib.State) (td : TableData.t) (fc : TableLib.FilesCall),
        truthy (TableLib.selectedFileId s) = true →
        TableLib.tableData s = Some td →
        TableLib.tableCard (TableLib.fetchData s).1 = TableLib.Ready
        ∧ TableLib.tableData (TableLib.fetchData s).1 = Some td
        ∧ TableLib.tableCard (TableLib.fetchFiles_rejected fc s)
          = TableLib.ErrorText
        ∧ TableLib.tableCard
            (TableLib.fetchData (TableLib.fetchFiles_rejected fc s)).1
          = TableLib.Ready).
Proof.
  split; intros s td fc Hfile Htd.
  - destruct (manual_fetchData_sent s Hfile) as (fileId & _ & ->).
    destruct (manual_fetchData_sent (Manual.fetchFiles_rejected fc s) Hfile)
      as (fileId' & _ & ->).
    unfold Manual.tableCard. simpl. rewrite Hfile, Htd. simpl.
    repeat split.
  - destruct (tableLib_fetchData_sent s Hfile) as (c & ->).
    destruct (tableLib_fetchData_sent (TableLib.fetchFiles_rejected fc s)
                Hfile) as (c' & ->).
    unfold TableLib.tableCard. simpl. rewrite Hfile, Htd. simpl.
    repeat split.
Qed.

(** The theorem at the loaded dashboards. *)
Lemma table_card_reload_witness :
  Manual.tableCard (Manual.fetchData Examples.manualLoaded).1 = Manual.Ready
  ∧ TableLib.tableCard (TableLib.fetchData Examples.tableLibLoaded).1
    = TableLib.Ready.
Proof.
  split.
  - apply (proj1 table_card_reload Examples.manualLoaded Examples.people
                 (Manual.mkFilesCall None)); reflexivity.
  - apply (proj2 table_card_reload Examples.tableLibLoaded Examples.people
                 (TableLib.mkFilesCall None)); reflexivity.
Defined.

(** ** One step of a run *)

Lemma manual_fetchData_fst (s : Manual.State) :
  (Manual.fetchData s).1 = Manual.setTableData None s
  ∨ (Manual.fetchData s).1
    = Manual.setDataFetchError None (Manual.setIsLoadingTable true s).
Proof.
  unfold Manual.fetchData.
  destruct (Manual.selectedFileId s); [destruct (truthy _) |]; auto.
Qed.

Lemma manual_fetchChartData_fst (s : Manual.State) :
  (Manual.fetchChartData s).1 = Manual.setChartData None s
  ∨ (Manual.fetchChartData s).1
    = Manual.setChartFetchError None (Manual.setIsLoadingChart true s).
Proof.
  unfold Manual.fetchChartData.
  destruct (Manual.selectedFileId s), (Manual.selectedXColumn s),
    (Manual.selectedYColumn s); auto.
  destruct (_ && _); auto.
Qed.

Lemma tableLib_fetchData_fst (s : TableLib.State) :
  (TableLib.fetchData s).1 = TableLib.setTableData None s
  ∨ (TableLib.fetchData s).1
    = TableLib.setDataFetchError None (TableLib.setIsLoadingTable true s).
Proof.
  unfold TableLib.fetchData.
  destruct (TableLib.selectedFileId s); [destruct (truthy _) |]; auto.
Qed.

Lemma tableLib_fetchChartData_fst (s : TableLib.State) :
  (TableLib.fetchChartData s).1 = TableLib.setChartData None s
  ∨ (TableLib.fetchChartData s).1
    = TableLib.setChartFetchError None (TableLib.setIsLoadingChart true s).
Proof.
  unfold TableLib.fetchChartData.
  destruct (TableLib.selectedFileId s), (TableLib.selectedXColumn s),
    (TableLib.selectedYColumn s); auto.
  destruct (_ && _); auto.
Qed.

(** The state after one event, as a function of the state before it. *)
Ltac exec_step H :=
  simpl in H;
  try match type of H with
      | mbind _ ?o = Some _ => destruct o eqn:?; simpl in H; [| discriminate]
      end;
  try match type of H with
      | (let '(_, _) := ?x in _) = Some _ =>
          rewrite (surjective_pairing x) in H
      end;
  injection H as <-; simpl.

(** Splits the cases left open in a state after a step. *)
Ltac step_cases :=
  repeat match goal with
    | |- context [Manual.fetchData ?s] =>
        destruct (manual_fetchData_fst s) as [-> | ->]
    | |- context [Manual.fetchChartData ?s] =>
        destruct (manual_fetchChartData_fst s) as [-> | ->]
    | |- context [TableLib.fetchData ?s] =>
        destruct (tableLib_fetchData_fst s) as [-> | ->]
    | |- context [TableLib.fetchChartData ?s] =>
        destruct (tableLib_fetchChartData_fst s) as [-> | ->]
    | |- context [Manual.handleSort ?c ?s] =>
        unfold Manual.handleSort; destruct (bool_decide _)
    | |- context [TableLib.onPaginationChange ?u ?s] =>
        unfold TableLib.onPaginationChange; destruct (negb _)
    | |- context [TableLib.inferColumns ?s] =>
        unfold TableLib.inferColumns; destruct (TableLib.tableData s)
    | |- context [Manual.fetchFiles_fulfilled ?c ?r ?s] =>
        unfold Manual.fetchFiles_fulfilled; destruct (pickSelection _ _)
    | |- context [TableLib.fetchFiles_fulfilled ?c ?r ?s] =>
        unfold TableLib.fetchFiles_fulfilled; destruct (pickSelection _ _)
    | |- context [Manual.fetchData_fulfilled ?c ?r ?s] =>
        unfold Manual.fetchData_fulfilled
    | |- context [inferX ?td ?sel] => destruct (inferX td sel)
    | |- context [inferY ?td ?sel] => destruct (inferY td sel)
    end;
  simpl.

Lemma manual_run_invariant (P : Manual.State → Prop) :
  (∀ e w w', Manual.exec e w = Some w' →
             P (Manual.ui w) → P (Manual.ui w')) →
  ∀ es w w', Manual.run es w = Some w' → P (Manual.ui w) → P (Manual.ui w').
Proof.
  intros Hstep es. induction es as [| e es IH]; intros w w' Hrun HP.
  - by injection Hrun as <-.
  - simpl in Hrun. destruct (Manual.exec e w) as [w1 |] eqn:He;
      [| discriminate].
    apply (IH w1 w' Hrun). by apply (Hstep e w w1).
Qed.

Lemma tableLib_run_invariant (P : TableLib.State → Prop) :
  (∀ e w w', TableLib.exec e w = Some w' →
             P (TableLib.ui w) → P (TableLib.ui w')) →
  ∀ es w w', TableLib.run es w = Some w' →
             P (TableLib.ui w) → P (TableLib.ui w').
Proof.
  intros Hstep es. induction es as [| e es IH]; intros w w' Hrun HP.
  - by injection Hrun as <-.
  - simpl in Hrun. destruct (TableLib.exec e w) as [w1 |] eqn:He;
      [| discriminate].
    apply (IH w1 w' Hrun). by apply (Hstep e w w1).
Qed.

(** ** The chart stream *)

Lemma manual_chart_flags_step e w w' :
  Manual.exec e w = Some w' →
  (Manual.isLoadingChart (Manual.ui w) = true →
   Manual.chartFetchError (Manual.ui w) = None) →
  Manual.isLoadingChart (Manual.ui w') = true →
  Manual.chartFetchError (Manual.ui w') = None.
Proof.
  intros Hexec. destruct e; exec_step Hexec; step_cases;
    solve [done | discriminate].
Qed.

Lemma tableLib_chart_flags_step e w w' :
  TableLib.exec e w = Some w' →
  (TableLib.isLoadingChart (TableLib.ui w) = true →
   TableLib.chartFetchError (TableLib.ui w) = None) →
  TableLib.isLoadingChart (TableLib.ui w') = true →
  TableLib.chartFetchError (TableLib.ui w') = None.
Proof.
  intros Hexec. destruct e; exec_step Hexec; step_cases;
    solve [done | discriminate].
Qed.

(** X8: in every run of either dashboard from its first render, the
    chart's loading flag and the chart's error text are never set
    together. *)
Theorem chart_never_loading_with_error :
  (∀ (es : list Manual.Event) (w : Manual.World),
      Manual.run es (Manual.mounted Manual.initial) = Some w →
      Manual.isLoadingChart (Manual.ui w) = true →
      Manual.chartFetchError (Manual.ui w) = None)
  ∧ (∀ (es : list TableLib.Event) (w : TableLib.World),
        TableLib.run es (TableLib.mounted TableLib.initial) = Some w →
        TableLib.isLoadingChart (TableLib.ui w) = true →
        TableLib.chartFetchError (TableLib.ui w) = None).
Proof.
  split; intros es w Hrun.
  - apply (manual_run_invariant
             (fun s => Manual.isLoadingChart s = true →
                       Manual.chartFetchError s = None)
             manual_chart_flags_step es _ _ Hrun).
    discriminate.
  - apply (tableLib_run_invariant
             (fun s => TableLib.isLoadingChart s = true →
                       TableLib.chartFetchError s = None)
             tableLib_chart_flags_step es _ _ Hrun).
    discriminate.
Qed.

(** The theorem at the run [overtakenPage], stopped while a chart request
    is in flight. *)
Lemma chart_never_loading_with_error_witness :
  Manual.isLoadingChart (Manual.ui Examples.manualOvertaken) = true
  ∧ Manual.chartFetchError (Manual.ui Examples.manualOvertaken) = None.
Proof.
  split; [reflexivity |].
  apply (proj1 chart_never_loading_with_error
               (take 14 Examples.overtakenPage) Examples.manualOvertaken);
    vm_compute; reflexivity.
Defined.

(** X9: with a file selected, a failed chart request puts the error text in
    the chart card.  A later run of [fetchChartData] that finds a column
    absent sends nothing and leaves that text on the card. *)
Theorem chart_card_keeps_error :
  (∀ (s : Manual.State) (c : Manual.ChartCall),
      truthy (Manual.selectedFileId s) = true →
      let failed := Manual.fetchChartData_rejected c s in
      ChartCard.manual failed = ChartCard.ErrorText
      ∧ (Manual.selectedXColumn s = None ∨ Manual.selectedYColumn s = None →
         (Manual.fetchChartData failed).2 = None
         ∧ ChartCard.manual (Manual.fetchChartData failed).1
           = ChartCard.ErrorText))
  ∧ (∀ (s : TableLib.State) (c : TableLib.ChartCall),
        truthy (TableLib.selectedFileId s) = true →
        let failed := TableLib.fetchChartData_rejected c s in
        ChartCard.tableLib failed = ChartCard.ErrorText
        ∧ (TableLib.selectedXColumn s = None
           ∨ TableLib.selectedYColumn s = None →
           (TableLib.fetchChartData failed).2 = None
           ∧ ChartCard.tableLib (TableLib.fetchChartData failed).1
             = ChartCard.ErrorText)).
Proof.
  split; intros s c Hfile failed.
  - split.
    + unfold ChartCard.manual, ChartCard.card. simpl. by rewrite Hfile.
    + intros Hcol.
      assert (Manual.fetchChartData failed
              = (Manual.setChartData None failed, None)) as ->.
      { unfold Manual.fetchChartData.
        change (Manual.selectedXColumn failed)
          with (Manual.selectedXColumn s).
        change (Manual.selectedYColumn failed)
          with (Manual.selectedYColumn s).
        destruct (Manual.selectedFileId failed); [| done].
        destruct (Manual.selectedXColumn s), (Manual.selectedYColumn s);
          try done; destruct Hcol; discriminate. }
      split; [reflexivity |].
      unfold ChartCard.manual, ChartCard.card. simpl. by rewrite Hfile.
  - split.
    + unfold ChartCard.tableLib, ChartCard.card. simpl. by rewrite Hfile.
    + intros Hcol.
      assert (TableLib.fetchChartData failed
              = (TableLib.setChartData None failed, None)) as ->.
      { unfold TableLib.fetchChartData.
        change (TableLib.selectedXColumn failed)
          with (TableLib.selectedXColumn s).
        change (TableLib.selectedYColumn failed)
          with (TableLib.selectedYColumn s).
        destruct (TableLib.selectedFileId failed); [| done].
        destruct (TableLib.selectedXColumn s), (TableLib.selectedYColumn s);
          try done; destruct Hcol; discriminate. }
      split; [reflexivity |].
      unfold ChartCard.tableLib, ChartCard.card. simpl. by rewrite Hfile.
Qed.

(** The theorem at a dashboard with a file and no columns. *)
Lemma chart_card_keeps_error_witness :
  let failed := Manual.fetchChartData_rejected
                  (Manual.mkChartCall "f" "bar" "name" "age")
                  Examples.manualWithF in
  ChartCard.manual failed = ChartCard.ErrorText
  ∧ (Manual.fetchChartData failed).2 = None
  ∧ ChartCard.manual (Manual.fetchChartData failed).1 = ChartCard.ErrorText.
Proof.
  intros failed.
  destruct (proj1 chart_card_keeps_error Examples.manualWithF
                  (Manual.mkChartCall "f" "bar" "name" "age"))
    as [Hcard Hguard]; [reflexivity |].
  split; [exact Hcard |]. apply Hguard. by left.
Defined.

(** ** More on column inference *)

Section FindFirst.
Context {A : Type} (P : A → bool).

Lemma find_Some_first (l : list A) (x : A) :
  find P l = Some x →
  ∃ i : nat, l !! i = Some x ∧ P x = true
             ∧ ∀ (j : nat) (y : A), (j < i)%nat → l !! j = Some y →
                                    P y = false.
Proof.
  induction l as [| a l IH]; [discriminate |]. simpl.
  destruct (P a) eqn:Ha.
  - intros [= ->]. exists 0%nat. split; [done |]. split; [done |]. lia.
  - intros Hfind. destruct (IH Hfind) as (i & Hi & Hx & Hbefore).
    exists (S i). split; [done |]. split; [done |].
    intros [| j] y Hj Hy.
    + by injection Hy as <-.
    + apply (Hbefore j); [lia | done].
Qed.

Lemma find_None_all (l : list A) :
  find P l = None → ∀ x, x ∈ l → P x = false.
Proof.
  induction l as [| a l IH]; intros Hfind x Hx.
  - by apply elem_of_nil in Hx.
  - simpl in Hfind. destruct (P a) eqn:Ha; [discriminate |].
    apply elem_of_cons in Hx as [-> | Hx]; [done | by apply IH].
Qed.
End FindFirst.

Lemma numericColumn_Some td col :
  numericColumn td = Some col ↔ FirstNumeric td col.
Proof.
  split; [| apply numericColumn_first].
  intros Hfind. apply find_Some_first in Hfind as (i & Hi & Hcol & Hbefore).
  exists i. split; [done |]. split; [by apply sample_NumericSample |].
  intros j c Hj Hc Hsample. apply sample_NumericSample in Hsample.
  by rewrite (Hbefore j c Hj Hc) in Hsample.
Qed.

Lemma numericColumn_None td :
  numericColumn td = None
  ↔ ∀ col, col ∈ TableData.columns td → ¬ NumericSample td col.
Proof.
  split; [| apply numericColumn_none].
  intros Hfind col Hcol Hsample. apply sample_NumericSample in Hsample.
  unfold numericColumn in Hfind.
  by rewrite (find_None_all _ _ Hfind col Hcol) in Hsample.
Qed.

(** X10: [numericColumn] is the first column of the list with a number
    (not NaN) in one of the first five rows, if there is one and only then;
    two pages with the same columns and the same first five rows give the
    same answer. *)
Theorem numericColumn_first_five (td td' : TableData.t) :
  TableData.columns td' = TableData.columns td →
  take 5 (TableData.data td') = take 5 (TableData.data td) →
  (∀ col, numericColumn td = Some col ↔ FirstNumeric td col)
  ∧ (numericColumn td = None
     ↔ ∀ col, col ∈ TableData.columns td → ¬ NumericSample td col)
  ∧ numericColumn td' = numericColumn td.
Proof.
  intros Hcolumns Hrows.
  split; [apply numericColumn_Some |]. split; [apply numericColumn_None |].
  unfold numericColumn. by rewrite Hcolumns, Hrows.
Qed.

(** The theorem at a page of five rows and the same page with six more
    rows that have a number for name. *)
Lemma numericColumn_first_five_witness :
  let five :=
    TableData.mk
      (TableData.data Examples.people
         ++ replicate 4 (<["name" := JString "b"]> ∅))
      5 1 25 ["name"; "age"; "city"] in
  let longer :=
    TableData.mk
      (TableData.data five
         ++ replicate 6 (<["name" := JNumber (Finite (1 # 1))]> ∅))
      11 1 25 ["name"; "age"; "city"] in
  numericColumn longer = numericColumn five.
Proof.
  intros five longer.
  destruct (numericColumn_first_five five longer) as (_ & _ & Hsame);
    [reflexivity | reflexivity | exact Hsame].
Defined.

Lemma inferX_settled td sel :
  let r := default sel (inferX td sel) in
  default r (inferX td r) = r.
Proof.
  unfold inferX. destruct (0 <? length (TableData.columns td))%nat; [| done].
  destruct (negb (truthy sel) || negb (includes (TableData.columns td) sel))
    eqn:Htest; simpl.
  - by match goal with |- context [if ?b then _ else _] => destruct b end.
  - by rewrite Htest.
Qed.

Lemma inferY_settled td sel :
  let r := default sel (inferY td sel) in
  default r (inferY td r) = r.
Proof.
  unfold inferY. destruct (0 <? length (TableData.columns td))%nat; [| done].
  destruct (negb (truthy sel) || negb (includes (TableData.columns td) sel))
    eqn:Htest; simpl.
  - by match goal with |- context [if ?b then _ else _] => destruct b end.
  - by rewrite Htest.
Qed.

Lemma tableLib_inferColumns_sets td s :
  TableLib.tableData s = Some td →
  TableLib.inferColumns s
  = TableLib.setSelectedYColumn
      (default (TableLib.selectedYColumn s)
               (inferY td (TableLib.selectedYColumn s)))
      (TableLib.setSelectedXColumn
         (default (TableLib.selectedXColumn s)
                  (inferX td (TableLib.selectedXColumn s))) s).
Proof.
  intros Htd. unfold TableLib.inferColumns. rewrite Htd.
  destruct (inferX _ _), (inferY _ _); by destruct s.
Qed.

(** X11: the inference effect of the table-library dashboard settles at
    once: run a second time, on the state the first run left, it changes
    nothing.  It never touches anything but the two chart columns. *)
Theorem inferColumns_settles (s : TableLib.State) :
  TableLib.inferColumns (TableLib.inferColumns s) = TableLib.inferColumns s
  ∧ TableLib.setSelectedYColumn (TableLib.selectedYColumn s)
      (TableLib.setSelectedXColumn (TableLib.selectedXColumn s)
         (TableLib.inferColumns s))
    = s.
Proof.
  destruct (TableLib.tableData s) as [td |] eqn:Htd.
  - rewrite (tableLib_inferColumns_sets td s Htd).
    set (x := default _ (inferX td _)). set (y := default _ (inferY td _)).
    split; [| by destruct s].
    rewrite (tableLib_inferColumns_sets td) by done. simpl.
    pose proof (inferX_settled td (TableLib.selectedXColumn s)) as HX.
    pose proof (inferY_settled td (TableLib.selectedYColumn s)) as HY.
    simpl in HX, HY. fold x in HX. fold y in HY. by rewrite HX, HY.
  - unfold TableLib.inferColumns. rewrite Htd. split; [| by destruct s].
    by rewrite Htd.
Qed.

Lemma numericColumn_listed td col :
  numericColumn td = Some col → col ∈ TableData.columns td.
Proof.
  intros Hfind. apply numericColumn_Some in Hfind as (i & Hi & _).
  by apply list_elem_of_lookup_2 with i.
Qed.

Lemma jsOr_cases a b : jsOr a b = a ∧ truthy a = true ∨ jsOr a b = b.
Proof. unfold jsOr. destruct (truthy a); auto. Qed.

Lemma inferX_listed td sel :
  TableData.columns td ≠ [] →
  ∃ x, default sel (inferX td sel) = Some x ∧ x ∈ TableData.columns td.
Proof.
  intros Hne. unfold inferX. rewrite (nonempty_length _ Hne).
  destruct (negb (truthy sel) || negb (includes (TableData.columns td) sel))
    eqn:Htest; simpl.
  - destruct (TableData.columns td) as [| c cs]; [done |].
    exists c. split; [done | apply list_elem_of_here].
  - apply orb_false_iff in Htest as [_ Hin].
    apply negb_false_iff in Hin. destruct sel as [c |]; [| discriminate].
    exists c. split; [done |]. by apply bool_decide_eq_true in Hin.
Qed.

Lemma inferY_listed td sel :
  TableData.columns td ≠ [] →
  ∃ y, default sel (inferY td sel) = Some y ∧ y ∈ TableData.columns td.
Proof.
  intros Hne. unfold inferY. rewrite (nonempty_length _ Hne).
  destruct (negb (truthy sel) || negb (includes (TableData.columns td) sel))
    eqn:Htest; simpl.
  - assert (∃ c, TableData.columns td !! 0%nat = Some c
                 ∧ c ∈ TableData.columns td) as (c0 & Hc0 & Hin0).
    { destruct (TableData.columns td) as [| c cs]; [done |].
      exists c. split; [done | apply list_elem_of_here]. }
    destruct (jsOr_cases
                (jsOr (numericColumn td) (TableData.columns td !! 1%nat))
                (TableData.columns td !! 0%nat)) as [[-> Htruthy] | ->];
      [| by exists c0].
    destruct (jsOr_cases (numericColumn td) (TableData.columns td !! 1%nat))
      as [[Heq _] | Heq]; rewrite Heq in Htruthy |- *.
    + destruct (numericColumn td) as [c |] eqn:Hnum; [| discriminate].
      exists c. split; [done |]. by apply numericColumn_listed.
    + destruct (TableData.columns td !! 1%nat) as [c |] eqn:Hc1;
        [| discriminate].
      exists c. split; [done |]. by apply list_elem_of_lookup_2 with 1%nat.
  - apply orb_false_iff in Htest as [_ Hin].
    apply negb_false_iff in Hin. destruct sel as [c |]; [| discriminate].
    exists c. split; [done |]. by apply bool_decide_eq_true in Hin.
Qed.

(** X12: after inference on a page that has columns, the X and the Y column
    both name columns of that page, whatever was chosen before, and a chart
    request sent next names two columns of the page.  This holds for the
    effect of the table-library dashboard, and for the manual dashboard
    when the response belongs to a request that closed over the current
    selection. *)
Theorem inferred_columns_listed (td : TableData.t) :
  TableData.columns td ≠ [] →
  (∀ s : TableLib.State,
      TableLib.tableData s = Some td →
      let s' := TableLib.inferColumns s in
      (∃ x y, TableLib.selectedXColumn s' = Some x
              ∧ TableLib.selectedYColumn s' = Some y
              ∧ x ∈ TableData.columns td ∧ y ∈ TableData.columns td)
      ∧ ∀ c, (TableLib.fetchChartData s').2 = Some c →
             TableLib.chart_x_column c ∈ TableData.columns td
             ∧ TableLib.chart_y_column c ∈ TableData.columns td)
  ∧ (∀ (s : Manual.State) (call : Manual.DataCall),
        Manual.data_selectedXColumn call = Manual.selectedXColumn s →
        Manual.data_selectedYColumn call = Manual.selectedYColumn s →
        let s' := Manual.fetchData_fulfilled call td s in
        (∃ x y, Manual.selectedXColumn s' = Some x
                ∧ Manual.selectedYColumn s' = Some y
                ∧ x ∈ TableData.columns td ∧ y ∈ TableData.columns td)
        ∧ ∀ c, (Manual.fetchChartData s').2 = Some c →
               Manual.chart_x_column c ∈ TableData.columns td
               ∧ Manual.chart_y_column c ∈ TableData.columns td).
Proof.
  intros Hne. split.
  - intros s Htd s'.
    destruct (tableLib_inferColumns_columns td s Htd) as [HX HY].
    destruct (inferX_listed td (TableLib.selectedXColumn s) Hne)
      as (x & Hx & Hinx).
    destruct (inferY_listed td (TableLib.selectedYColumn s) Hne)
      as (y & Hy & Hiny).
    fold s' in HX, HY. rewrite Hx in HX. rewrite Hy in HY.
    split; [by exists x, y |].
    intros c. unfold TableLib.fetchChartData. rewrite HX, HY.
    destruct (TableLib.selectedFileId s'); [| discriminate].
    destruct (_ && _); [| discriminate]. by intros [= <-].
  - intros s call HcX HcY s'.
    destruct (manual_fulfilled_columns call td s) as [HX HY].
    rewrite HcX in HX. rewrite HcY in HY.
    destruct (inferX_listed td (Manual.selectedXColumn s) Hne)
      as (x & Hx & Hinx).
    destruct (inferY_listed td (Manual.selectedYColumn s) Hne)
      as (y & Hy & Hiny).
    fold s' in HX, HY. rewrite Hx in HX. rewrite Hy in HY.
    split; [by exists x, y |].
    intros c. unfold Manual.fetchChartData. rewrite HX, HY.
    destruct (Manual.selectedFileId s'); [| discriminate].
    destruct (_ && _); [| discriminate]. by intros [= <-].
Qed.

(** The theorem at the people page arriving while columns of another file
    are chosen. *)
Lemma inferred_columns_listed_witness :
  let s := TableLib.setSelectedYColumn (Some "g_col")
             (TableLib.setSelectedXColumn (Some "g_col")
                Examples.tableLibLoaded) in
  ∃ x y, TableLib.selectedXColumn (TableLib.inferColumns s) = Some x
         ∧ TableLib.selectedYColumn (TableLib.inferColumns s) = Some y
         ∧ x ∈ TableData.columns Examples.people
         ∧ y ∈ TableData.columns Examples.people.
Proof.
  intros s.
  assert (TableData.columns Examples.people ≠ []) as Hne by discriminate.
  destruct (inferred_columns_listed Examples.people Hne) as [Htl _].
  destruct (Htl s eq_refl) as [Hlisted _]. exact Hlisted.
Defined.

(** X13: a page without columns clears the chart: inference sets both
    columns to absent, and the run of [fetchChartData] that follows sends
    nothing and sets the chart to absent. *)
Theorem page_without_columns_clears_chart (td : TableData.t) :
  TableData.columns td = [] →
  (∀ s : TableLib.State,
      TableLib.tableData s = Some td →
      let s' := TableLib.inferColumns s in
      TableLib.selectedXColumn s' = None
      ∧ TableLib.selectedYColumn s' = None
      ∧ (TableLib.fetchChartData s').2 = None
      ∧ TableLib.chartData (TableLib.fetchChartData s').1 = None)
  ∧ (∀ (s : Manual.State) (call : Manual.DataCall),
        let s' := Manual.fetchData_fulfilled call td s in
        Manual.selectedXColumn s' = None
        ∧ Manual.selectedYColumn s' = None
        ∧ (Manual.fetchChartData s').2 = None
        ∧ Manual.chartData (Manual.fetchChartData s').1 = None).
Proof.
  intros Hnil. split.
  - intros s Htd s'.
    destruct (tableLib_inferColumns_columns td s Htd) as [HX HY].
    assert (TableLib.selectedXColumn s' = None) as HX'.
    { unfold s'. rewrite HX. unfold inferX. by rewrite Hnil. }
    assert (TableLib.selectedYColumn s' = None) as HY'.
    { unfold s'. rewrite HY. unfold inferY. by rewrite Hnil. }
    split; [done |]. split; [done |].
    unfold TableLib.fetchChartData. rewrite HX'.
    by destruct (TableLib.selectedFileId s').
  - intros s call s'.
    destruct (manual_fulfilled_columns call td s) as [HX HY].
    assert (Manual.selectedXColumn s' = None) as HX'.
    { unfold s'. rewrite HX. unfold inferX. by rewrite Hnil. }
    assert (Manual.selectedYColumn s' = None) as HY'.
    { unfold s'. rewrite HY. unfold inferY. by rewrite Hnil. }
    split; [done |]. split; [done |].
    unfold Manual.fetchChartData. rewrite HX'.
    by destruct (Manual.selectedFileId s').
Qed.

(** The theorem at the loaded dashboards, when a page without columns
    arrives. *)
Lemma page_without_columns_clears_chart_witness :
  let td := TableData.mk [] 0 1 10 [] in
  let s' := Manual.fetchData_fulfilled
              (Manual.mkDataCall "f" 1 10 None Manual.asc EmptyString
                                 (Some "name") (Some "age"))
              td Examples.manualLoaded in
  Manual.selectedXColumn s' = None
  ∧ Manual.selectedYColumn s' = None
  ∧ (Manual.fetchChartData s').2 = None
  ∧ Manual.chartData (Manual.fetchChartData s').1 = None.
Proof.
  intros td s'.
  apply (proj2 (page_without_columns_clears_chart td eq_refl)).
Defined.

(** ** More on the selection after a dataset-list response *)

(** X14: a list response leaves a selected file alone while its id, not
    empty, is still in the list: only the file list is replaced, and the
    first file is not put in its place. *)
Theorem listed_selection_kept (fileId : string)
        (data : list UploadedFile.t) :
  fileId ≠ EmptyString →
  fileId ∈ (UploadedFile.id <$> data) →
  pickSelection (Some fileId) data = None
  ∧ (∀ s, Manual.fetchFiles_fulfilled (Manual.mkFilesCall (Some fileId))
                                      data s
          = Manual.setFiles data s)
  ∧ (∀ s, TableLib.fetchFiles_fulfilled (TableLib.mkFilesCall (Some fileId))
                                        data s
          = TableLib.setFiles data s).
Proof.
  intros Hid Hin.
  assert (pickSelection (Some fileId) data = None) as Hpick.
  { unfold pickSelection. apply truthy_Some in Hid. rewrite Hid.
    rewrite andb_false_r, andb_true_r.
    assert (existsb (fun f => bool_decide (Some (UploadedFile.id f)
                                            = Some fileId)) data = true)
      as ->.
    { apply listed_test. apply list_elem_of_fmap in Hin as (f & -> & Hf).
      by exists f. }
    destruct data; [by apply elem_of_nil in Hin | reflexivity]. }
  split; [done |]. split; intros s.
  - unfold Manual.fetchFiles_fulfilled. simpl. by rewrite Hpick.
  - unfold TableLib.fetchFiles_fulfilled. simpl. by rewrite Hpick.
Qed.

(** The theorem at the file g, second in the list. *)
Lemma listed_selection_kept_witness :
  pickSelection (Some "g") [Examples.file "f"; Examples.file "g"] = None.
Proof.
  apply (listed_selection_kept "g" [Examples.file "f"; Examples.file "g"]).
  - discriminate.
  - apply list_elem_of_further, list_elem_of_here.
Defined.

Lemma pickSelection_listed sel (data : list UploadedFile.t) :
  truthy (default sel (pickSelection sel data)) = true →
  ∃ f, f ∈ data ∧ Some (UploadedFile.id f) = default sel (pickSelection sel data).
Proof.
  unfold pickSelection.
  assert (truthy (UploadedFile.id <$> data !! 0%nat) = true →
          ∃ f, f ∈ data
               ∧ Some (UploadedFile.id f)
                 = UploadedFile.id <$> data !! 0%nat) as Hfirst.
  { destruct data as [| f fs]; [discriminate |]. intros _.
    exists f. split; [apply list_elem_of_here | reflexivity]. }
  destruct ((0 <? length data)%nat && negb (truthy sel)) eqn:H1; simpl.
  { exact Hfirst. }
  destruct ((length data =? 0)%nat && truthy sel) eqn:H2; simpl.
  { discriminate. }
  destruct (truthy sel
            && negb (existsb (fun f => bool_decide (Some (UploadedFile.id f)
                                                    = sel)) data)) eqn:H3;
    simpl.
  { destruct (0 <? length data)%nat; [exact Hfirst | discriminate]. }
  intros Ht. rewrite Ht in H3. simpl in H3. apply negb_false_iff in H3.
  by apply listed_test in H3.
Qed.

(** X15: after a list response to a request that closed over the current
    selection, a selection that is not empty is the id of a file of the new
    list. *)
Theorem selection_listed_after_refresh :
  (∀ (s : Manual.State) (data : list UploadedFile.t),
      let s' := Manual.fetchFiles_fulfilled
                  (Manual.mkFilesCall (Manual.selectedFileId s)) data s in
      truthy (Manual.selectedFileId s') = true →
      ∃ f, f ∈ Manual.files s'
           ∧ Manual.selectedFileId s' = Some (UploadedFile.id f))
  ∧ (∀ (s : TableLib.State) (data : list UploadedFile.t),
        let s' := TableLib.fetchFiles_fulfilled
                    (TableLib.mkFilesCall (TableLib.selectedFileId s))
                    data s in
        truthy (TableLib.selectedFileId s') = true →
        ∃ f, f ∈ TableLib.files s'
             ∧ TableLib.selectedFileId s' = Some (UploadedFile.id f)).
Proof.
  split; intros s data s'.
  - assert (Manual.selectedFileId s'
            = default (Manual.selectedFileId s)
                      (pickSelection (Manual.selectedFileId s) data)
            ∧ Manual.files s' = data) as [-> ->].
    { unfold s', Manual.fetchFiles_fulfilled. simpl.
      by destruct (pickSelection _ _). }
    intros Ht. destruct (pickSelection_listed _ _ Ht) as (f & Hf & Heq).
    by exists f.
  - assert (TableLib.selectedFileId s'
            = default (TableLib.selectedFileId s)
                      (pickSelection (TableLib.selectedFileId s) data)
            ∧ TableLib.files s' = data) as [-> ->].
    { unfold s', TableLib.fetchFiles_fulfilled. simpl.
      by destruct (pickSelection _ _). }
    intros Ht. destruct (pickSelection_listed _ _ Ht) as (f & Hf & Heq).
    by exists f.
Qed.

(** The theorem at the loaded dashboard, when the list comes back without
    the selected file f. *)
Lemma selection_listed_after_refresh_witness :
  let s' := Manual.fetchFiles_fulfilled (Manual.mkFilesCall (Some "f"))
              [Examples.file "g"; Examples.file "h"] Examples.manualLoaded in
  ∃ f, f ∈ Manual.files s'
       ∧ Manual.selectedFileId s' = Some (UploadedFile.id f).
Proof.
  intros s'.
  apply (proj1 selection_listed_after_refresh Examples.manualLoaded
               [Examples.file "g"; Examples.file "h"]).
  reflexivity.
Defined.

(** ** More on the sort of the manual dashboard *)

(** X16: a click on the header of the sort column keeps the column and
    flips the order, and a second click undoes the first: two clicks on it
    leave the state as it was. *)
Theorem handleSort_twice (column : string) (s : Manual.State) :
  Manual.sortColumn s = Some column →
  Manual.sortColumn (Manual.handleSort column s) = Some column
  ∧ Manual.sortOrder (Manual.handleSort column s) ≠ Manual.sortOrder s
  ∧ Manual.handleSort column (Manual.handleSort column s) = s.
Proof.
  intros Hc.
  assert (∀ s0, Manual.sortColumn s0 = Some column →
                Manual.handleSort column s0
                = Manual.setSortOrder
                    (match Manual.sortOrder s0 with
                     | Manual.asc => Manual.desc
                     | Manual.desc => Manual.asc
                     end) s0) as Hflip.
  { intros s0 H0. unfold Manual.handleSort.
    by rewrite bool_decide_eq_true_2. }
  rewrite (Hflip (Manual.handleSort column s)), (Hflip s) by
    (done || by rewrite (Hflip s)).
  simpl. split; [done |]. split; [by destruct (Manual.sortOrder s) |].
  destruct s as [? ? ? ? ? ? ? order ? ? ? ? ? ? ? ?]. simpl.
  by destruct order.
Qed.

(** The theorem at a dashboard sorted by age. *)
Lemma handleSort_twice_witness :
  let s := Manual.handleSort "age" Examples.manualLoaded in
  Manual.handleSort "age" (Manual.handleSort "age" s) = s.
Proof.
  intros s. apply (handleSort_twice "age" s). reflexivity.
Defined.

Lemma manual_sort_stays_step e w w' :
  manualIsFileClick e = false →
  Manual.exec e w = Some w' →
  is_Some (Manual.sortColumn (Manual.ui w)) →
  is_Some (Manual.sortColumn (Manual.ui w')).
Proof.
  intros Hfile Hexec. destruct e; try discriminate Hfile;
    exec_step Hexec; step_cases; solve [done | eauto].
Qed.

(** X17: in a run of the manual dashboard without a click on a file, a
    sort, once set, is never removed: neither by clicks on headers nor by
    any other action, effect or response. *)
Theorem sort_never_removed (es : list Manual.Event) (w w' : Manual.World) :
  forallb (fun e => negb (manualIsFileClick e)) es = true →
  Manual.run es w = Some w' →
  is_Some (Manual.sortColumn (Manual.ui w)) →
  is_Some (Manual.sortColumn (Manual.ui w')).
Proof.
  revert w. induction es as [| e es IH]; intros w Hes Hrun Hsort.
  - by injection Hrun as <-.
  - simpl in Hes, Hrun. apply andb_true_iff in Hes as [He Hes].
    apply negb_true_iff in He.
    destruct (Manual.exec e w) as [w1 |] eqn:Hexec; [| discriminate].
    apply (IH w1 Hes Hrun). by apply (manual_sort_stays_step e w w1).
Qed.

(** The theorem at three clicks on the header of age and a change of the
    page size. *)
Lemma sort_never_removed_witness :
  let es := [Manual.HeaderClicked "age"; Manual.HeaderClicked "age";
             Manual.PageSizeChosen 25; Manual.HeaderClicked "age"] in
  let w := Manual.mounted (Manual.handleSort "name" Examples.manualLoaded) in
  ∃ w', Manual.run es w = Some w'
        ∧ is_Some (Manual.sortColumn (Manual.ui w')).
Proof.
  intros es w. eexists. split; [reflexivity |].
  eapply (sort_never_removed es w); [reflexivity | reflexivity |].
  by eexists.
Defined.

(** ** What responses leave alone *)

(** X18: the arrival or the failure of a response never changes the page,
    the page size, the sort, the filter text or the chart type; in the
    table-library dashboard it does not change the chart columns either
    (its inference is an effect of its own), and in both it leaves the
    requests of the other streams in flight. *)
Theorem responses_keep_view_intent :
  (∀ (e : Manual.Event) (w w' : Manual.World),
      manualIsResponse e = true →
      Manual.exec e w = Some w' →
      Manual.currentPage (Manual.ui w') = Manual.currentPage (Manual.ui w)
      ∧ Manual.pageSize (Manual.ui w') = Manual.pageSize (Manual.ui w)
      ∧ Manual.sortColumn (Manual.ui w') = Manual.sortColumn (Manual.ui w)
      ∧ Manual.sortOrder (Manual.ui w') = Manual.sortOrder (Manual.ui w)
      ∧ Manual.searchQuery (Manual.ui w') = Manual.searchQuery (Manual.ui w)
      ∧ Manual.selectedChartType (Manual.ui w')
        = Manual.selectedChartType (Manual.ui w))
  ∧ (∀ (e : TableLib.Event) (w w' : TableLib.World),
        tableLibIsResponse e = true →
        TableLib.exec e w = Some w' →
        TableLib.currentPage (TableLib.ui w')
        = TableLib.currentPage (TableLib.ui w)
        ∧ TableLib.pageSize (TableLib.ui w')
          = TableLib.pageSize (TableLib.ui w)
        ∧ TableLib.sorting (TableLib.ui w') = TableLib.sorting (TableLib.ui w)
        ∧ TableLib.globalFilter (TableLib.ui w')
          = TableLib.globalFilter (TableLib.ui w)
        ∧ TableLib.selectedChartType (TableLib.ui w')
          = TableLib.selectedChartType (TableLib.ui w)
        ∧ TableLib.selectedXColumn (TableLib.ui w')
          = TableLib.selectedXColumn (TableLib.ui w)
        ∧ TableLib.selectedYColumn (TableLib.ui w')
          = TableLib.selectedYColumn (TableLib.ui w)).
Proof.
  split; intros e w w' He Hexec.
  - destruct e; try discriminate He; exec_step Hexec; step_cases;
      repeat split.
  - destruct e; try discriminate He; exec_step Hexec; step_cases;
      repeat split.
Qed.

(** The theorem at a page that arrives at the loaded dashboard. *)
Lemma responses_keep_view_intent_witness :
  let c := Manual.mkDataCall "f" 1 10 None Manual.asc EmptyString
                             (Some "name") (Some "age") in
  Manual.currentPage
    (Manual.fetchData_fulfilled c Examples.pageOfG Examples.manualLoaded)
  = Manual.currentPage Examples.manualLoaded.
Proof.
  intros c.
  exact (proj1 (proj1 responses_keep_view_intent
                      (Manual.DataFulfilled 0 Examples.pageOfG)
                      (Manual.mkWorld Examples.manualLoaded [] [c] [])
                      (Manual.mkWorld
                         (Manual.fetchData_fulfilled c Examples.pageOfG
                                                     Examples.manualLoaded)
                         [] [] [])
                      eq_refl eq_refl)).
Defined.

Lemma lookup_delete_other {A} (l : list A) (i j : nat) (x : A) :
  i ≠ j → l !! j = Some x → x ∈ delete i l.
Proof.
  intros Hne Hj. apply list_elem_of_lookup.
  destruct (decide (j < i)%nat) as [Hlt | Hge].
  - exists j. by rewrite list_lookup_delete_lt.
  - exists (pred j). rewrite list_lookup_delete_ge by lia.
    by replace (S (pred j)) with j by lia.
Qed.

(** X19: the table's loading flag is cleared by the first response, or
    failure, that comes in, also while another page request is still in
    flight; likewise for the chart. *)
Theorem loading_cleared_by_first_response :
  (∀ (w : Manual.World) (i j : nat) (ci cj : Manual.DataCall) response,
      i ≠ j →
      Manual.dataInFlight w !! i = Some ci →
      Manual.dataInFlight w !! j = Some cj →
      (∃ w', Manual.exec (Manual.DataFulfilled i response) w = Some w'
             ∧ Manual.isLoadingTable (Manual.ui w') = false
             ∧ cj ∈ Manual.dataInFlight w')
      ∧ (∃ w', Manual.exec (Manual.DataRejected i) w = Some w'
               ∧ Manual.isLoadingTable (Manual.ui w') = false
               ∧ cj ∈ Manual.dataInFlight w'))
  ∧ (∀ (w : Manual.World) (i j : nat) (ci cj : Manual.ChartCall) response,
        i ≠ j →
        Manual.chartInFlight w !! i = Some ci →
        Manual.chartInFlight w !! j = Some cj →
        (∃ w', Manual.exec (Manual.ChartFulfilled i response) w = Some w'
               ∧ Manual.isLoadingChart (Manual.ui w') = false
               ∧ cj ∈ Manual.chartInFlight w')
        ∧ (∃ w', Manual.exec (Manual.ChartRejected i) w = Some w'
                 ∧ Manual.isLoadingChart (Manual.ui w') = false
                 ∧ cj ∈ Manual.chartInFlight w'))
  ∧ (∀ (w : TableLib.World) (i j : nat) (ci cj : TableLib.DataCall) response,
        i ≠ j →
        TableLib.dataInFlight w !! i = Some ci →
        TableLib.dataInFlight w !! j = Some cj →
        (∃ w', TableLib.exec (TableLib.DataFulfilled i response) w = Some w'
               ∧ TableLib.isLoadingTable (TableLib.ui w') = false
               ∧ cj ∈ TableLib.dataInFlight w')
        ∧ (∃ w', TableLib.exec (TableLib.DataRejected i) w = Some w'
                 ∧ TableLib.isLoadingTable (TableLib.ui w') = false
                 ∧ cj ∈ TableLib.dataInFlight w'))
  ∧ (∀ (w : TableLib.World) (i j : nat) (ci cj : TableLib.ChartCall)
       response,
        i ≠ j →
        TableLib.chartInFlight w !! i = Some ci →
        TableLib.chartInFlight w !! j = Some cj →
        (∃ w', TableLib.exec (TableLib.ChartFulfilled i response) w = Some w'
               ∧ TableLib.isLoadingChart (TableLib.ui w') = false
               ∧ cj ∈ TableLib.chartInFlight w')
        ∧ (∃ w', TableLib.exec (TableLib.ChartRejected i) w = Some w'
                 ∧ TableLib.isLoadingChart (TableLib.ui w') = false
                 ∧ cj ∈ TableLib.chartInFlight w')).
Proof.
  split; [| split; [| split]]; intros w i j ci cj response Hne Hi Hj;
    (split; eexists; simpl; rewrite Hi; simpl;
     (split; [reflexivity |]);
     (split; [| by apply (lookup_delete_other _ i j)])).
  all: reflexivity.
Qed.

(** The theorem at the run [overtakenPage], where the page of f arrives
    while a request for g is in flight. *)
Lemma loading_cleared_by_first_response_witness :
  ∃ w', Manual.exec (Manual.DataFulfilled 0 Examples.pageOfF)
                    Examples.manualOvertaken = Some w'
        ∧ Manual.isLoadingTable (Manual.ui w') = false
        ∧ Manual.mkDataCall "g" 1 10 None Manual.asc EmptyString
                            (Some "g_col") (Some "g_col")
          ∈ Manual.dataInFlight w'.
Proof.
  apply (proj1 (proj1 loading_cleared_by_first_response
                      Examples.manualOvertaken 0%nat 1%nat
                      (Manual.mkDataCall "f" 1 10 None Manual.asc EmptyString
                                         None None)
                      (Manual.mkDataCall "g" 1 10 None Manual.asc EmptyString
                                         (Some "g_col") (Some "g_col"))
                      Examples.pageOfF ltac:(discriminate)
                      ltac:(vm_compute; reflexivity)
                      ltac:(vm_compute; reflexivity))).
Defined.

(** ** The pagination and the sort of the table-library dashboard *)

(** X20: [onPaginationChange] stores the pagination the table library asks
    for: the page size is the new one; the page is the new index plus one
    when the page size stays, and 1 when it changes, whatever the new index;
    nothing else changes.  When the page size stays, the pagination handed
    back to the library is the one it asked for, and asking for the current
    one changes nothing. *)
Theorem onPaginationChange_stores
        (u : TableLib.Updater PaginationState.t) (s : TableLib.State) :
  let shown s := PaginationState.mk (TableLib.currentPage s - 1)
                                    (TableLib.pageSize s) in
  let new := TableLib.resolveUpdater u (shown s) in
  let s' := TableLib.onPaginationChange u s in
  TableLib.pageSize s' = PaginationState.pageSize new
  ∧ (PaginationState.pageSize new ≠ TableLib.pageSize s →
     TableLib.currentPage s' = 1)
  ∧ (PaginationState.pageSize new = TableLib.pageSize s → shown s' = new)
  ∧ (new = shown s → s' = s)
  ∧ TableLib.setCurrentPage (TableLib.currentPage s)
      (TableLib.setPageSize (TableLib.pageSize s) s') = s.
Proof.
  intros shown new s'.
  assert (s' = if Z.eqb (PaginationState.pageSize new) (TableLib.pageSize s)
               then TableLib.setCurrentPage
                      (PaginationState.pageIndex new + 1)
                      (TableLib.setPageSize (PaginationState.pageSize new) s)
               else TableLib.setCurrentPage 1
                      (TableLib.setPageSize (PaginationState.pageSize new) s))
    as ->.
  { unfold s', TableLib.onPaginationChange. fold (shown s). fold new.
    by destruct (Z.eqb _ _). }
  destruct (Z.eqb_spec (PaginationState.pageSize new) (TableLib.pageSize s))
    as [Heq | Hne].
  - split; [done |]. split; [done |]. split.
    + intros _. unfold shown. simpl. destruct new as [index size].
      simpl. by rewrite Z.add_simpl_r.
    + split; [| by destruct s].
      intros ->. unfold shown. simpl. destruct s. simpl.
      by rewrite Z.sub_add.
  - split; [done |]. split; [done |]. split; [done |].
    split; [| by destruct s]. intros Hnew. by rewrite Hnew in Hne.
Qed.

(** The theorem at the table library's change of the page size to 25 on
    page 3. *)
Lemma onPaginationChange_stores_witness :
  let s := TableLib.setCurrentPage 3 Examples.tableLibLoaded in
  let u := TableLib.Fn (fun old =>
             PaginationState.mk (PaginationState.pageIndex old) 25) in
  TableLib.currentPage (TableLib.onPaginationChange u s) = 1
  ∧ TableLib.pageSize (TableLib.onPaginationChange u s) = 25.
Proof.
  intros s u.
  destruct (onPaginationChange_stores u s) as (Hsize & Hpage & _).
  split; [apply Hpage; discriminate | exact Hsize].
Defined.

(** X21: the page request of the table-library dashboard carries a sort
    column and a sort order together or neither; they are those of the
    first entry of the sorting, and further entries change nothing in the
    request. *)
Theorem tableLib_sort_params (s : TableLib.State) (c : TableLib.DataCall) :
  (TableLib.fetchData s).2 = Some c →
  (TableLib.sorting s = [] →
   TableLib.data_sort_by c = None ∧ TableLib.data_sort_order c = None)
  ∧ (∀ first rest,
        TableLib.sorting s = first :: rest →
        TableLib.data_sort_by c = Some (ColumnSort.id first)
        ∧ TableLib.data_sort_order c
          = Some (if ColumnSort.desc first then "desc" else "asc")
        ∧ (TableLib.fetchData (TableLib.setSorting [first] s)).2 = Some c).
Proof.
  unfold TableLib.fetchData.
  change (TableLib.selectedFileId (TableLib.setSorting _ s))
    with (TableLib.selectedFileId s).
  destruct (TableLib.selectedFileId s) as [fileId |]; [| discriminate].
  destruct (truthy (Some fileId)); [| discriminate].
  simpl. intros [= <-]. simpl. split.
  - by intros ->.
  - intros first rest ->. simpl. by rewrite ?(surjective_pairing _).
Qed.

(** The theorem at a sorting by age, descending, then by name. *)
Lemma tableLib_sort_params_witness :
  let s := TableLib.setSorting
             [ColumnSort.mk "age" true; ColumnSort.mk "name" false]
             Examples.tableLibLoaded in
  ∃ c, (TableLib.fetchData s).2 = Some c
       ∧ TableLib.data_sort_by c = Some "age"
       ∧ TableLib.data_sort_order c = Some "desc".
Proof.
  intros s.
  set (c := TableLib.mkDataCall "f" 1 10 EmptyString
                                (Some "age") (Some "desc")).
  destruct (tableLib_sort_params s c eq_refl) as [_ Hfirst].
  destruct (Hfirst (ColumnSort.mk "age" true) [ColumnSort.mk "name" false]
                   eq_refl) as (Hby & Horder & _).
  exists c. split; [reflexivity |]. by split.
Defined.

(** ** What user actions leave alone *)

(** X22: an action of the user changes neither the table, the chart, the
    file list, the loading flags and the error texts, nor the requests in
    flight: after a click on another file the page of the former file is
    still the one held, until a response replaces it. *)
Theorem user_actions_keep_results :
  (∀ (e : Manual.Event) (w w' : Manual.World),
      manualIsUserAction e = true →
      Manual.exec e w = Some w' →
      Manual.tableStream (Manual.ui w') = Manual.tableStream (Manual.ui w)
      ∧ Manual.chartStream (Manual.ui w') = Manual.chartStream (Manual.ui w)
      ∧ Manual.files (Manual.ui w') = Manual.files (Manual.ui w)
      ∧ Manual.filesInFlight w' = Manual.filesInFlight w
      ∧ Manual.dataInFlight w' = Manual.dataInFlight w
      ∧ Manual.chartInFlight w' = Manual.chartInFlight w)
  ∧ (∀ (e : TableLib.Event) (w w' : TableLib.World),
        tableLibIsUserAction e = true →
        TableLib.exec e w = Some w' →
        TableLib.tableStream (TableLib.ui w')
        = TableLib.tableStream (TableLib.ui w)
        ∧ TableLib.chartStream (TableLib.ui w')
          = TableLib.chartStream (TableLib.ui w)
        ∧ TableLib.files (TableLib.ui w') = TableLib.files (TableLib.ui w)
        ∧ TableLib.filesInFlight w' = TableLib.filesInFlight w
        ∧ TableLib.dataInFlight w' = TableLib.dataInFlight w
        ∧ TableLib.chartInFlight w' = TableLib.chartInFlight w).
Proof.
  split; intros e w w' He Hexec.
  - destruct e; try discriminate He; exec_step Hexec; step_cases;
      repeat split.
  - destruct e; try discriminate He; exec_step Hexec; step_cases;
      repeat split.
Qed.

(** The theorem at a click on file g while the people page of file f is
    shown. *)
Lemma user_actions_keep_results_witness :
  Manual.selectedFileId (Manual.handleFileSelect "g" Examples.manualLoaded)
  = Some "g"
  ∧ Manual.tableStream (Manual.handleFileSelect "g" Examples.manualLoaded)
    = Manual.tableStream Examples.manualLoaded.
Proof.
  split; [reflexivity |].
  exact (proj1 (proj1 user_actions_keep_results
                      (Manual.FileClicked "g")
                      (Manual.mounted Examples.manualLoaded)
                      (Manual.mounted
                         (Manual.handleFileSelect "g" Examples.manualLoaded))
                      eq_refl eq_refl)).
Defined.

(** ** The upload dialog *)

Lemma upload_error_truthy (error : Upload.Failure) (s : Upload.State) :
  Upload.jsTruthy
    (Upload.fileUploadError (Upload.handleFileUpload_rejected error s).1)
  = true.
Proof.
  destruct error as [detail |]; simpl; [| reflexivity].
  by destruct (Upload.jsTruthy detail) eqn:Hd.
Qed.

(** X23: an upload that has started sets the uploading flag and removes the
    error.  Whether it succeeds or fails, the flag is cleared and the file
    input emptied at the end.  A success closes the dialog, leaves no
    error and calls [fetchFiles]; a failure leaves the dialog as it is,
    never calls [fetchFiles], and always leaves an error that is truthy,
    hence shown.  Without a file nothing is sent and the flag is left
    alone. *)
Theorem upload_outcomes (name : string) (error : Upload.Failure)
        (s : Upload.State) :
  let started := (Upload.handleFileUpload (Some name) s).1 in
  let succeeded := Upload.handleFileUpload_fulfilled name started in
  let failed := Upload.handleFileUpload_rejected error started in
  ((Upload.handleFileUpload (Some name) s).2 = [Upload.Post name]
   ∧ Upload.isUploading started = true
   ∧ Upload.fileUploadError started = JNull)
  ∧ (Upload.isUploading succeeded.1 = false
     ∧ Upload.isUploadDialogOpen succeeded.1 = false
     ∧ Upload.fileUploadError succeeded.1 = JNull
     ∧ (Upload.CallFetchFiles ∈ succeeded.2)
     ∧ last succeeded.2 = Some Upload.ClearInput)
  ∧ (Upload.isUploading failed.1 = false
     ∧ Upload.isUploadDialogOpen failed.1 = Upload.isUploadDialogOpen s
     ∧ Upload.jsTruthy (Upload.fileUploadError failed.1) = true
     ∧ (Upload.CallFetchFiles ∉ failed.2)
     ∧ last failed.2 = Some Upload.ClearInput)
  ∧ ((Upload.handleFileUpload None s).2 = []
     ∧ Upload.isUploading (Upload.handleFileUpload None s).1
       = Upload.isUploading s
     ∧ Upload.jsTruthy
         (Upload.fileUploadError (Upload.handleFileUpload None s).1)
       = true).
Proof.
  intros started succeeded failed.
  split; [by repeat split |].
  split.
  { repeat split. apply list_elem_of_further, list_elem_of_here. }
  split; [| by repeat split].
  split; [reflexivity |]. split; [reflexivity |].
  split; [apply upload_error_truthy |].
  split; [| reflexivity].
  intros Hin. apply elem_of_cons in Hin as [Heq | Hin]; [discriminate |].
  by apply elem_of_nil in Hin.
Qed.

(** ** The selection the manual dashboard's inference reads *)

(** X24: in the manual dashboard the response to a page request that closed
    over an absent or unlisted X column sets the X column to [columns[0]]
    whatever the X column is by now, also when the user has meanwhile
    chosen a column of that very page; likewise the Y column is replaced
    when the request closed over an absent or unlisted one. *)
Theorem late_response_replaces_chosen_columns (td : TableData.t)
        (call : Manual.DataCall) (s : Manual.State) :
  TableData.columns td ≠ [] →
  (Invalid (TableData.columns td) (Manual.data_selectedXColumn call) →
   Manual.selectedXColumn (Manual.fetchData_fulfilled call td s)
   = TableData.columns td !! 0%nat)
  ∧ (Invalid (TableData.columns td) (Manual.data_selectedYColumn call) →
     Manual.selectedYColumn (Manual.fetchData_fulfilled call td s)
     = jsOr (jsOr (numericColumn td) (TableData.columns td !! 1%nat))
            (TableData.columns td !! 0%nat)).
Proof.
  intros Hne. destruct (manual_fulfilled_columns call td s) as [-> ->].
  unfold inferX, inferY. rewrite (nonempty_length _ Hne).
  split; intros Hinv; by rewrite invalid_test.
Qed.

(** The theorem at the people page, requested before any column was chosen
    and arriving after the user chose city for the X axis. *)
Lemma late_response_replaces_chosen_columns_witness :
  let s := Manual.setSelectedXColumn (Some "city") Examples.manualLoaded in
  let call := Manual.mkDataCall "f" 1 10 None Manual.asc EmptyString
                                None None in
  "city" ∈ TableData.columns Examples.people
  ∧ Manual.selectedXColumn s = Some "city"
  ∧ Manual.selectedXColumn
      (Manual.fetchData_fulfilled call Examples.people s)
    = Some "name".
Proof.
  intros s call.
  split; [apply list_elem_of_further, list_elem_of_further,
            list_elem_of_here |].
  split; [reflexivity |].
  apply (proj1 (late_response_replaces_chosen_columns Examples.people call s
                  ltac:(discriminate))).
  by left.
Defined.
